(** * AI Terminal: the execution backends and the AI dispatch loop

    A shallow embedding of [local_client.py], [ssh_client.py] and of the
    dispatch and completion code of [AIDesktop/main.py].

    Python [str] values are modelled by [string]; a character is a code
    point below 256.  The operating system, the remote host and the model
    client are explicit oracles carried next to the client state, and every
    call made to them is recorded in a trace. *)

From Stdlib Require Import Bool Arith Lia List ZArith Ascii String.
From Stdlib Require Import Numbers.DecimalString Sorting.Permutation.
Import ListNotations.

Local Open Scope string_scope.
Local Open Scope bool_scope.

(** ** Python string primitives *)

Module PyStr.

Definition nl : string := String "010"%char EmptyString.
Definition dquote : string := String "034"%char EmptyString.
Definition squote : string := String "039"%char EmptyString.

(** [str.isspace] on one character (code points below 256). *)
Definition is_space (c : ascii) : bool :=
  let n := nat_of_ascii c in
  (((9 <=? n) && (n <=? 13)) || ((28 <=? n) && (n <=? 32))
   || (n =? 133) || (n =? 160))%nat.

(** [s.lstrip()] *)
Fixpoint lstrip (s : string) : string :=
  match s with
  | EmptyString => EmptyString
  | String c s' => if is_space c then lstrip s' else s
  end.

(** [s.rstrip()] *)
Fixpoint rstrip (s : string) : string :=
  match s with
  | EmptyString => EmptyString
  | String c s' =>
      match rstrip s' with
      | EmptyString => if is_space c then EmptyString else String c EmptyString
      | r => String c r
      end
  end.

(** [s.strip()] *)
Definition strip (s : string) : string := lstrip (rstrip s).

(** [s.startswith(p)] *)
Fixpoint startswith (p s : string) : bool :=
  match p, s with
  | EmptyString, _ => true
  | String a p', String b s' => Ascii.eqb a b && startswith p' s'
  | String _ _, EmptyString => false
  end.

(** [s.endswith(c)] for one character. *)
Fixpoint endswith_char (c : ascii) (s : string) : bool :=
  match s with
  | EmptyString => false
  | String a EmptyString => Ascii.eqb a c
  | String _ s' => endswith_char c s'
  end.

(** [s[n:]] for [0 <= n] *)
Fixpoint drop (n : nat) (s : string) : string :=
  match n, s with
  | O, _ => s
  | S _, EmptyString => EmptyString
  | S k, String _ s' => drop k s'
  end.

(** [s[:n]] for [0 <= n] *)
Fixpoint take (n : nat) (s : string) : string :=
  match n, s with
  | O, _ => EmptyString
  | S _, EmptyString => EmptyString
  | S k, String c s' => String c (take k s')
  end.

(** [s[:z]] for any integer [z]: a negative bound counts from the end. *)
Definition slice_to (z : Z) (s : string) : string :=
  if (z <? 0)%Z
  then take (Z.to_nat (Z.of_nat (length s) + z)) s
  else take (Z.to_nat z) s.

(** [s.replace(old, new)] for a non-empty [old]: occurrences are found
    left to right and do not overlap; [skip] counts the characters of a
    matched occurrence that are still to be passed over. *)
Fixpoint replace_from (old new : string) (skip : nat) (s : string) : string :=
  match s with
  | EmptyString => EmptyString
  | String c s' =>
      match skip with
      | S k => replace_from old new k s'
      | O =>
          if startswith old s
          then new ++ replace_from old new (length old - 1) s'
          else String c (replace_from old new 0 s')
      end
  end.

Definition replace (old new s : string) : string := replace_from old new 0 s.

(** [s.split(sep)] for a one-character separator: never an empty list. *)
Fixpoint split_char (sep : ascii) (s : string) : list string :=
  match s with
  | EmptyString => [EmptyString]
  | String c s' =>
      if Ascii.eqb c sep then EmptyString :: split_char sep s'
      else match split_char sep s' with
           | [] => [String c EmptyString]
           | w :: ws => String c w :: ws
           end
  end.

(** [sep.join(parts)] *)
Fixpoint join (sep : string) (parts : list string) : string :=
  match parts with
  | [] => EmptyString
  | [p] => p
  | p :: ps => p ++ sep ++ join sep ps
  end.

(** [s.split()]: the maximal runs of non-whitespace characters. *)
Fixpoint split_ws_from (cur : string) (s : string) : list string :=
  match s with
  | EmptyString => match cur with EmptyString => [] | _ => [cur] end
  | String c s' =>
      if is_space c
      then match cur with
           | EmptyString => split_ws_from EmptyString s'
           | _ => cur :: split_ws_from EmptyString s'
           end
      else split_ws_from (cur ++ String c EmptyString) s'
  end.

Definition split_ws (s : string) : list string := split_ws_from EmptyString s.

Definition lower_char (c : ascii) : ascii :=
  let n := nat_of_ascii c in
  if (((65 <=? n) && (n <=? 90))
      || ((192 <=? n) && (n <=? 222) && negb (n =? 215)))%nat
  then ascii_of_nat (n + 32) else c.

(** [s.lower()] *)
Fixpoint lower (s : string) : string :=
  match s with
  | EmptyString => EmptyString
  | String c s' => String (lower_char c) (lower s')
  end.

(** [s.upper()]; the sharp s becomes two letters.  The two letters below
    256 whose capital lies above 255 are left as they are. *)
Fixpoint upper (s : string) : string :=
  match s with
  | EmptyString => EmptyString
  | String c s' =>
      let n := nat_of_ascii c in
      if (n =? 223)%nat then String "S"%char (String "S"%char (upper s'))
      else if (((97 <=? n) && (n <=? 122))
               || ((224 <=? n) && (n <=? 254) && negb (n =? 247)))%nat
      then String (ascii_of_nat (n - 32)) (upper s')
      else String c (upper s')
  end.

(** A line boundary of [str.splitlines]. *)
Definition is_linebreak (c : ascii) : bool :=
  let n := nat_of_ascii c in
  (((10 <=? n) && (n <=? 13)) || ((28 <=? n) && (n <=? 30)) || (n =? 133))%nat.

(** [s.splitlines()]: a carriage return followed by a line feed is one
    boundary, and a boundary at the very end opens no further line. *)
Fixpoint splitlines_from (cur : string) (s : string) : list string :=
  match s with
  | EmptyString => match cur with EmptyString => [] | _ => [cur] end
  | String c s' =>
      if is_linebreak c
      then match s' with
           | String d s'' =>
               if Ascii.eqb c "013"%char && Ascii.eqb d "010"%char
               then cur :: splitlines_from EmptyString s''
               else cur :: splitlines_from EmptyString s'
           | EmptyString => [cur]
           end
      else splitlines_from (cur ++ String c EmptyString) s'
  end.

Definition splitlines (s : string) : list string := splitlines_from EmptyString s.

(** [str(n)] for a natural number. *)
Definition str_of_nat (n : nat) : string := NilEmpty.string_of_uint (Nat.to_uint n).

(** The last character, when there is one. *)
Fixpoint last_char (s : string) : option ascii :=
  match s with
  | EmptyString => None
  | String c EmptyString => Some c
  | String _ s' => last_char s'
  end.

(** All characters are white space. *)
Fixpoint all_space (s : string) : bool :=
  match s with
  | EmptyString => true
  | String c s' => is_space c && all_space s'
  end.

(** No character is white space. *)
Fixpoint no_space (s : string) : bool :=
  match s with
  | EmptyString => true
  | String c s' => negb (is_space c) && no_space s'
  end.

(** The character [c] does not occur in [s]. *)
Fixpoint lacks (c : ascii) (s : string) : bool :=
  match s with
  | EmptyString => true
  | String a s' => negb (Ascii.eqb a c) && lacks c s'
  end.

(** Truth value of a string: non-empty. *)
Definition truthy (s : string) : bool :=
  match s with EmptyString => false | _ => true end.

(** What [rstrip] does to a text, seen on its lines: the lines of
    [nl.join(lines).rstrip()].  The blank lines at the end are gone, and
    the last line left has lost the white space at its end. *)
Fixpoint rstrip_lines (lines : list string) : list string :=
  match lines with
  | [] => []
  | l :: rest =>
      match rstrip_lines rest with
      | [] => if truthy (rstrip l) then [rstrip l] else []
      | kept => l :: kept
      end
  end.

(** White space that [int()] skips around a number: the characters of
    [is_space] except the four separators 28 to 31. *)
Definition is_int_space (c : ascii) : bool :=
  let n := nat_of_ascii c in
  (((9 <=? n) && (n <=? 13)) || (n =? 32) || (n =? 133) || (n =? 160))%nat.

Fixpoint lstrip_int (s : string) : string :=
  match s with
  | EmptyString => EmptyString
  | String c s' => if is_int_space c then lstrip_int s' else s
  end.

Fixpoint rstrip_int (s : string) : string :=
  match s with
  | EmptyString => EmptyString
  | String c s' =>
      match rstrip_int s' with
      | EmptyString => if is_int_space c then EmptyString else String c EmptyString
      | r => String c r
      end
  end.

Definition is_digit (c : ascii) : bool :=
  let n := nat_of_ascii c in ((48 <=? n) && (n <=? 57))%nat.

(** The digits of a decimal literal, read left to right: single underscores
    may stand between digits.  [prev] tells whether the character before
    was a digit, [count] counts the digits, [acc] is the value so far. *)
Fixpoint int_digits (acc : Z) (prev : bool) (count : nat) (s : string)
  : option (Z * nat) :=
  match s with
  | EmptyString => if prev then Some (acc, count) else None
  | String c s' =>
      if is_digit c
      then int_digits (acc * 10 + Z.of_nat (nat_of_ascii c - 48)) true (S count) s'
      else if Ascii.eqb c "_"%char && prev then int_digits acc false count s'
      else None
  end.

(** [int(s)] for a string; [None] when it raises [ValueError] (a text that
    is no decimal literal, or one of more than 4300 digits). *)
Definition int_of_str (s : string) : option Z :=
  let body := lstrip_int (rstrip_int s) in
  let '(negative, digits) :=
    match body with
    | String "-"%char r => (true, r)
    | String "+"%char r => (false, r)
    | _ => (false, body)
    end in
  match int_digits 0 false 0 digits with
  | Some (v, count) =>
      if (4300 <? count)%nat then None
      else Some (if negative then (- v)%Z else v)
  | None => None
  end.

End PyStr.

(** ** [os.path] on a POSIX system *)

Module PosixPath.
Import PyStr.

Definition sep : string := "/".

(** [os.path.isabs] *)
Definition isabs (p : string) : bool := startswith sep p.

(** [os.path.join(a, b)] *)
Definition join (a b : string) : string :=
  if startswith sep b then b
  else if negb (truthy a) || endswith_char "/"%char a then a ++ b
  else a ++ sep ++ b.

(** The number of leading slashes [os.path.normpath] keeps: two are kept
    when the path starts with exactly two, one otherwise. *)
Definition initial_slashes (path : string) : nat :=
  if startswith "/" path
  then if startswith "//" path && negb (startswith "///" path) then 2 else 1
  else 0.

(** One step of the component loop of [normpath]; [new_comps] is kept in
    reverse, so that its head is the component added last. *)
Definition norm_step (slashes : nat) (new_comps : list string) (comp : string)
  : list string :=
  if String.eqb comp EmptyString || String.eqb comp "." then new_comps
  else if negb (String.eqb comp "..")
          || ((slashes =? 0)%nat && match new_comps with [] => true | _ => false end)
          || match new_comps with top :: _ => String.eqb top ".." | [] => false end
  then comp :: new_comps
  else match new_comps with _ :: below => below | [] => [] end.

(** [os.path.normpath] *)
Definition normpath (path : string) : string :=
  if negb (truthy path) then "."
  else
    let slashes := initial_slashes path in
    let comps := rev (fold_left (norm_step slashes) (split_char "/"%char path) []) in
    let body := PyStr.join sep comps in
    let res := match slashes with
               | 0 => body
               | 1 => "/" ++ body
               | _ => "//" ++ body
               end in
    if truthy res then res else ".".

(** What [os.path.expanduser] reads from the process environment. *)
Record UserDb := {
  environ_home : option string;         (* os.environ['HOME'], when set *)
  getpwuid_dir : option string;         (* pw_dir of the current user; None: KeyError *)
  getpwnam_dir : string -> option string (* pw_dir of a named user; None: KeyError *)
}.

(** [s.find('/', 1)], with the length of [s] when there is none. *)
Fixpoint find_sep_from (i : nat) (s : string) : nat :=
  match s with
  | EmptyString => i
  | String c s' => if Ascii.eqb c "/"%char then i else find_sep_from (S i) s'
  end.

(** [userhome.rstrip('/')] *)
Fixpoint rstrip_sep (s : string) : string :=
  match s with
  | EmptyString => EmptyString
  | String c s' =>
      match rstrip_sep s' with
      | EmptyString => if Ascii.eqb c "/"%char then EmptyString else String c EmptyString
      | r => String c r
      end
  end.

(** [os.path.expanduser] *)
Definition expanduser (db : UserDb) (path : string) : string :=
  if negb (startswith "~" path) then path
  else
    let i := find_sep_from 1 (drop 1 path) in
    let userhome :=
      if (i =? 1)%nat
      then match environ_home db with
           | Some h => Some h
           | None => getpwuid_dir db
           end
      else getpwnam_dir db (take (i - 1) (drop 1 path)) in
    match userhome with
    | None => path
    | Some h =>
        let res := rstrip_sep h ++ drop i path in
        if truthy res then res else "/"
    end.

End PosixPath.

(** ** [shlex] *)

Module Shlex.
Import PyStr.

(** A character that [shlex.quote] leaves unquoted: [[A-Za-z0-9_@%+=:,./-]]. *)
Definition is_safe (c : ascii) : bool :=
  let n := nat_of_ascii c in
  (((48 <=? n) && (n <=? 57)) || ((65 <=? n) && (n <=? 90))
   || ((97 <=? n) && (n <=? 122)) || (n =? 95) || (n =? 64) || (n =? 37)
   || (n =? 43) || (n =? 61) || (n =? 58) || (n =? 44) || (n =? 46)
   || (n =? 47) || (n =? 45))%nat.

Fixpoint all_safe (s : string) : bool :=
  match s with
  | EmptyString => true
  | String c s' => is_safe c && all_safe s'
  end.

(** [shlex.quote] *)
Definition quote (s : string) : string :=
  if negb (truthy s) then squote ++ squote
  else if all_safe s then s
  else squote ++ replace squote (squote ++ dquote ++ squote ++ dquote ++ squote) s ++ squote.

(** The states of the tokenizer that [shlex.split] runs (POSIX mode,
    [whitespace_split] set, no comment characters). *)
Inductive lex_state :=
| InSpace                         (* between tokens *)
| InWord                          (* inside a token *)
| InQuote (q : ascii)             (* inside quotes opened by [q] *)
| InEscape (back : option ascii). (* after a backslash; [back]: the quote to return to *)

Definition is_lex_space (c : ascii) : bool :=
  Ascii.eqb c " "%char || Ascii.eqb c "009"%char
  || Ascii.eqb c "013"%char || Ascii.eqb c "010"%char.

Definition is_quote (c : ascii) : bool :=
  Ascii.eqb c "039"%char || Ascii.eqb c "034"%char.

Definition is_escape (c : ascii) : bool := Ascii.eqb c "092"%char.

Definition push (tok : string) (c : ascii) : string := tok ++ String c EmptyString.

(** The tokenizer loop.  [tok] is the token being read and [quoted] tells
    whether a quote took part in it; a token is emitted when white space
    ends it or the input ends.  [None]: [ValueError] (a quote or an escape
    left open at the end of the input). *)
Fixpoint lex (st : lex_state) (tok : string) (quoted : bool) (s : string)
  : option (list string) :=
  match s with
  | EmptyString =>
      match st with
      | InSpace => Some []
      | InWord => if truthy tok || quoted then Some [tok] else Some []
      | InQuote _ => None
      | InEscape _ => None
      end
  | String c s' =>
      match st with
      | InSpace =>
          if is_lex_space c then lex InSpace tok quoted s'
          else if is_escape c then lex (InEscape None) tok quoted s'
          else if is_quote c then lex (InQuote c) tok quoted s'
          else lex InWord (String c EmptyString) quoted s'
      | InQuote q =>
          if Ascii.eqb c q then lex InWord tok true s'
          else if is_escape c && Ascii.eqb q "034"%char
               then lex (InEscape (Some q)) tok true s'
          else lex (InQuote q) (push tok c) true s'
      | InEscape back =>
          match back with
          | Some q =>
              let tok' := if negb (is_escape c) && negb (Ascii.eqb c q)
                          then push tok "092"%char else tok in
              lex (InQuote q) (push tok' c) quoted s'
          | None => lex InWord (push tok c) quoted s'
          end
      | InWord =>
          if is_lex_space c
          then if truthy tok || quoted
               then option_map (cons tok) (lex InSpace EmptyString false s')
               else lex InSpace tok quoted s'
          else if is_quote c then lex (InQuote c) tok quoted s'
          else if is_escape c then lex (InEscape None) tok quoted s'
          else lex InWord (push tok c) quoted s'
      end
  end.

(** What [quote] puts in the place of a single quote. *)
Definition quoted_quote : string := squote ++ dquote ++ squote ++ dquote ++ squote.

(** [shlex.split(s)]; [None] when it raises. *)
Definition split (s : string) : option (list string) :=
  lex InSpace EmptyString false s.

End Shlex.

(** ** [local_client.py] *)

Module LocalClient.
Import PyStr.

(** Outcome of [os.chdir(path)] followed by [os.getcwd()]; on success it
    carries the working directory read back. *)
Inductive chdir_result :=
| ChdirOk (cwd : string)
| ChdirNotFound                 (* FileNotFoundError *)
| ChdirPermission               (* PermissionError *)
| ChdirError (msg : string).    (* any other exception, with its [str] *)

(** Outcome of the blocking [subprocess.run]. *)
Inductive run_result :=
| RunCompleted (stdout stderr : string)
| RunTimeout                    (* subprocess.TimeoutExpired *)
| RunError (msg : string).

(** Outcome of a streamed child: the lines read until it exited. *)
Inductive popen_result :=
| PopenLines (lines : list string)
| PopenError (msg : string).

(** The operating system as the client sees it. *)
Record OS := {
  users : PosixPath.UserDb;
  chdir : string -> chdir_result;
  run : string -> string -> nat -> run_result;   (* command, cwd, timeout *)
  popen : string -> string -> popen_result;      (* command, cwd *)
  killpg : nat -> bool -> bool;   (* pid, SIGKILL?; false: it raised *)
  terminate : nat -> bool;        (* Popen.terminate; false: it raised *)
  kill : nat -> bool              (* Popen.kill; false: it raised *)
}.

(** The calls the client makes to the operating system. *)
Inductive event :=
| EvChdir (path : string)
| EvRun (command cwd : string)
| EvPopen (command cwd : string)
| EvCallback (text : string).

Record t := {
  connected : bool;
  current_directory : string;
  running_process : option nat   (* pid of the child being streamed *)
}.

Definition set_current_directory (d : string) (c : t) : t :=
  {| connected := connected c;
     current_directory := d;
     running_process := running_process c |}.

Definition set_running_process (p : option nat) (c : t) : t :=
  {| connected := connected c;
     current_directory := current_directory c;
     running_process := p |}.

(** The path handed to [os.chdir] for the argument text of a [cd]. *)
Definition cd_path (os : OS) (c : t) (arg : string) : string :=
  let path := strip arg in
  let path := if negb (truthy path)
              then PosixPath.expanduser (users os) "~"
              else PosixPath.expanduser (users os) path in
  if negb (PosixPath.isabs path)
  then PosixPath.join (current_directory c) path
  else path.

Definition is_cd (command : string) : bool :=
  startswith "cd " (lower (strip command)).

(** [_execute_streaming]: the handle is set while the child runs and is
    cleared on both exits. *)
Definition _execute_streaming (os : OS) (c : t) (command : string)
  : t * list event * (bool * string) :=
  match popen os command (current_directory c) with
  | PopenLines lines =>
      let lines := filter truthy lines in
      (set_running_process None c,
       EvPopen command (current_directory c) :: map EvCallback lines,
       (true, String.concat EmptyString lines))
  | PopenError msg =>
      (set_running_process None c,
       [EvPopen command (current_directory c)],
       (false, msg))
  end.

(** [execute_command(command, output_callback, timeout)]; [streaming]
    tells whether a callback was passed. *)
Definition execute_command (os : OS) (c : t) (command : string)
    (streaming : bool) (timeout : option nat)
  : t * list event * (bool * string) :=
  let command_stripped := strip command in
  if is_cd command then
    let path := cd_path os c (drop 3 command_stripped) in
    match chdir os path with
    | ChdirOk cwd => (set_current_directory cwd c, [EvChdir path], (true, EmptyString))
    | ChdirNotFound =>
        (c, [EvChdir path], (true, "cd: " ++ path ++ ": No such file or directory"))
    | ChdirPermission =>
        (c, [EvChdir path], (true, "cd: " ++ path ++ ": Permission denied"))
    | ChdirError msg => (c, [EvChdir path], (true, "cd: " ++ msg))
    end
  else if streaming then _execute_streaming os c command
  else
    let secs := match timeout with
                | Some (S n) => S n
                | _ => 30
                end in
    match run os command (current_directory c) secs with
    | RunCompleted stdout stderr =>
        (c, [EvRun command (current_directory c)],
         (true, if truthy stderr then stdout ++ stderr else stdout))
    | RunTimeout =>
        (c, [EvRun command (current_directory c)],
         (false, "Command timed out (30 seconds)"))
    | RunError msg => (c, [EvRun command (current_directory c)], (false, msg))
    end.

(** [interrupt_command]: SIGINT to the child's process group, with
    [terminate] as the fallback. *)
Definition interrupt_command (os : OS) (c : t) : t * bool :=
  match running_process c with
  | Some pid =>
      if killpg os pid false then (c, true)
      else if terminate os pid then (c, true)
      else (c, false)
  | None => (c, false)
  end.

(** [kill_command]: SIGKILL to the child's process group, with [kill] as
    the fallback. *)
Definition kill_command (os : OS) (c : t) : t * bool :=
  match running_process c with
  | Some pid =>
      if killpg os pid true then (c, true)
      else if kill os pid then (c, true)
      else (c, false)
  | None => (c, false)
  end.

(** The command line of [get_completions]. *)
Definition completion_cmd (partial_text : string) : string :=
  let escaped_text := replace squote (squote ++ "\" ++ squote ++ squote) partial_text in
  "bash -c " ++ dquote ++ "compgen -f -c -- " ++ squote ++ escaped_text ++ squote
  ++ " 2>/dev/null" ++ dquote.

(** The non-blank lines of a completion listing, each stripped. *)
Definition completion_lines (stdout : string) : list string :=
  map strip (filter (fun line => truthy (strip line)) (split_char "010"%char stdout)).

(** [get_completions] *)
Definition get_completions (os : OS) (c : t) (partial_text : string) : list string :=
  match run os (completion_cmd partial_text) (current_directory c) 2 with
  | RunCompleted stdout _ => if truthy stdout then completion_lines stdout else []
  | _ => []
  end.

(** [LocalClient()]: the state the constructor leaves, in the working
    directory [cwd] of the process. *)
Definition init (cwd : string) : t :=
  {| connected := true; current_directory := cwd; running_process := None |}.

(** [connect]: always succeeds and records the working directory [cwd] of
    the process. *)
Definition connect (cwd : string) (c : t) : t * (bool * string) :=
  (set_current_directory cwd c, (true, "Connected to local terminal")).

(** [disconnect]: the running command is killed; the result of the kill is
    dropped. *)
Definition disconnect (os : OS) (c : t) : t := fst (kill_command os c).

End LocalClient.

(** ** [ssh_client.py] *)

Module SSHClient.
Import PyStr.

(** Outcome of [client.exec_command] followed by reading and decoding both
    streams; [ExecRaised] when any of these raises.  The call is made
    without a timeout and waits until the command has exited: these are the
    outcomes of a call that comes back, and a command that never exits has
    none. *)
Inductive exec_result :=
| ExecOut (stdout stderr : string)
| ExecRaised (msg : string).

(** Outcome of a streamed command: the chunks received until it exited
    (again for a command that does exit). *)
Inductive stream_result :=
| StreamChunks (chunks : list string)
| StreamRaised (msg : string).

(** The remote host behind the paramiko client. *)
Record Host := {
  exec_command : string -> exec_result;
  open_session : string -> stream_result
}.

(** The channel of a streamed command. *)
Record Channel := {
  send_ok : bool;     (* channel.send succeeds; false: it raises *)
  close_ok : bool     (* channel.close succeeds; false: it raises *)
}.

(** The commands submitted to the host, by call site. *)
Inductive event :=
| EvProbe (command : string)     (* the directory probe of a [cd] segment *)
| EvExec (command : string)      (* the blocking general execution path *)
| EvStream (command : string)    (* the streaming general execution path *)
| EvCallback (text : string).

Record t := {
  client : option Host;
  connected : bool;
  current_directory : option string;
  running_channel : option Channel
}.

Definition set_current_directory (d : option string) (c : t) : t :=
  {| client := client c;
     connected := connected c;
     current_directory := d;
     running_channel := running_channel c |}.

Definition set_running_channel (ch : option Channel) (c : t) : t :=
  {| client := client c;
     connected := connected c;
     current_directory := current_directory c;
     running_channel := ch |}.

(** Truth value of a tracked directory: neither [None] nor empty. *)
Definition known (d : option string) : bool :=
  match d with Some s => truthy s | None => false end.

Definition is_sep (part : string) : bool :=
  String.eqb part ";" || String.eqb part "&&".

(** [re.split(r'(;|&&)', cmd)]: the texts between separators, with the
    separators kept; [skip] passes over the second character of [&&]. *)
Fixpoint re_split_from (buf : string) (skip : nat) (s : string) : list string :=
  match s with
  | EmptyString => [buf]
  | String c s' =>
      match skip with
      | S k => re_split_from buf k s'
      | O =>
          if Ascii.eqb c ";"%char then buf :: ";" :: re_split_from EmptyString 0 s'
          else if startswith "&&" s then buf :: "&&" :: re_split_from EmptyString 1 s'
          else re_split_from (buf ++ String c EmptyString) 0 s'
      end
  end.

Definition re_split (cmd : string) : list string := re_split_from EmptyString 0 cmd.

(** The loop of [split_commands] over the parts. *)
Fixpoint collect (parts : list string) (buf : string) : list string :=
  match parts with
  | [] => if truthy (strip buf) then [strip buf] else []
  | part :: rest =>
      if is_sep part
      then ((if truthy (strip buf) then [strip buf] else [])
            ++ part :: collect rest EmptyString)%list
      else collect rest (buf ++ part)
  end.

Definition split_commands (cmd : string) : list string :=
  collect (re_split cmd) EmptyString.

(** The probe sent for a [cd] segment. *)
Definition probe_cmd (last_dir : option string) (cd_target : string) : string :=
  match last_dir with
  | Some d =>
      if truthy d
      then "cd " ++ Shlex.quote d ++ " && cd " ++ Shlex.quote cd_target ++ " && pwd"
      else "cd " ++ Shlex.quote cd_target ++ " && pwd"
  | None => "cd " ++ Shlex.quote cd_target ++ " && pwd"
  end.

(** The syntactic estimate used when the probe reports a failure. *)
Definition estimate (last_dir : option string) (cd_target : string) : string :=
  match last_dir with
  | Some d =>
      if truthy d then PosixPath.normpath (PosixPath.join d cd_target)
      else PosixPath.normpath cd_target
  | None => PosixPath.normpath cd_target
  end.

(** What one pass of the tracking loop does: go on to the next part, or
    leave the loop ([break]). *)
Inductive step :=
| Next (last_dir : option string) (only_cd : bool) (probes : list event)
| Stop (last_dir : option string) (only_cd : bool) (probes : list event).

(** The body of the tracking loop for one part.  A probe that reports a
    failure (nothing on stdout, or something on stderr) puts the syntactic
    estimate in [last_dir] and leaves the loop; an exception raised inside
    the [try] (by [shlex.split], by the probe, or by indexing the last line
    of a blank answer) is swallowed and the loop goes on. *)
Definition segment (host : Host) (part : string) (last_dir : option string)
    (only_cd : bool) : step :=
  if is_sep part then Next last_dir only_cd []
  else if startswith "cd " part then
    match Shlex.split part with
    | Some (_ :: cd_target :: _) =>
        let exec_cmd := probe_cmd last_dir cd_target in
        match exec_command host exec_cmd with
        | ExecOut output error =>
            if truthy output && negb (truthy error) then
              match last (map Some (splitlines (strip output))) None with
              | Some line => Next (Some line) only_cd [EvProbe exec_cmd]
              | None => Next last_dir only_cd [EvProbe exec_cmd]
              end
            else Stop (Some (estimate last_dir cd_target)) only_cd [EvProbe exec_cmd]
        | ExecRaised _ => Next last_dir only_cd [EvProbe exec_cmd]
        end
    | _ => Next last_dir only_cd []
    end
  else Next last_dir false [].

(** The tracking loop over the parts of the command.  It returns the last
    directory, the [only_cd] flag and the probes sent. *)
Fixpoint track (host : Host) (parts : list string) (last_dir : option string)
    (only_cd : bool) : option string * bool * list event :=
  match parts with
  | [] => (last_dir, only_cd, [])
  | part :: rest =>
      match segment host part last_dir only_cd with
      | Next d o evs =>
          let '(d', o', evs') := track host rest d o in
          (d', o', (evs ++ evs')%list)
      | Stop d o evs => (d, o, evs)
      end
  end.

(** The loop run over [parts] without leaving it: the directory, the flag
    and the probes it reaches the end of [parts] with; [None] when a probe
    failure leaves the loop inside [parts]. *)
Fixpoint passes (host : Host) (parts : list string) (last_dir : option string)
    (only_cd : bool) : option (option string * bool * list event) :=
  match parts with
  | [] => Some (last_dir, only_cd, [])
  | part :: rest =>
      match segment host part last_dir only_cd with
      | Next d o evs =>
          match passes host rest d o with
          | Some (d', o', evs') => Some (d', o', (evs ++ evs')%list)
          | None => None
          end
      | Stop _ _ _ => None
      end
  end.

(** [_execute_streaming] *)
Definition _execute_streaming (host : Host) (c : t) (command : string)
  : t * list event * (bool * option string) :=
  match open_session host command with
  | StreamChunks chunks =>
      let chunks := filter truthy chunks in
      (set_running_channel None c,
       EvStream command :: map EvCallback chunks,
       (true, Some (String.concat EmptyString chunks)))
  | StreamRaised msg =>
      (set_running_channel None c, [EvStream command], (false, Some msg))
  end.

(** [execute_command(command, output_callback, timeout)].  The output is
    [None] where the Python code returns the value [None]. *)
Definition execute_command (c : t) (command : string) (streaming : bool)
  : t * list event * (bool * option string) :=
  match client c with
  | Some host =>
      if negb (connected c) then (c, [], (false, Some "Not connected"))
      else
        let base_dir := current_directory c in
        let cmds := split_commands command in
        let '(last_dir, only_cd, probes) := track host cmds base_dir true in
        let c := if known last_dir then set_current_directory last_dir c else c in
        if only_cd && (List.length cmds =? 1)%nat
           && match cmds with first :: _ => startswith "cd " first | [] => false end
        then (c, probes, (true, last_dir))
        else
          let full_command :=
            match current_directory c with
            | Some d => if truthy d then "cd " ++ Shlex.quote d ++ " && " ++ command
                        else command
            | None => command
            end in
          if streaming then
            let '(c', evs, r) := _execute_streaming host c full_command in
            (c', (probes ++ evs)%list, r)
          else
            match exec_command host full_command with
            | ExecOut output error =>
                (c, (probes ++ [EvExec full_command])%list,
                 (true, Some (if truthy output then output else error)))
            | ExecRaised msg => (c, (probes ++ [EvExec full_command])%list, (false, Some msg))
            end
  | None => (c, [], (false, Some "Not connected"))
  end.

(** [interrupt_command]: Ctrl+C written into the running channel. *)
Definition interrupt_command (c : t) : t * bool :=
  match running_channel c with
  | Some ch => if send_ok ch then (c, true) else (c, false)
  | None => (c, false)
  end.

(** [kill_command]: the running channel is closed and forgotten. *)
Definition kill_command (c : t) : t * bool :=
  match running_channel c with
  | Some ch => if close_ok ch then (set_running_channel None c, true) else (c, false)
  | None => (c, false)
  end.

(** The command line of [get_completions]; the tracked directory is
    inserted as it is. *)
Definition completion_cmd (dir : option string) (partial_text : string) : string :=
  if known dir
  then "cd " ++ match dir with Some d => d | None => EmptyString end ++ " && "
       ++ LocalClient.completion_cmd partial_text
  else LocalClient.completion_cmd partial_text.

(** [get_completions] *)
Definition get_completions (c : t) (partial_text : string) : list string :=
  match client c with
  | Some host =>
      if negb (connected c) then []
      else match exec_command host (completion_cmd (current_directory c) partial_text) with
           | ExecOut output _ =>
               if truthy output then LocalClient.completion_lines output else []
           | ExecRaised _ => []
           end
  | None => []
  end.

(** An event that is a directory probe. *)
Definition is_probe (e : event) : bool :=
  match e with EvProbe _ => true | _ => false end.

(** [SSHClient(...)]: the state the constructor leaves. *)
Definition init : t :=
  {| client := None; connected := false;
     current_directory := None; running_channel := None |}.

(** Outcome of building the paramiko client and of its [connect] call; in
    both cases it carries the client object the attempt leaves behind. *)
Inductive dial_result :=
| Dialled (host : Host)
| DialRaised (host : Host) (msg : string).

(** [connect]: on success the flag is set and a [pwd] is run to learn the
    working directory; when that raises the directory is unknown and the
    connection still counts as made. *)
Definition connect (net : dial_result) (c : t) : t * (bool * string) :=
  match net with
  | Dialled host =>
      let dir := match exec_command host "pwd" with
                 | ExecOut stdout _ => Some (strip stdout)
                 | ExecRaised _ => None
                 end in
      ({| client := Some host; connected := true;
          current_directory := dir; running_channel := running_channel c |},
       (true, "Connected successfully"))
  | DialRaised host msg =>
      ({| client := Some host; connected := connected c;
          current_directory := current_directory c;
          running_channel := running_channel c |},
       (false, msg))
  end.

(** [disconnect]: the client, when there is one, is closed and the flag is
    cleared; the tracked directory and the running channel are kept. *)
Definition disconnect (c : t) : t :=
  match client c with
  | Some _ =>
      {| client := client c; connected := false;
         current_directory := current_directory c;
         running_channel := running_channel c |}
  | None => c
  end.

End SSHClient.

(** ** [AIDesktop/main.py]: the window that owns the dispatch loop *)

Module AITerminalWindow.
Import PyStr.

Definition MAX_OUTPUT_CHARS : Z := 150000.

(** One entry of [conversation_history]. *)
Record Turn := { role : string; content : string }.

(** One call of [append_chat_message] (the time stamp is left out). *)
Record ChatMessage := { chat_role : string; chat_text : string; chat_tag : string }.

(** The object behind [self.ssh_client]: either client class. *)
Inductive Backend :=
| Local (c : LocalClient.t)
| Remote (c : SSHClient.t).

Inductive backend_event :=
| OnLocal (e : LocalClient.event)
| OnRemote (e : SSHClient.event).

(** A stored setting as [int()] sees it. *)
Inductive setting_value :=
| IntLike (z : Z)     (* [int(value)] is [z] *)
| NotIntLike.         (* [int(value)] raises *)

(** [saved_settings]; [None]: the key is missing. *)
Record Settings := {
  ollama_url : option string;
  ollama_model : option string;
  ai_name : option string;
  ai_role : option string;
  max_output_chars : option setting_value
}.

(** Outcome of [OllamaClient.generate]. *)
Inductive generate_result :=
| Generated (text : string)          (* (True, text) *)
| GenerateFailed (diag : string)     (* (False, diagnostic) *)
| GenerateRaised (msg : string).     (* an exception, with its [str] *)

(** What the window talks to: the local operating system and the model
    client (host, model, prompt). *)
Record World := {
  os : LocalClient.OS;
  generate : string -> string -> string -> generate_result
}.

Record t := {
  ssh_client : option Backend;
  conversation_history : list Turn;
  saved_settings : Settings;
  input_text : string;           (* input_entry's text *)
  input_position : nat;          (* input_entry's cursor *)
  send_sensitive : bool;         (* send_btn *)
  input_sensitive : bool;        (* input_entry *)
  chat : list ChatMessage;       (* chat_buffer, oldest first *)
  completions : list string;
  completion_index : nat;
  last_completion_text : string
}.

Definition with_client (b : option Backend) (w : t) : t :=
  {| ssh_client := b; conversation_history := conversation_history w;
     saved_settings := saved_settings w; input_text := input_text w;
     input_position := input_position w; send_sensitive := send_sensitive w;
     input_sensitive := input_sensitive w; chat := chat w;
     completions := completions w; completion_index := completion_index w;
     last_completion_text := last_completion_text w |}.

Definition with_history (h : list Turn) (w : t) : t :=
  {| ssh_client := ssh_client w; conversation_history := h;
     saved_settings := saved_settings w; input_text := input_text w;
     input_position := input_position w; send_sensitive := send_sensitive w;
     input_sensitive := input_sensitive w; chat := chat w;
     completions := completions w; completion_index := completion_index w;
     last_completion_text := last_completion_text w |}.

Definition with_input (text : string) (pos : nat) (w : t) : t :=
  {| ssh_client := ssh_client w; conversation_history := conversation_history w;
     saved_settings := saved_settings w; input_text := text;
     input_position := Nat.min pos (String.length text);
     send_sensitive := send_sensitive w;
     input_sensitive := input_sensitive w; chat := chat w;
     completions := completions w; completion_index := completion_index w;
     last_completion_text := last_completion_text w |}.

Definition with_sensitive (b : bool) (w : t) : t :=
  {| ssh_client := ssh_client w; conversation_history := conversation_history w;
     saved_settings := saved_settings w; input_text := input_text w;
     input_position := input_position w; send_sensitive := b;
     input_sensitive := b; chat := chat w;
     completions := completions w; completion_index := completion_index w;
     last_completion_text := last_completion_text w |}.

Definition with_completions (cs : list string) (i : nat) (last : string) (w : t) : t :=
  {| ssh_client := ssh_client w; conversation_history := conversation_history w;
     saved_settings := saved_settings w; input_text := input_text w;
     input_position := input_position w; send_sensitive := send_sensitive w;
     input_sensitive := input_sensitive w; chat := chat w;
     completions := cs; completion_index := i;
     last_completion_text := last |}.

(** [append_chat_message(role, message, tag)] *)
Definition append_chat_message (r m tag : string) (w : t) : t :=
  {| ssh_client := ssh_client w; conversation_history := conversation_history w;
     saved_settings := saved_settings w; input_text := input_text w;
     input_position := input_position w; send_sensitive := send_sensitive w;
     input_sensitive := input_sensitive w;
     chat := (chat w ++ [{| chat_role := r; chat_text := m; chat_tag := tag |}])%list;
     completions := completions w; completion_index := completion_index w;
     last_completion_text := last_completion_text w |}.

(** [re_enable_input] *)
Definition re_enable_input (w : t) : t := with_sensitive true w.

(** [on_ai_error] *)
Definition on_ai_error (error_msg : string) (w : t) : t :=
  re_enable_input (append_chat_message "ERROR" error_msg "system" w).

(** *** Parsing the model's answer *)

Record parsed := {
  decision : string;
  command : string;
  ai_message : string;
  response_started : bool
}.

Definition parse_start : parsed :=
  {| decision := "CONVERSATION"; command := "NONE";
     ai_message := EmptyString; response_started := false |}.

(** The body of the loop of [parse_ai_response]. *)
Definition parse_line (p : parsed) (line : string) : parsed :=
  if startswith "DECISION:" line then
    {| decision := strip (replace "DECISION:" EmptyString line);
       command := command p; ai_message := ai_message p;
       response_started := false |}
  else if startswith "COMMAND:" line then
    {| decision := decision p;
       command := strip (replace "COMMAND:" EmptyString line);
       ai_message := ai_message p; response_started := false |}
  else if startswith "RESPONSE:" line then
    {| decision := decision p; command := command p;
       ai_message := strip (replace "RESPONSE:" EmptyString line);
       response_started := true |}
  else if response_started p then
    {| decision := decision p; command := command p;
       ai_message := ai_message p ++ nl ++ line;
       response_started := true |}
  else p.

Definition parse_lines (lines : list string) : parsed :=
  fold_left parse_line lines parse_start.

(** The value read after a label. *)
Definition field (label line : string) : string :=
  strip (replace label EmptyString line).

(** A line that starts with one of the three labels. *)
Definition labelled (line : string) : bool :=
  startswith "DECISION:" line || startswith "COMMAND:" line
  || startswith "RESPONSE:" line.

(** [parse_ai_response(response)] *)
Definition parse_ai_response (response : string) : string * string * string :=
  let p := parse_lines (split_char "010"%char (strip response)) in
  (decision p, command p, ai_message p).

(** *** Truncating command output *)

(** The limit in force: the stored value when [int()] accepts it and it
    is not negative, [MAX_OUTPUT_CHARS] otherwise. *)
Definition max_output (s : Settings) : Z :=
  match max_output_chars s with
  | Some (IntLike z) => if (z <? 0)%Z then MAX_OUTPUT_CHARS else z
  | Some NotIntLike => MAX_OUTPUT_CHARS
  | None => MAX_OUTPUT_CHARS
  end.

Definition truncation_marker (total : nat) : string :=
  nl ++ "... (output truncated, " ++ str_of_nat total ++ " chars total)".

Definition truncate_output (s : Settings) (output : string) : string :=
  if (Z.of_nat (String.length output) >? max_output s)%Z
  then slice_to (max_output s) output ++ truncation_marker (String.length output)
  else output.

(** *** Building the prompt *)

(** [conversation_history[-5:]] *)
Definition recent (h : list Turn) : list Turn := skipn (List.length h - 5) h.

Definition context_line (m : Turn) : string := role m ++ ": " ++ content m ++ nl.

Definition context (h : list Turn) : string :=
  match h with
  | [] => EmptyString
  | _ => nl ++ nl ++ "Previous conversation context:" ++ nl
         ++ String.concat EmptyString (map context_line (recent h))
  end.

Definition get (default : string) (v : option string) : string :=
  match v with Some s => s | None => default end.

Definition prompt (name rl ctx request_text : string) : string :=
  String.concat nl [
    "You are " ++ name ++ ", a " ++ rl
      ++ ". YOU HAVE FULL SSH ACCESS TO THE SERVER and can run any command.";
    ctx;
    "";
    "A user has now requested: " ++ dquote ++ request_text ++ dquote;
    "";
    "IMPORTANT INSTRUCTIONS:";
    "- You MUST respond in EXACTLY this format, with each line starting with the exact keywords below";
    "- Do NOT use JSON, do NOT use code blocks, do NOT deviate from this format";
    "- Each response must have these 3 lines:";
    "";
    "DECISION: [COMMAND if user wants you to run something, or CONVERSATION if just talking]";
    "COMMAND: [If DECISION is COMMAND, write the single shell command. If DECISION is CONVERSATION, write NONE]";
    "RESPONSE: [Your analysis or conversation response]";
    "";
    "Example 1 - Running a command:";
    "User: " ++ dquote ++ "show me the current directory" ++ dquote;
    "DECISION: COMMAND";
    "COMMAND: pwd";
    "RESPONSE: I'll show you the current directory using the pwd command.";
    "";
    "Example 2 - Conversation:";
    "User: " ++ dquote ++ "hello" ++ dquote;
    "DECISION: CONVERSATION";
    "COMMAND: NONE";
    "RESPONSE: Hello! I'm " ++ name ++ ", your " ++ rl ++ ". How can I help you today?";
    ""
  ].

(** The prompt [process_ai_command] builds from the window's state. *)
Definition build_prompt (w : t) (request_text : string) : string :=
  prompt (get "Jarvis" (ai_name (saved_settings w)))
         (get "Linux Expert" (ai_role (saved_settings w)))
         (context (conversation_history w)) request_text.

(** *** The dispatch loop *)

Definition backend_connected (b : option Backend) : bool :=
  match b with
  | Some (Local c) => LocalClient.connected c
  | Some (Remote c) => SSHClient.connected c
  | None => false
  end.

(** [getattr(self.ssh_client, 'current_directory', None)] *)
Definition backend_directory (b : option Backend) : option string :=
  match b with
  | Some (Local c) => Some (LocalClient.current_directory c)
  | Some (Remote c) => SSHClient.current_directory c
  | None => None
  end.

(** [self.ssh_client.execute_command(command)]: no callback, no timeout. *)
Definition backend_execute (wd : World) (b : Backend) (cmd : string)
  : Backend * list backend_event * (bool * option string) :=
  match b with
  | Local c =>
      let '(c', evs, (ok, out)) := LocalClient.execute_command (os wd) c cmd false None in
      (Local c', map OnLocal evs, (ok, Some out))
  | Remote c =>
      let '(c', evs, r) := SSHClient.execute_command c cmd false in
      (Remote c', map OnRemote evs, r)
  end.

(** [str(x)] of a value that is a string or [None]. *)
Definition str_of (v : option string) : string :=
  match v with Some s => s | None => "None" end.

(** The success branch after [execute_command]: truncation, the OUTPUT
    message, the directory notice and the assistant turn. *)
Definition report_output (w : t) (cmd : string) (current_dir : option string)
    (output : string) : t :=
  let output := truncate_output (saved_settings w) output in
  let w := append_chat_message "OUTPUT"
             (if truthy output then output else "(no output)") "output" w in
  let new_dir := backend_directory (ssh_client w) in
  let changed :=
    match new_dir, current_dir with
    | Some n, Some o => truthy n && negb (String.eqb n o)
    | Some n, None => truthy n
    | None, _ => false
    end in
  let w := if changed
           then append_chat_message "SYSTEM"
                  ("Directory changed to: " ++ str_of new_dir) "system" w
           else w in
  with_history (conversation_history w
                ++ [{| role := "assistant";
                       content := "Executed: " ++ cmd ++ nl ++ "Output: " ++ output |}])%list
               w.

(** The command branch of [process_ai_command]; an exception raised in
    it is reported by [on_ai_error]. *)
Definition run_command (wd : World) (w : t) (cmd : string) : t * list backend_event :=
  let current_dir := backend_directory (ssh_client w) in
  let w := append_chat_message "COMMAND"
             (if SSHClient.known current_dir
              then "[" ++ str_of current_dir ++ "]$ " ++ cmd
              else "$ " ++ cmd) "command" w in
  match ssh_client w with
  | None =>
      (on_ai_error "'NoneType' object has no attribute 'execute_command'" w, [])
  | Some b =>
      let '(b', evs, (success, output)) := backend_execute wd b cmd in
      let w := with_client (Some b') w in
      if success then
        match output with
        | Some out => (report_output w cmd current_dir out, evs)
        | None => (on_ai_error "object of type 'NoneType' has no len()" w, evs)
        end
      else (append_chat_message "ERROR" (str_of output) "system" w, evs)
  end.

(** [process_ai_command(request_text)], with the calls it queues on the
    main loop applied in the order they were queued. *)
Definition process_ai_command (wd : World) (w : t) (request_text : string)
  : t * list backend_event :=
  let s := saved_settings w in
  let name := get "Jarvis" (ai_name s) in
  match generate wd (get "http://localhost:11434" (ollama_url s))
                 (get "llama2" (ollama_model s)) (build_prompt w request_text) with
  | GenerateFailed diag => (re_enable_input (on_ai_error diag w), [])
  | GenerateRaised msg => (re_enable_input (on_ai_error msg w), [])
  | Generated ai_response =>
      let '(dec, cmd, response) := parse_ai_response ai_response in
      let w := append_chat_message (upper name) response "ai" w in
      if String.eqb dec "COMMAND" && truthy cmd && negb (String.eqb cmd "NONE")
      then
        let '(w, evs) := run_command wd w cmd in
        (re_enable_input w, evs)
      else
        (re_enable_input
           (with_history (conversation_history w
                          ++ [{| role := "assistant"; content := response |}])%list w),
         [])
  end.

(** What [on_send_message] does itself before it starts the background
    work: the input is cleared, the message is shown and appended to the
    history as the user's turn, and the input is disabled. *)
Definition begin_turn (message : string) (w : t) : t :=
  let w := with_input EmptyString 0 w in
  let w := append_chat_message "USER" message "user" w in
  let w := with_history (conversation_history w
                         ++ [{| role := "user"; content := message |}])%list w in
  with_sensitive false w.

(** [on_send_message], followed by the background work it starts. *)
Definition on_send_message (wd : World) (w : t) : t * list backend_event :=
  let message := strip (input_text w) in
  if negb (truthy message) then (w, [])
  else if negb (match ssh_client w with Some _ => true | None => false end
                && backend_connected (ssh_client w))
  then (append_chat_message "ERROR"
          "Terminal not ready. Please wait or restart the application." "system" w, [])
  else process_ai_command wd (begin_turn message w) message.

(** *** Tab completion *)

(** [self.ssh_client.get_completions(partial_word)] *)
Definition backend_completions (wd : World) (b : option Backend) (partial_word : string)
  : list string :=
  match b with
  | Some (Local c) => LocalClient.get_completions (os wd) c partial_word
  | Some (Remote c) => SSHClient.get_completions c partial_word
  | None => []
  end.

(** [apply_completion(completion, original_text, partial_word)] *)
Definition apply_completion (completion original_text partial_word : string) (w : t) : t :=
  let cursor_pos := input_position w in
  let text_before := take cursor_pos original_text in
  let text_after := drop cursor_pos original_text in
  if truthy partial_word then
    let prefix := slice_to (- Z.of_nat (String.length partial_word)) text_before in
    with_input (prefix ++ completion ++ text_after)
               (String.length prefix + String.length completion) w
  else
    with_input (text_before ++ completion ++ text_after)
               (cursor_pos + String.length completion) w.

(** [apply_completions(completions, original_text, partial_word)] *)
Definition apply_completions (cs : list string) (original_text partial_word : string)
    (w : t) : t :=
  let w := with_completions cs 0 original_text w in
  match cs with
  | [] => w
  | [only] => apply_completion only original_text partial_word w
  | first :: _ =>
      append_chat_message "SYSTEM"
        (str_of_nat (List.length cs) ++ " completions available. Press Tab again to cycle.")
        "system"
        (apply_completion first original_text partial_word w)
  end.

(** [handle_tab_completion], with the fetch it starts run to its end. *)
Definition handle_tab_completion (wd : World) (w : t) : t :=
  if negb (match ssh_client w with Some _ => true | None => false end
           && backend_connected (ssh_client w))
  then w
  else
    let current_text := input_text w in
    let cursor_pos := input_position w in
    let text_before_cursor := take cursor_pos current_text in
    let words := split_ws text_before_cursor in
    match last (map Some words) None with
    | None => w
    | Some partial_word =>
        if negb (String.eqb current_text (last_completion_text w))
           || match completions w with [] => true | _ => false end
        then
          apply_completions (backend_completions wd (ssh_client w) partial_word)
                            current_text partial_word w
        else
          let i := (completion_index w + 1) mod List.length (completions w) in
          let w := with_completions (completions w) i (last_completion_text w) w in
          match nth_error (completions w) i with
          | Some completion => apply_completion completion current_text partial_word w
          | None => w
          end
    end.

(** [on_key_pressed]: Tab completes, any other key forgets the cached
    candidates. *)
Definition on_key_pressed (wd : World) (is_tab : bool) (w : t) : t :=
  if is_tab then handle_tab_completion wd w
  else with_completions [] 0 EmptyString w.

(** The input text after each of [n] presses of Tab. *)
Fixpoint press_tab (wd : World) (n : nat) (w : t) : list string :=
  match n with
  | O => []
  | S k =>
      let w' := on_key_pressed wd true w in
      input_text w' :: press_tab wd k w'
  end.

(** *** Clearing, and saving the output limit *)


(** The value [save_settings] stores for the text of the maximum-output
    entry: the number typed when it is one and not negative,
    [MAX_OUTPUT_CHARS] otherwise. *)
Definition max_output_val (entry_text : string) : Z :=
  match int_of_str entry_text with
  | Some z => if (z <? 0)%Z then MAX_OUTPUT_CHARS else z
  | None => MAX_OUTPUT_CHARS
  end.

(** The settings [save_settings] builds, as far as the output limit goes:
    the other fields are taken from the dialog and are passed in as [s]. *)
Definition save_max_output (entry_text : string) (s : Settings) : Settings :=
  {| ollama_url := ollama_url s; ollama_model := ollama_model s;
     ai_name := ai_name s; ai_role := ai_role s;
     max_output_chars := Some (IntLike (max_output_val entry_text)) |}.

End AITerminalWindow.

(** ** [AIDesktop/main.py]: the list of saved servers *)

Module ServerList.
Import PyStr.

(** One entry of [ssh_servers], as [on_save_server] builds it. *)
Record Server := {
  name : string;
  host : string;
  port : Z;
  username : string;
  password : string
}.

(** The first server called [server_name]: the loop of
    [on_server_selected] and of [on_quick_server_connect]. *)
Fixpoint find_server (server_name : string) (servers : list Server) : option Server :=
  match servers with
  | [] => None
  | s :: rest => if String.eqb (name s) server_name then Some s
                 else find_server server_name rest
  end.

(** [ssh_servers[existing_index] = server_config] for the first entry
    called [server_name]; the list is left alone when there is none. *)
Fixpoint replace_first (server_name : string) (config : Server) (servers : list Server)
  : list Server :=
  match servers with
  | [] => []
  | s :: rest => if String.eqb (name s) server_name then config :: rest
                 else s :: replace_first server_name config rest
  end.

Inductive save_outcome :=
| Saved (server_name : string)     (* the list was updated *)
| Rejected                         (* the error dialog: name or host missing *)
| PortRaised.                      (* [int()] of the port text raised *)

(** [on_save_server], as far as [ssh_servers] goes, from the texts of the
    five entries. *)
Definition on_save_server (servers : list Server)
    (name_text host_text port_text username_text password_text : string)
  : list Server * save_outcome :=
  let server_name := strip name_text in
  let host_name := strip host_text in
  if negb (truthy server_name) || negb (truthy host_name) then (servers, Rejected)
  else
    match (if truthy port_text then int_of_str port_text else Some 22%Z) with
    | None => (servers, PortRaised)
    | Some p =>
        let server_config :=
          {| name := server_name; host := host_name; port := p;
             username := username_text; password := password_text |} in
        match find_server server_name servers with
        | Some _ => (replace_first server_name server_config servers, Saved server_name)
        | None => ((servers ++ [server_config])%list, Saved server_name)
        end
    end.

(** [on_delete_server], as far as [ssh_servers] goes; [selected] is the
    active text of the selector, [None] when nothing is selected.  The
    second component tells whether anything was deleted (false: the error
    dialog). *)
Definition on_delete_server (servers : list Server) (selected : option string)
  : list Server * bool :=
  match selected with
  | None => (servers, false)
  | Some server_name =>
      if negb (truthy server_name) || String.eqb server_name "<New Server>"
      then (servers, false)
      else (filter (fun s => negb (String.eqb (name s) server_name)) servers, true)
  end.

End ServerList.

(** ** Concrete systems used by the examples *)

Module Scenario.
Import PyStr.

Definition users : PosixPath.UserDb :=
  {| PosixPath.environ_home := Some "/home/u";
     PosixPath.getpwuid_dir := Some "/home/u";
     PosixPath.getpwnam_dir := fun _ => None |}.

(** A machine with the directories [/tmp] and [/home/u], a directory
    [/root] that may not be entered, and a shell that prints nothing. *)
Definition os : LocalClient.OS :=
  {| LocalClient.users := users;
     LocalClient.chdir := fun path =>
       if String.eqb path "/tmp" then LocalClient.ChdirOk "/tmp"
       else if String.eqb path "/home/u" then LocalClient.ChdirOk "/home/u"
       else if String.eqb path "/root" then LocalClient.ChdirPermission
       else LocalClient.ChdirNotFound;
     LocalClient.run := fun _ _ _ => LocalClient.RunCompleted EmptyString EmptyString;
     LocalClient.popen := fun _ _ => LocalClient.PopenLines [];
     LocalClient.killpg := fun _ _ => true;
     LocalClient.terminate := fun _ => true;
     LocalClient.kill := fun _ => true |}.

Definition local : LocalClient.t :=
  {| LocalClient.connected := true;
     LocalClient.current_directory := "/home/u";
     LocalClient.running_process := None |}.

(** A remote host with the directories [/tmp] and [/home/u]: the probe
    from [/home/u] into [/tmp] prints it, any other command that starts with
    a [cd] and ends in [pwd] complains on stderr, and every other command
    prints nothing. *)
Definition host : SSHClient.Host :=
  {| SSHClient.exec_command := fun cmd =>
       if String.eqb cmd "cd /home/u && cd /tmp && pwd"
       then SSHClient.ExecOut ("/tmp" ++ nl) EmptyString
       else if startswith "cd " cmd
               && String.eqb (drop (String.length cmd - 6) cmd) "&& pwd"
       then SSHClient.ExecOut EmptyString "bash: line 1: cd: No such file or directory"
       else SSHClient.ExecOut EmptyString EmptyString;
     SSHClient.open_session := fun _ => SSHClient.StreamChunks [] |}.

Definition remote : SSHClient.t :=
  {| SSHClient.client := Some host;
     SSHClient.connected := true;
     SSHClient.current_directory := Some "/home/u";
     SSHClient.running_channel := None |}.

(** Settings that store [limit] as the maximum output size. *)
Definition settings (limit : option AITerminalWindow.setting_value)
  : AITerminalWindow.Settings :=
  {| AITerminalWindow.ollama_url := None;
     AITerminalWindow.ollama_model := None;
     AITerminalWindow.ai_name := None;
     AITerminalWindow.ai_role := None;
     AITerminalWindow.max_output_chars := limit |}.

(** A remote host on which the probe into [/x] raises, the probe into
    [/tmp] succeeds, and every other command prints nothing. *)
Definition raising_host : SSHClient.Host :=
  {| SSHClient.exec_command := fun cmd =>
       if String.eqb cmd "cd /home/u && cd /x && pwd"
       then SSHClient.ExecRaised "Channel closed."
       else if String.eqb cmd "cd /home/u && cd /tmp && pwd"
       then SSHClient.ExecOut ("/tmp" ++ nl) EmptyString
       else SSHClient.ExecOut EmptyString EmptyString;
     SSHClient.open_session := fun _ => SSHClient.StreamChunks [] |}.

Definition raising_remote : SSHClient.t :=
  {| SSHClient.client := Some raising_host;
     SSHClient.connected := true;
     SSHClient.current_directory := Some "/home/u";
     SSHClient.running_channel := None |}.

(** A remote host whose shell completes [fo] to three names and [foo] to
    itself. *)
Definition completing_host : SSHClient.Host :=
  {| SSHClient.exec_command := fun cmd =>
       if String.eqb cmd (SSHClient.completion_cmd (Some "/home/u") "fo")
       then SSHClient.ExecOut ("foo" ++ nl ++ "fob" ++ nl ++ "fox" ++ nl) EmptyString
       else if String.eqb cmd (SSHClient.completion_cmd (Some "/home/u") "foo")
       then SSHClient.ExecOut ("foo" ++ nl) EmptyString
       else SSHClient.ExecOut EmptyString EmptyString;
     SSHClient.open_session := fun _ => SSHClient.StreamChunks [] |}.

Definition completing_remote : SSHClient.t :=
  {| SSHClient.client := Some completing_host;
     SSHClient.connected := true;
     SSHClient.current_directory := Some "/home/u";
     SSHClient.running_channel := None |}.

(** A model client that cannot be reached. *)
Definition world_down : AITerminalWindow.World :=
  {| AITerminalWindow.os := os;
     AITerminalWindow.generate := fun _ _ _ =>
       AITerminalWindow.GenerateFailed "connection refused" |}.

(** A fresh window on backend [b] with [text] typed into the input and the
    cursor behind it. *)
Definition window (b : AITerminalWindow.Backend) (text : string) : AITerminalWindow.t :=
  {| AITerminalWindow.ssh_client := Some b;
     AITerminalWindow.conversation_history := [];
     AITerminalWindow.saved_settings := settings None;
     AITerminalWindow.input_text := text;
     AITerminalWindow.input_position := String.length text;
     AITerminalWindow.send_sensitive := true;
     AITerminalWindow.input_sensitive := true;
     AITerminalWindow.chat := [];
     AITerminalWindow.completions := [];
     AITerminalWindow.completion_index := 0;
     AITerminalWindow.last_completion_text := EmptyString |}.

End Scenario.

(** * Properties *)

Import PyStr.

(** ** Interrupt and kill with nothing running *)

(** C7: on both backends, [interrupt_command] and [kill_command] called
    while no command is in flight return false and leave the client's state
    (connection state, tracked directory, running handle) as it was. *)
Theorem C7_interrupt_kill_idle :
  forall (os : LocalClient.OS) (lc : LocalClient.t) (sc : SSHClient.t),
    LocalClient.running_process lc = None ->
    SSHClient.running_channel sc = None ->
    LocalClient.interrupt_command os lc = (lc, false)
    /\ LocalClient.kill_command os lc = (lc, false)
    /\ SSHClient.interrupt_command sc = (sc, false)
    /\ SSHClient.kill_command sc = (sc, false).
Proof.
  intros os lc sc Hl Hs.
  unfold LocalClient.interrupt_command, LocalClient.kill_command,
    SSHClient.interrupt_command, SSHClient.kill_command.
  rewrite Hl, Hs. repeat split.
Qed.

(** ** A failing [cd] on the local backend *)


Lemma C7_interrupt_kill_idle_witness :
  LocalClient.interrupt_command Scenario.os Scenario.local = (Scenario.local, false)
  /\ LocalClient.kill_command Scenario.os Scenario.local = (Scenario.local, false)
  /\ SSHClient.interrupt_command Scenario.remote = (Scenario.remote, false)
  /\ SSHClient.kill_command Scenario.remote = (Scenario.remote, false).
Proof.
  apply (C7_interrupt_kill_idle Scenario.os Scenario.local Scenario.remote);
    reflexivity.
Defined.


(** ** The history embedded in a prompt *)

Lemma recent_length (h : list AITerminalWindow.Turn) :
  List.length (AITerminalWindow.recent h) <= 5.
Proof.
  unfold AITerminalWindow.recent. rewrite length_skipn. lia.
Qed.

Lemma recent_suffix (h : list AITerminalWindow.Turn) :
  h = (firstn (List.length h - 5) h ++ AITerminalWindow.recent h)%list.
Proof.
  unfold AITerminalWindow.recent. symmetry. apply firstn_skipn.
Qed.

Lemma recent_idempotent (h : list AITerminalWindow.Turn) :
  AITerminalWindow.recent (AITerminalWindow.recent h) = AITerminalWindow.recent h.
Proof.
  unfold AITerminalWindow.recent at 1.
  replace (List.length (AITerminalWindow.recent h) - 5) with 0
    by (pose proof (recent_length h); lia).
  reflexivity.
Qed.

Lemma recent_nil_inv (h : list AITerminalWindow.Turn) :
  AITerminalWindow.recent h = [] -> h = [].
Proof.
  unfold AITerminalWindow.recent. intros H.
  assert (L : List.length (skipn (List.length h - 5) h) = 0) by (rewrite H; reflexivity).
  rewrite length_skipn in L.
  destruct h as [|x h']; [reflexivity|].
  change (List.length (x :: h')) with (S (List.length h')) in L. lia.
Qed.

Lemma context_recent (h : list AITerminalWindow.Turn) :
  AITerminalWindow.context h = AITerminalWindow.context (AITerminalWindow.recent h).
Proof.
  unfold AITerminalWindow.context.
  rewrite recent_idempotent.
  destruct h as [|x h']; [reflexivity|].
  destruct (AITerminalWindow.recent (x :: h')) eqn:E; [|reflexivity].
  apply recent_nil_inv in E. discriminate.
Qed.

Lemma recent_app_five (older last5 : list AITerminalWindow.Turn) :
  List.length last5 = 5 ->
  AITerminalWindow.recent (older ++ last5) = last5.
Proof.
  intros L. unfold AITerminalWindow.recent.
  rewrite length_app, L.
  replace (List.length older + 5 - 5) with (List.length older + 0) by lia.
  rewrite skipn_app, Nat.add_0_r, skipn_all.
  replace (List.length older - List.length older) with 0 by lia.
  reflexivity.
Qed.

(** C9: whatever the length of the conversation, the prompt embeds the
    turns of [recent] only: they are at most five, they are the last turns
    of the history, the prompt is the one built from them alone, and turns
    older than the last five never change it. *)
Theorem C9_prompt_embeds_last_five :
  forall (w : AITerminalWindow.t) (request_text : string),
    let h := AITerminalWindow.conversation_history w in
    List.length (AITerminalWindow.recent h) <= 5
    /\ (exists older, h = (older ++ AITerminalWindow.recent h)%list)
    /\ AITerminalWindow.build_prompt w request_text
       = AITerminalWindow.build_prompt
           (AITerminalWindow.with_history (AITerminalWindow.recent h) w) request_text
    /\ (forall older last5 : list AITerminalWindow.Turn,
          List.length last5 = 5 ->
          AITerminalWindow.build_prompt
            (AITerminalWindow.with_history (older ++ last5)%list w) request_text
          = AITerminalWindow.build_prompt
              (AITerminalWindow.with_history last5 w) request_text).
Proof.
  intros w request_text h. split; [apply recent_length|].
  split; [eexists; apply recent_suffix|].
  split.
  - unfold AITerminalWindow.build_prompt. simpl. fold h.
    rewrite (context_recent h) at 1. reflexivity.
  - intros older last5 L.
    unfold AITerminalWindow.build_prompt. simpl.
    rewrite (context_recent (older ++ last5)), (recent_app_five older last5 L).
    reflexivity.
Qed.

(** ** Truncation of command output *)

Lemma length_take (n : nat) (s : string) :
  n <= String.length s -> String.length (take n s) = n.
Proof.
  revert s. induction n as [|n IH]; intros [|c s] H; simpl in *; try lia.
  rewrite IH; lia.
Qed.

(** C3, as the code has it: the limit in force is the stored value when
    [int()] accepts it and it is zero or more, and 150000 when it is
    negative, missing or not a number; an output longer than the limit is
    cut to exactly that many characters and followed by the marker that
    states the original length; any other output is left alone. *)
Theorem C3_truncation_limit :
  forall (s : AITerminalWindow.Settings) (output : string),
    let m := match AITerminalWindow.max_output_chars s with
             | Some (AITerminalWindow.IntLike z) => if (z <? 0)%Z then 150000%Z else z
             | _ => 150000%Z
             end in
    ((Z.of_nat (String.length output) > m)%Z ->
       AITerminalWindow.truncate_output s output
       = take (Z.to_nat m) output
         ++ nl ++ "... (output truncated, " ++ str_of_nat (String.length output)
         ++ " chars total)"
       /\ String.length (take (Z.to_nat m) output) = Z.to_nat m)
    /\ ((Z.of_nat (String.length output) <= m)%Z ->
          AITerminalWindow.truncate_output s output = output).
Proof.
  intros s output m.
  assert (Hm : AITerminalWindow.max_output s = m).
  { unfold AITerminalWindow.max_output, m, AITerminalWindow.MAX_OUTPUT_CHARS.
    destruct (AITerminalWindow.max_output_chars s) as [[z|]|]; reflexivity. }
  assert (Hpos : (0 <= m)%Z).
  { unfold m. destruct (AITerminalWindow.max_output_chars s) as [[z|]|]; try lia.
    destruct (Z.ltb_spec z 0); lia. }
  unfold AITerminalWindow.truncate_output. rewrite Hm. split; intros H.
  - replace (Z.of_nat (String.length output) >? m)%Z with true
      by (symmetry; apply Z.gtb_lt; lia).
    unfold slice_to. replace (m <? 0)%Z with false by (symmetry; apply Z.ltb_ge; lia).
    split; [reflexivity|]. apply length_take. lia.
  - replace (Z.of_nat (String.length output) >? m)%Z with false; [reflexivity|].
    symmetry. rewrite Z.gtb_ltb. apply Z.ltb_ge. lia.
Qed.

Lemma C3_truncation_limit_witness :
  AITerminalWindow.truncate_output
    (Scenario.settings (Some (AITerminalWindow.IntLike 2))) "abcdef"
  = "ab" ++ nl ++ "... (output truncated, 6 chars total)"
  /\ String.length (take 2 "abcdef") = 2.
Proof.
  apply (C3_truncation_limit
           (Scenario.settings (Some (AITerminalWindow.IntLike 2))) "abcdef").
  vm_compute. reflexivity.
Defined.

(** C3 as stated fails at a stored maximum of 0: the output is cut at 0
    characters, where the default of 150000 would leave it whole. *)
Lemma C3_zero_is_not_default :
  exists (z : Z) (output : string),
    (z <= 0)%Z
    /\ AITerminalWindow.max_output (Scenario.settings (Some (AITerminalWindow.IntLike z)))
       = 0%Z
    /\ AITerminalWindow.truncate_output
         (Scenario.settings (Some (AITerminalWindow.IntLike z))) output
       = nl ++ "... (output truncated, 3 chars total)"
    /\ AITerminalWindow.truncate_output (Scenario.settings None) output = output
    /\ AITerminalWindow.truncate_output
         (Scenario.settings (Some (AITerminalWindow.IntLike z))) output
       <> AITerminalWindow.truncate_output (Scenario.settings None) output.
Proof.
  exists 0%Z, "abc". repeat split; try reflexivity; try lia.
  vm_compute. discriminate.
Qed.

(** ** A failing model call *)

Lemma process_ai_command_failure (wd : AITerminalWindow.World) (w : AITerminalWindow.t)
    (request_text diag : string) :
  let s := AITerminalWindow.saved_settings w in
  let answer :=
    AITerminalWindow.generate wd
      (AITerminalWindow.get "http://localhost:11434" (AITerminalWindow.ollama_url s))
      (AITerminalWindow.get "llama2" (AITerminalWindow.ollama_model s))
      (AITerminalWindow.build_prompt w request_text) in
  answer = AITerminalWindow.GenerateFailed diag
  \/ answer = AITerminalWindow.GenerateRaised diag ->
  AITerminalWindow.process_ai_command wd w request_text
  = (AITerminalWindow.re_enable_input (AITerminalWindow.on_ai_error diag w), []).
Proof.
  intros s answer H. unfold AITerminalWindow.process_ai_command.
  fold s. fold answer. destruct H as [H|H]; rewrite H; reflexivity.
Qed.

(** C4, as the code has it: when the model call of a turn fails (it
    returns failure or raises), no command reaches the backend, the failure
    is shown as an ERROR message, the input is enabled again, and the
    prompting step itself adds no turn; the user's turn that
    [on_send_message] appended before prompting stays in the history. *)
Theorem C4_failed_generate_aborts_turn :
  forall (wd : AITerminalWindow.World) (w : AITerminalWindow.t) (b : AITerminalWindow.Backend)
         (diag : string),
    let message := strip (AITerminalWindow.input_text w) in
    let w1 := AITerminalWindow.begin_turn message w in
    let s := AITerminalWindow.saved_settings w in
    let answer :=
      AITerminalWindow.generate wd
        (AITerminalWindow.get "http://localhost:11434" (AITerminalWindow.ollama_url s))
        (AITerminalWindow.get "llama2" (AITerminalWindow.ollama_model s))
        (AITerminalWindow.build_prompt w1 message) in
    truthy message = true ->
    AITerminalWindow.ssh_client w = Some b ->
    AITerminalWindow.backend_connected (Some b) = true ->
    answer = AITerminalWindow.GenerateFailed diag
    \/ answer = AITerminalWindow.GenerateRaised diag ->
    exists w',
      AITerminalWindow.on_send_message wd w = (w', [])
      /\ AITerminalWindow.process_ai_command wd w1 message = (w', [])
      /\ AITerminalWindow.conversation_history w'
         = AITerminalWindow.conversation_history w1
      /\ AITerminalWindow.conversation_history w'
         = (AITerminalWindow.conversation_history w
            ++ [{| AITerminalWindow.role := "user";
                   AITerminalWindow.content := message |}])%list
      /\ AITerminalWindow.chat w'
         = (AITerminalWindow.chat w1
            ++ [{| AITerminalWindow.chat_role := "ERROR";
                   AITerminalWindow.chat_text := diag;
                   AITerminalWindow.chat_tag := "system" |}])%list
      /\ AITerminalWindow.send_sensitive w' = true
      /\ AITerminalWindow.input_sensitive w' = true
      /\ AITerminalWindow.ssh_client w' = Some b.
Proof.
  intros wd w b diag message w1 s answer Hmsg Hb Hconn Hfail.
  exists (AITerminalWindow.re_enable_input (AITerminalWindow.on_ai_error diag w1)).
  assert (P : AITerminalWindow.process_ai_command wd w1 message
              = (AITerminalWindow.re_enable_input (AITerminalWindow.on_ai_error diag w1), [])).
  { apply process_ai_command_failure. exact Hfail. }
  split.
  - unfold AITerminalWindow.on_send_message. fold message.
    rewrite Hmsg, Hb, Hconn. simpl. exact P.
  - split; [exact P|]. simpl. rewrite Hb. repeat split.
Qed.

Lemma C4_failed_generate_aborts_turn_witness :
  exists w',
    AITerminalWindow.on_send_message Scenario.world_down
      (Scenario.window (AITerminalWindow.Local Scenario.local) "hi") = (w', [])
    /\ AITerminalWindow.process_ai_command Scenario.world_down
         (AITerminalWindow.begin_turn "hi"
            (Scenario.window (AITerminalWindow.Local Scenario.local) "hi")) "hi"
       = (w', [])
    /\ AITerminalWindow.conversation_history w'
       = AITerminalWindow.conversation_history
           (AITerminalWindow.begin_turn "hi"
              (Scenario.window (AITerminalWindow.Local Scenario.local) "hi"))
    /\ AITerminalWindow.conversation_history w'
       = [{| AITerminalWindow.role := "user"; AITerminalWindow.content := "hi" |}]
    /\ AITerminalWindow.chat w'
       = [{| AITerminalWindow.chat_role := "USER";
             AITerminalWindow.chat_text := "hi";
             AITerminalWindow.chat_tag := "user" |};
          {| AITerminalWindow.chat_role := "ERROR";
             AITerminalWindow.chat_text := "connection refused";
             AITerminalWindow.chat_tag := "system" |}]
    /\ AITerminalWindow.send_sensitive w' = true
    /\ AITerminalWindow.input_sensitive w' = true
    /\ AITerminalWindow.ssh_client w' = Some (AITerminalWindow.Local Scenario.local).
Proof.
  apply (C4_failed_generate_aborts_turn Scenario.world_down
           (Scenario.window (AITerminalWindow.Local Scenario.local) "hi")
           (AITerminalWindow.Local Scenario.local) "connection refused").
  - reflexivity.
  - reflexivity.
  - reflexivity.
  - left. reflexivity.
Defined.

(** C4 as stated fails: after a turn whose model call failed, the history
    holds the user's turn, which it did not hold before the turn began. *)
Lemma C4_failed_turn_keeps_user_turn :
  AITerminalWindow.conversation_history
    (Scenario.window (AITerminalWindow.Local Scenario.local) "hi") = []
  /\ AITerminalWindow.conversation_history
       (fst (AITerminalWindow.on_send_message Scenario.world_down
               (Scenario.window (AITerminalWindow.Local Scenario.local) "hi")))
     = [{| AITerminalWindow.role := "user"; AITerminalWindow.content := "hi" |}]
  /\ snd (AITerminalWindow.on_send_message Scenario.world_down
            (Scenario.window (AITerminalWindow.Local Scenario.local) "hi")) = [].
Proof.
  repeat split.
Qed.

(** ** Cycling through completions *)

(** One press of Tab on text that is still the text of the cached query,
    with candidates cached: the index advances modulo their number and the
    candidate at the new index is applied. *)
Lemma tab_on_unchanged_text_cycles :
  forall (wd : AITerminalWindow.World) (w : AITerminalWindow.t) (b : AITerminalWindow.Backend)
         (partial_word : string),
    AITerminalWindow.ssh_client w = Some b ->
    AITerminalWindow.backend_connected (Some b) = true ->
    last (map Some (split_ws (take (AITerminalWindow.input_position w)
                                   (AITerminalWindow.input_text w)))) None
    = Some partial_word ->
    AITerminalWindow.input_text w = AITerminalWindow.last_completion_text w ->
    AITerminalWindow.completions w <> [] ->
    let n := List.length (AITerminalWindow.completions w) in
    let i := (AITerminalWindow.completion_index w + 1) mod n in
    exists completion,
      nth_error (AITerminalWindow.completions w) i = Some completion
      /\ AITerminalWindow.handle_tab_completion wd w
         = AITerminalWindow.apply_completion completion (AITerminalWindow.input_text w)
             partial_word
             (AITerminalWindow.with_completions (AITerminalWindow.completions w) i
                (AITerminalWindow.last_completion_text w) w).
Proof.
  intros wd w b partial_word Hb Hconn Hword Htext Hne n i.
  assert (Hi : i < n).
  { apply Nat.mod_upper_bound. unfold n.
    destruct (AITerminalWindow.completions w); [congruence | simpl; lia]. }
  destruct (nth_error (AITerminalWindow.completions w) i) as [completion|] eqn:E.
  - exists completion. split; [reflexivity|].
    unfold AITerminalWindow.handle_tab_completion.
    rewrite Hb, Hconn, Hword. simpl negb at 1. cbv iota.
    rewrite Htext at 1. rewrite String.eqb_refl.
    destruct (AITerminalWindow.completions w) eqn:C; [congruence|].
    simpl negb. simpl orb. cbv iota.
    change (AITerminalWindow.completions
              (AITerminalWindow.with_completions (s :: l)
                 ((AITerminalWindow.completion_index w + 1) mod List.length (s :: l))
                 (AITerminalWindow.last_completion_text w) w)) with (s :: l).
    fold n in E |- *. fold i in E |- *. rewrite E. reflexivity.
  - apply nth_error_None in E. fold n in E. lia.
Qed.

(** C8 at the failing input: Tab pressed four times on [fo], for which the
    backend returns [foo], [fob], [fox].  The first press applies [foo] and
    so changes the text; the text recorded for the cached list is the one
    before the change, hence the second press is a fresh query for [foo],
    and [fob] and [fox] are never applied. *)
Theorem C8_four_tabs_never_cycle :
  AITerminalWindow.completions
    (AITerminalWindow.on_key_pressed Scenario.world_down true
       (Scenario.window (AITerminalWindow.Remote Scenario.completing_remote) "fo"))
  = ["foo"; "fob"; "fox"]
  /\ AITerminalWindow.last_completion_text
       (AITerminalWindow.on_key_pressed Scenario.world_down true
          (Scenario.window (AITerminalWindow.Remote Scenario.completing_remote) "fo"))
     = "fo"
  /\ AITerminalWindow.press_tab Scenario.world_down 4
       (Scenario.window (AITerminalWindow.Remote Scenario.completing_remote) "fo")
     = ["foo"; "foo"; "foo"; "foo"].
Proof.
  repeat split; vm_compute; reflexivity.
Qed.

(** ** Directory tracking on the remote backend *)

Lemma normpath_truthy (path : string) : truthy (PosixPath.normpath path) = true.
Proof.
  unfold PosixPath.normpath.
  destruct (negb (truthy path)); [reflexivity|].
  match goal with |- truthy (if truthy ?r then _ else _) = true =>
    destruct (truthy r) eqn:E; [exact E | reflexivity] end.
Qed.

Lemma estimate_known (d : option string) (target : string) :
  SSHClient.known (Some (SSHClient.estimate d target)) = true.
Proof.
  unfold SSHClient.estimate, SSHClient.known.
  destruct d as [dir|]; [destruct (truthy dir)|]; apply normpath_truthy.
Qed.

Lemma cd_part_not_sep (part : string) :
  startswith "cd " part = true -> SSHClient.is_sep part = false.
Proof.
  intros H. unfold SSHClient.is_sep.
  destruct (String.eqb part ";") eqn:E1.
  - apply String.eqb_eq in E1. subst part. discriminate H.
  - destruct (String.eqb part "&&") eqn:E2; [|reflexivity].
    apply String.eqb_eq in E2. subst part. discriminate H.
Qed.

(** The body of the loop on a [cd] segment whose target [shlex] reads. *)
Lemma segment_cd (host : SSHClient.Host) (part name target : string) (more : list string)
    (d : option string) (o : bool) :
  startswith "cd " part = true ->
  Shlex.split part = Some (name :: target :: more) ->
  SSHClient.segment host part d o
  = match SSHClient.exec_command host (SSHClient.probe_cmd d target) with
    | SSHClient.ExecOut output error =>
        if truthy output && negb (truthy error) then
          match last (map Some (splitlines (strip output))) None with
          | Some line => SSHClient.Next (Some line) o [SSHClient.EvProbe (SSHClient.probe_cmd d target)]
          | None => SSHClient.Next d o [SSHClient.EvProbe (SSHClient.probe_cmd d target)]
          end
        else SSHClient.Stop (Some (SSHClient.estimate d target)) o
               [SSHClient.EvProbe (SSHClient.probe_cmd d target)]
    | SSHClient.ExecRaised _ =>
        SSHClient.Next d o [SSHClient.EvProbe (SSHClient.probe_cmd d target)]
    end.
Proof.
  intros Hcd Hsplit. unfold SSHClient.segment.
  rewrite (cd_part_not_sep part Hcd), Hcd, Hsplit. reflexivity.
Qed.

(** The loop over [pre ++ rest], when it runs through [pre] without
    leaving, goes on over [rest] from where [pre] ended. *)
Lemma track_passes (host : SSHClient.Host) (pre rest : list string) :
  forall (d0 : option string) (o0 : bool) d o evs,
    SSHClient.passes host pre d0 o0 = Some (d, o, evs) ->
    SSHClient.track host (pre ++ rest) d0 o0
    = let '(d', o', evs') := SSHClient.track host rest d o in
      (d', o', (evs ++ evs')%list).
Proof.
  induction pre as [|part pre IH]; intros d0 o0 d o evs H; simpl in H |- *.
  - injection H as <- <- <-. destruct (SSHClient.track host rest d0 o0) as [[? ?] ?].
    reflexivity.
  - destruct (SSHClient.segment host part d0 o0) as [d1 o1 evs1|]; [|discriminate].
    destruct (SSHClient.passes host pre d1 o1) as [[[d2 o2] evs2]|] eqn:E; [|discriminate].
    injection H as <- <- <-.
    rewrite (IH _ _ _ _ _ E).
    destruct (SSHClient.track host rest d2 o2) as [[d3 o3] evs3].
    rewrite app_assoc. reflexivity.
Qed.

Lemma compound_not_single {A : Type} (pre rest : list A) (x : A) :
  (pre ++ rest)%list <> [] -> (List.length (pre ++ x :: rest) =? 1)%nat = false.
Proof.
  intros H. apply Nat.eqb_neq. rewrite length_app. simpl.
  destruct pre; destruct rest; simpl in *; try lia. congruence.
Qed.

Lemma estimate_truthy (d : option string) (target : string) :
  truthy (SSHClient.estimate d target) = true.
Proof.
  exact (estimate_known d target).
Qed.

(** C5, as the code has it.  In a compound command on the remote backend,
    when the loop reaches a [cd] segment whose probe reports a failure
    (nothing on stdout, or something on stderr): the loop ends there, so no
    later segment is probed; the tracked directory becomes the syntactic
    estimate, which is [normpath(join(last_dir, target))] when the last
    directory is known; and the whole command is still submitted to the
    general execution path, prefixed with a [cd] into the estimate.  When
    the probe raises instead, the exception is swallowed: the last
    directory stays as it was and the loop goes on to the next part. *)
Theorem C5_probe_failure_falls_back :
  forall (c : SSHClient.t) (host : SSHClient.Host) (command : string) (streaming : bool)
         (pre rest : list string) (part name target : string) (more : list string)
         (d : option string) (o : bool) (evs : list SSHClient.event) (out err : string),
    SSHClient.client c = Some host ->
    SSHClient.connected c = true ->
    SSHClient.split_commands command = (pre ++ part :: rest)%list ->
    (pre ++ rest)%list <> [] ->
    SSHClient.passes host pre (SSHClient.current_directory c) true = Some (d, o, evs) ->
    startswith "cd " part = true ->
    Shlex.split part = Some (name :: target :: more) ->
    SSHClient.exec_command host (SSHClient.probe_cmd d target) = SSHClient.ExecOut out err ->
    truthy out && negb (truthy err) = false ->
    let fallback := SSHClient.estimate d target in
    let c' := SSHClient.set_current_directory (Some fallback) c in
    let full := "cd " ++ Shlex.quote fallback ++ " && " ++ command in
    let probes := (evs ++ [SSHClient.EvProbe (SSHClient.probe_cmd d target)])%list in
    SSHClient.track host (SSHClient.split_commands command) (SSHClient.current_directory c) true
    = (Some fallback, o, probes)
    /\ (forall dir, d = Some dir -> truthy dir = true ->
        fallback = PosixPath.normpath (PosixPath.join dir target))
    /\ SSHClient.execute_command c command streaming
       = (if streaming
          then let '(c'', evs', r) := SSHClient._execute_streaming host c' full in
               (c'', (probes ++ evs')%list, r)
          else match SSHClient.exec_command host full with
               | SSHClient.ExecOut output error =>
                   (c', (probes ++ [SSHClient.EvExec full])%list,
                    (true, Some (if truthy output then output else error)))
               | SSHClient.ExecRaised msg =>
                   (c', (probes ++ [SSHClient.EvExec full])%list, (false, Some msg))
               end)
    /\ (forall (part' name' target' msg : string) (more' : list string)
               (d' : option string) (o' : bool),
          startswith "cd " part' = true ->
          Shlex.split part' = Some (name' :: target' :: more') ->
          SSHClient.exec_command host (SSHClient.probe_cmd d' target')
          = SSHClient.ExecRaised msg ->
          SSHClient.segment host part' d' o'
          = SSHClient.Next d' o' [SSHClient.EvProbe (SSHClient.probe_cmd d' target')]).
Proof.
  intros c host command streaming pre rest part name target more d o evs out err
         Hclient Hconn Hsplit Hcomp Hpass Hcd Hshlex Hexec Hfail fallback c' full probes.
  assert (T : SSHClient.track host (SSHClient.split_commands command)
                (SSHClient.current_directory c) true = (Some fallback, o, probes)).
  { rewrite Hsplit, (track_passes host pre (part :: rest) _ _ _ _ _ Hpass).
    simpl. rewrite (segment_cd host part name target more d o Hcd Hshlex), Hexec, Hfail.
    reflexivity. }
  split; [exact T|]. split.
  { intros dir -> Hdir. unfold fallback, SSHClient.estimate. rewrite Hdir. reflexivity. }
  split.
  - assert (K : SSHClient.known (Some fallback) = true) by apply estimate_known.
    assert (Tr : truthy fallback = true) by apply estimate_truthy.
    unfold SSHClient.execute_command. rewrite Hclient, Hconn. simpl negb.
    cbv beta iota zeta. rewrite T. cbv beta iota. rewrite !K. fold c'.
    change (SSHClient.current_directory c') with (Some fallback).
    cbv beta iota. rewrite !Tr. fold full.
    rewrite Hsplit, (compound_not_single pre rest part Hcomp).
    rewrite andb_false_r. simpl andb. cbv iota. reflexivity.
  - intros part' name' target' msg more' d' o' Hcd' Hshlex' Hraise.
    rewrite (segment_cd host part' name' target' more' d' o' Hcd' Hshlex'), Hraise.
    reflexivity.
Qed.

Lemma C5_probe_failure_falls_back_witness :
  SSHClient.track Scenario.host (SSHClient.split_commands "ls ; cd nowhere && pwd")
    (Some "/home/u") true
  = (Some "/home/u/nowhere", false,
     [SSHClient.EvProbe "cd /home/u && cd nowhere && pwd"])
  /\ SSHClient.execute_command Scenario.remote "ls ; cd nowhere && pwd" false
     = (SSHClient.set_current_directory (Some "/home/u/nowhere") Scenario.remote,
        [SSHClient.EvProbe "cd /home/u && cd nowhere && pwd";
         SSHClient.EvExec "cd /home/u/nowhere && ls ; cd nowhere && pwd"],
        (true, Some "bash: line 1: cd: No such file or directory")).
Proof.
  destruct (C5_probe_failure_falls_back Scenario.remote Scenario.host
              "ls ; cd nowhere && pwd" false ["ls"; ";"] ["&&"; "pwd"] "cd nowhere"
              "cd" "nowhere" [] (Some "/home/u") false []
              EmptyString "bash: line 1: cd: No such file or directory")
    as [H1 [_ [H3 _]]]; try reflexivity.
  - discriminate.
  - split; [exact H1 | exact H3].
Defined.

(** C5 as stated fails when the probe raises: on a host where the probe
    into [/x] raises, the command below is tracked past that segment (the
    probe into [/tmp] is still sent), and the tracked directory is the
    answer of the later probe, not the estimate [/x]. *)
Lemma C5_raising_probe_keeps_tracking :
  SSHClient.estimate (Some "/home/u") "/x" = "/x"
  /\ SSHClient.execute_command Scenario.raising_remote "cd /x && cd /tmp && ls" false
     = (SSHClient.set_current_directory (Some "/tmp") Scenario.raising_remote,
        [SSHClient.EvProbe "cd /home/u && cd /x && pwd";
         SSHClient.EvProbe "cd /home/u && cd /tmp && pwd";
         SSHClient.EvExec "cd /tmp && cd /x && cd /tmp && ls"],
        (true, Some EmptyString))
  /\ SSHClient.current_directory
       (fst (fst (SSHClient.execute_command Scenario.raising_remote "cd /x && ls" false)))
     = Some "/home/u".
Proof.
  repeat split.
Qed.

(** ** Facts about the string primitives *)

Lemma truthy_false (s : string) : truthy s = false -> s = EmptyString.
Proof. destruct s; [reflexivity | discriminate]. Qed.

Lemma truthy_app_r (a b : string) : truthy b = true -> truthy (a ++ b) = true.
Proof. destruct a; simpl; [trivial | reflexivity]. Qed.

Lemma last_char_app (a b : string) :
  truthy b = true -> last_char (a ++ b) = last_char b.
Proof.
  intros Hb. induction a as [|c a IH]; [reflexivity|].
  simpl. rewrite IH. destruct (a ++ b) eqn:E; [|reflexivity].
  pose proof (truthy_app_r a b Hb) as T. rewrite E in T. discriminate.
Qed.


(** [rstrip] yields the empty string or ends in a character that is not
    white space. *)
Lemma rstrip_last (s : string) :
  rstrip s = EmptyString
  \/ exists c, last_char (rstrip s) = Some c /\ is_space c = false.
Proof.
  induction s as [|a s IH]; [left; reflexivity|].
  simpl. destruct IH as [E|[c [L S]]].
  - rewrite E. destruct (is_space a) eqn:A; [left; reflexivity|].
    right. exists a. split; [reflexivity | exact A].
  - right. exists c. destruct (rstrip s) as [|b r] eqn:R; [discriminate|].
    split; [|exact S]. exact L.
Qed.

(** [lstrip] keeps a suffix: when something is left, its last character is
    the last character of the argument. *)
Lemma lstrip_last (s : string) :
  truthy (lstrip s) = true -> last_char (lstrip s) = last_char s.
Proof.
  induction s as [|a s IH]; [discriminate|].
  simpl. destruct (is_space a).
  - intros H. rewrite (IH H). destruct s; [discriminate H | reflexivity].
  - reflexivity.
Qed.

(** [strip] yields the empty string or ends in a character that is not
    white space. *)
Lemma strip_last (s : string) :
  truthy (strip s) = true ->
  exists c, last_char (strip s) = Some c /\ is_space c = false.
Proof.
  unfold strip. intros H. rewrite (lstrip_last _ H).
  destruct (rstrip_last s) as [E|P]; [|exact P].
  rewrite E in H. discriminate.
Qed.



Lemma last_char_cons (c d : ascii) (s : string) :
  last_char (String c (String d s)) = last_char (String d s).
Proof. reflexivity. Qed.



(** ** A command that is a single [cd] *)

Lemma set_current_directory_same (c : SSHClient.t) :
  SSHClient.set_current_directory (SSHClient.current_directory c) c = c.
Proof. destruct c; reflexivity. Qed.






(** ** [cd] with no argument, and [cd ~] *)

Lemma lower_char_space (c : ascii) : lower_char c = " "%char -> c = " "%char.
Proof.
  destruct c as [[] [] [] [] [] [] [] []]; vm_compute; intros H;
    first [reflexivity | discriminate H].
Qed.

Lemma strip_truthy_of_last (s : string) (x : ascii) :
  last_char s = Some x -> is_space x = false -> truthy (strip s) = true.
Proof.
  intros L S. unfold strip.
  assert (R : rstrip s = s).
  { revert L. induction s as [|a s IH]; [reflexivity|]. intros L. simpl.
    destruct s as [|b s'].
    - simpl in L. injection L as ->. simpl. rewrite S. reflexivity.
    - rewrite last_char_cons in L. rewrite (IH L). reflexivity. }
  rewrite R. clear R. revert L. induction s as [|a s IH]; [discriminate|].
  intros L. simpl. destruct (is_space a) eqn:A; [|reflexivity].
  destruct s as [|b s'].
  - simpl in L. injection L as ->. congruence.
  - rewrite last_char_cons in L. exact (IH L).
Qed.

(** The text after [cd ] in a stripped command is never blank, so the
    branch of [execute_command] that sends a bare [cd] to the home
    directory cannot be taken. *)
Lemma cd_argument_never_blank (command : string) :
  LocalClient.is_cd command = true ->
  truthy (strip (drop 3 (strip command))) = true.
Proof.
  unfold LocalClient.is_cd. intros H.
  destruct (strip command) as [|a [|b [|c rest]]] eqn:E;
    cbn [startswith lower] in H;
    repeat rewrite ?andb_false_r in H; try discriminate H.
  apply andb_true_iff in H. destruct H as [_ H].
  apply andb_true_iff in H. destruct H as [_ H].
  apply andb_true_iff in H. destruct H as [H _].
  apply Ascii.eqb_eq in H. symmetry in H. apply lower_char_space in H. subst c.
  assert (T : truthy (strip command) = true) by (rewrite E; reflexivity).
  destruct (strip_last command T) as [x [L S]]. rewrite E in L.
  simpl drop. destruct rest as [|d rest'].
  - simpl in L. injection L as <-. discriminate S.
  - rewrite !last_char_cons in L. exact (strip_truthy_of_last _ x L S).
Qed.

(** C6 at the failing inputs.  On the local backend the command [cd] is
    not treated as a [cd] at all: it is run through the shell, no
    [os.chdir] happens and the tracked directory stays as it was; the
    branch meant for it is unreachable.  On the remote backend [cd] is
    likewise sent through the general path with the directory unchanged,
    and for [cd ~] the probe quotes the tilde, so that a host that knows no
    directory of that name makes the tracked directory [/home/u/~]. *)
Theorem C6_bare_cd_does_not_go_home :
  (forall command, LocalClient.is_cd command = true ->
                   truthy (strip (drop 3 (strip command))) = true)
  /\ (forall (os : LocalClient.OS) (c : LocalClient.t),
        exists r,
          LocalClient.execute_command os c "cd" false None
          = (c, [LocalClient.EvRun "cd" (LocalClient.current_directory c)], r))
  /\ SSHClient.execute_command Scenario.remote "cd" false
     = (Scenario.remote, [SSHClient.EvExec "cd /home/u && cd"], (true, Some EmptyString))
  /\ SSHClient.probe_cmd (Some "/home/u") "~" = "cd /home/u && cd '~' && pwd"
  /\ SSHClient.execute_command Scenario.remote "cd ~" false
     = (SSHClient.set_current_directory (Some "/home/u/~") Scenario.remote,
        [SSHClient.EvProbe "cd /home/u && cd '~' && pwd"], (true, Some "/home/u/~")).
Proof.
  split; [exact cd_argument_never_blank|]. split.
  - intros os c. unfold LocalClient.execute_command.
    change (LocalClient.is_cd "cd") with false. cbv beta iota zeta.
    destruct (LocalClient.run os "cd" (LocalClient.current_directory c) 30);
      eexists; reflexivity.
  - repeat split.
Qed.

(** ** Stripping, splitting and replacing *)

Lemma lstrip_app_space (w s : string) :
  all_space w = true -> lstrip (w ++ s) = lstrip s.
Proof.
  induction w as [|c w IH]; [reflexivity|]. simpl.
  intros H. apply andb_true_iff in H. destruct H as [Hc Hw].
  rewrite Hc. exact (IH Hw).
Qed.

Lemma rstrip_app_truthy (a b : string) :
  truthy (rstrip b) = true -> rstrip (a ++ b) = a ++ rstrip b.
Proof.
  intros H. induction a as [|c a IH]; [reflexivity|].
  simpl. rewrite IH. destruct (a ++ rstrip b) eqn:E; [|reflexivity].
  pose proof (truthy_app_r a _ H) as T. rewrite E in T. discriminate.
Qed.

Lemma rstrip_app_space (s w : string) :
  all_space w = true -> rstrip (s ++ w) = rstrip s.
Proof.
  intros Hw.
  assert (W : rstrip w = EmptyString).
  { induction w as [|c w IH]; [reflexivity|]. simpl in Hw |- *.
    apply andb_true_iff in Hw. destruct Hw as [Hc Hw].
    rewrite (IH Hw), Hc. reflexivity. }
  induction s as [|c s IH]; [exact W|]. simpl. rewrite IH. reflexivity.
Qed.

(** A string is what [rstrip] keeps of it, followed by white space. *)
Lemma rstrip_split (s : string) :
  exists w, all_space w = true /\ s = rstrip s ++ w.
Proof.
  induction s as [|c s [w [Hw E]]]; [exists EmptyString; split; reflexivity|].
  simpl. destruct (rstrip s) as [|b r] eqn:R.
  - destruct (is_space c) eqn:C.
    + exists (String c w). simpl. rewrite C, Hw. split; [reflexivity|].
      rewrite E at 1. reflexivity.
    + exists w. split; [exact Hw|]. rewrite E at 1. reflexivity.
  - exists w. split; [exact Hw|]. rewrite E at 1. reflexivity.
Qed.

Lemma eqb_space_mismatch (a b : ascii) :
  is_space a = false -> is_space b = true -> Ascii.eqb a b = false.
Proof.
  intros Ha Hb. destruct (Ascii.eqb a b) eqn:E; [|reflexivity].
  apply Ascii.eqb_eq in E. congruence.
Qed.

(** White space appended to a text opens no new occurrence of a pattern
    that holds no white space. *)
Lemma startswith_app_space (old : string) :
  no_space old = true ->
  forall t w, all_space w = true -> startswith old (t ++ w) = startswith old t.
Proof.
  induction old as [|a old IH]; [reflexivity|].
  simpl. intros Hold t w Hw.
  apply andb_true_iff in Hold. destruct Hold as [Ha Hold].
  apply negb_true_iff in Ha.
  destruct t as [|x t].
  - simpl. destruct w as [|b w]; [reflexivity|].
    simpl in Hw. apply andb_true_iff in Hw. destruct Hw as [Hb _].
    rewrite (eqb_space_mismatch a b Ha Hb). reflexivity.
  - simpl. rewrite (IH Hold t w Hw). reflexivity.
Qed.

Lemma startswith_length (old s : string) :
  startswith old s = true -> String.length old <= String.length s.
Proof.
  revert s. induction old as [|a old IH]; intros [|b s] H; simpl in *;
    try lia; try discriminate.
  apply andb_true_iff in H. destruct H as [_ H]. specialize (IH s H). lia.
Qed.

Lemma append_assoc_str (a b c : string) : (a ++ b) ++ c = a ++ (b ++ c).
Proof.
  induction a as [|x a IH]; [reflexivity|]. simpl. rewrite IH. reflexivity.
Qed.

(** [replace] leaves trailing white space alone when the pattern holds
    none. *)
Lemma replace_from_app_space (old new w : string) :
  no_space old = true -> truthy old = true -> all_space w = true ->
  forall t k, k <= String.length t ->
    replace_from old new k (t ++ w) = replace_from old new k t ++ w.
Proof.
  intros Hold Hne Hw.
  assert (W : forall w', all_space w' = true -> replace_from old new 0 w' = w').
  { induction w' as [|b w' IH]; [reflexivity|]. intros Hb. simpl in Hb.
    apply andb_true_iff in Hb. destruct Hb as [Hb Hw'].
    cbn [replace_from].
    replace (startswith old (String b w')) with false.
    - rewrite (IH Hw'). reflexivity.
    - destruct old as [|a old]; [discriminate|]. simpl in Hold |- *.
      apply andb_true_iff in Hold. destruct Hold as [Ha _].
      apply negb_true_iff in Ha.
      rewrite (eqb_space_mismatch a b Ha Hb). reflexivity. }
  induction t as [|c t IH]; intros k Hk.
  - simpl in Hk. assert (k = 0) by lia. subst k. simpl. exact (W w Hw).
  - simpl in Hk. cbn [append replace_from]. destruct k as [|k].
    + change (String c (t ++ w)) with (String c t ++ w).
      rewrite (startswith_app_space old Hold (String c t) w Hw).
      destruct (startswith old (String c t)) eqn:S.
      * apply startswith_length in S. simpl in S.
        rewrite IH by lia. symmetry. apply append_assoc_str.
      * rewrite IH by lia. reflexivity.
    + apply IH. lia.
Qed.

Lemma strip_app_space (s w : string) :
  all_space w = true -> strip (s ++ w) = strip s.
Proof.
  intros H. unfold strip. rewrite (rstrip_app_space s w H). reflexivity.
Qed.

Lemma startswith_rstrip (old s : string) :
  no_space old = true -> startswith old (rstrip s) = startswith old s.
Proof.
  intros H. destruct (rstrip_split s) as [w [Hw E]].
  rewrite E at 2. symmetry. apply startswith_app_space; assumption.
Qed.

(** The value read after a label does not depend on white space at the end
    of the line. *)
Lemma field_rstrip (old s : string) :
  no_space old = true -> truthy old = true ->
  strip (replace old EmptyString (rstrip s)) = strip (replace old EmptyString s).
Proof.
  intros H T. destruct (rstrip_split s) as [w [Hw E]].
  rewrite E at 2. unfold replace.
  rewrite (replace_from_app_space old EmptyString w H T Hw) by lia.
  symmetry. apply strip_app_space. exact Hw.
Qed.

Lemma lacks_app (c : ascii) (a b : string) :
  lacks c (a ++ b) = lacks c a && lacks c b.
Proof.
  induction a as [|x a IH]; [reflexivity|]. simpl. rewrite IH.
  rewrite andb_assoc. reflexivity.
Qed.

Lemma lacks_rstrip (c : ascii) (s : string) :
  lacks c s = true -> lacks c (rstrip s) = true.
Proof.
  destruct (rstrip_split s) as [w [_ E]]. intros H.
  rewrite E, lacks_app in H. apply andb_true_iff in H. tauto.
Qed.

Lemma split_char_lacks (c : ascii) (s : string) :
  lacks c s = true -> split_char c s = [s].
Proof.
  induction s as [|x s IH]; [reflexivity|]. simpl. intros H.
  apply andb_true_iff in H. destruct H as [Hx Hs].
  apply negb_true_iff in Hx. rewrite Hx, (IH Hs). reflexivity.
Qed.

Lemma split_char_app (c : ascii) (a b : string) :
  lacks c a = true -> split_char c (a ++ String c b) = a :: split_char c b.
Proof.
  induction a as [|x a IH]; simpl.
  - intros _. rewrite Ascii.eqb_refl. reflexivity.
  - intros H. apply andb_true_iff in H. destruct H as [Hx Ha].
    apply negb_true_iff in Hx. rewrite Hx, (IH Ha). reflexivity.
Qed.

(** ** Parsing the model's answer *)

Section Parsing.
Import AITerminalWindow.

Ltac first_char H :=
  match type of H with
  | startswith _ ?l = true =>
      destruct l as [|? ?]; [discriminate H|];
      cbn [startswith] in H; apply andb_true_iff in H; destruct H as [H _];
      apply Ascii.eqb_eq in H; subst; reflexivity
  end.

Lemma command_not_decision (l : string) :
  startswith "COMMAND:" l = true -> startswith "DECISION:" l = false.
Proof. intros H. first_char H. Qed.

Lemma response_not_decision (l : string) :
  startswith "RESPONSE:" l = true -> startswith "DECISION:" l = false.
Proof. intros H. first_char H. Qed.

Lemma response_not_command (l : string) :
  startswith "RESPONSE:" l = true -> startswith "COMMAND:" l = false.
Proof. intros H. first_char H. Qed.

Lemma decision_not_command (l : string) :
  startswith "DECISION:" l = true -> startswith "COMMAND:" l = false.
Proof. intros H. first_char H. Qed.

Lemma decision_not_response (l : string) :
  startswith "DECISION:" l = true -> startswith "RESPONSE:" l = false.
Proof. intros H. first_char H. Qed.

Lemma command_not_response (l : string) :
  startswith "COMMAND:" l = true -> startswith "RESPONSE:" l = false.
Proof. intros H. first_char H. Qed.

Lemma parse_line_decision (p : parsed) (l : string) :
  startswith "DECISION:" l = true ->
  parse_line p l
  = {| decision := field "DECISION:" l; command := command p;
       ai_message := ai_message p; response_started := false |}.
Proof. intros H. unfold parse_line, field. rewrite H. reflexivity. Qed.

Lemma parse_line_command (p : parsed) (l : string) :
  startswith "COMMAND:" l = true ->
  parse_line p l
  = {| decision := decision p; command := field "COMMAND:" l;
       ai_message := ai_message p; response_started := false |}.
Proof.
  intros H. unfold parse_line.
  unfold field. rewrite (command_not_decision l H), H. reflexivity.
Qed.

Lemma parse_line_response (p : parsed) (l : string) :
  startswith "RESPONSE:" l = true ->
  parse_line p l
  = {| decision := decision p; command := command p;
       ai_message := field "RESPONSE:" l; response_started := true |}.
Proof.
  intros H. unfold parse_line.
  unfold field.
  rewrite (response_not_decision l H), (response_not_command l H), H. reflexivity.
Qed.

Lemma parse_line_plain (p : parsed) (l : string) :
  labelled l = false ->
  parse_line p l
  = if response_started p
    then {| decision := decision p; command := command p;
            ai_message := ai_message p ++ nl ++ l; response_started := true |}
    else p.
Proof.
  unfold labelled. intros H.
  apply orb_false_iff in H. destruct H as [H HR].
  apply orb_false_iff in H. destruct H as [HD HC].
  unfold parse_line. rewrite HD, HC, HR. reflexivity.
Qed.

(** A line changes the decision only when it starts with the decision
    label, and likewise for the command and the message. *)
Lemma parse_line_keeps_decision (p : parsed) (l : string) :
  startswith "DECISION:" l = false -> decision (parse_line p l) = decision p.
Proof.
  intros H. unfold parse_line. rewrite H.
  repeat match goal with |- context [if ?b then _ else _] => destruct b end;
    reflexivity.
Qed.

Lemma parse_line_keeps_command (p : parsed) (l : string) :
  startswith "COMMAND:" l = false -> command (parse_line p l) = command p.
Proof.
  intros H. unfold parse_line. rewrite H.
  repeat match goal with |- context [if ?b then _ else _] => destruct b end;
    reflexivity.
Qed.

Lemma parse_line_keeps_message (p : parsed) (l : string) :
  labelled l = true -> startswith "RESPONSE:" l = false ->
  ai_message (parse_line p l) = ai_message p.
Proof.
  unfold labelled. intros L H. rewrite H, orb_false_r in L.
  unfold parse_line. rewrite H.
  destruct (startswith "DECISION:" l); [reflexivity|].
  destruct (startswith "COMMAND:" l); [reflexivity | discriminate L].
Qed.

(** The decision after a run of lines in which every line with the
    decision label is [d]. *)
Lemma decision_of_lines (d : string) (lines : list string) :
  forall p,
    (forall l, In l lines -> startswith "DECISION:" l = true -> l = d) ->
    decision (fold_left parse_line lines p)
    = if existsb (startswith "DECISION:") lines then field "DECISION:" d else decision p.
Proof.
  induction lines as [|l lines IH]; intros p H; [reflexivity|].
  cbn [fold_left existsb]. rewrite IH by (intros l' Hin; apply H; right; exact Hin).
  destruct (startswith "DECISION:" l) eqn:E.
  - assert (l = d) by (apply H; [left; reflexivity | exact E]). subst l.
    rewrite (parse_line_decision p d E). cbn [decision command ai_message].
    destruct (existsb (startswith "DECISION:") lines); reflexivity.
  - rewrite (parse_line_keeps_decision p l E). reflexivity.
Qed.

Lemma command_of_lines (c : string) (lines : list string) :
  forall p,
    (forall l, In l lines -> startswith "COMMAND:" l = true -> l = c) ->
    command (fold_left parse_line lines p)
    = if existsb (startswith "COMMAND:") lines then field "COMMAND:" c else command p.
Proof.
  induction lines as [|l lines IH]; intros p H; [reflexivity|].
  cbn [fold_left existsb]. rewrite IH by (intros l' Hin; apply H; right; exact Hin).
  destruct (startswith "COMMAND:" l) eqn:E.
  - assert (l = c) by (apply H; [left; reflexivity | exact E]). subst l.
    rewrite (parse_line_command p c E). cbn [decision command ai_message].
    destruct (existsb (startswith "COMMAND:") lines); reflexivity.
  - rewrite (parse_line_keeps_command p l E). reflexivity.
Qed.

(** Lines without a label are appended to the message while the capture
    is on. *)
Lemma message_of_plain_lines (lines : list string) :
  forall p,
    response_started p = true ->
    Forall (fun l => labelled l = false) lines ->
    ai_message (fold_left parse_line lines p)
    = fold_left (fun m l => m ++ nl ++ l) lines (ai_message p).
Proof.
  induction lines as [|l lines IH]; intros p Hs H; [reflexivity|].
  inversion H as [|? ? Hl Hrest]; subst. simpl.
  rewrite (parse_line_plain p l Hl), Hs. rewrite IH; [reflexivity | reflexivity | exact Hrest].
Qed.

(** Lines without a label leave the start state alone. *)
Lemma plain_lines_default (lines : list string) :
  Forall (fun l => labelled l = false) lines ->
  fold_left parse_line lines parse_start = parse_start.
Proof.
  induction lines as [|l lines IH]; intros H; [reflexivity|].
  inversion H as [|? ? Hl Hrest]; subst. simpl.
  rewrite (parse_line_plain parse_start l Hl). simpl. exact (IH Hrest).
Qed.

End Parsing.

Lemma labelled_first_char (l : string) :
  AITerminalWindow.labelled l = true -> no_space (take 1 l) = true /\ truthy l = true.
Proof.
  unfold AITerminalWindow.labelled. intros H.
  destruct l as [|a l]; [discriminate H|]. split; [|reflexivity].
  cbn [startswith] in H. cbn [take no_space]. rewrite andb_true_r.
  repeat (apply orb_true_iff in H; destruct H as [H|H]);
    apply andb_true_iff in H; destruct H as [H _];
    apply Ascii.eqb_eq in H; subst a; reflexivity.
Qed.

(** ** The lines of a stripped text *)

Lemma rstrip_empty_all_space (s : string) :
  rstrip s = EmptyString -> all_space s = true.
Proof.
  induction s as [|c s IH]; [reflexivity|]. simpl.
  destruct (rstrip s) eqn:R; [|discriminate].
  destruct (is_space c); [intros _; apply IH; reflexivity | discriminate].
Qed.

(** What [rstrip_lines] keeps does not end in a blank line. *)
Lemma rstrip_lines_truthy (lines : list string) :
  match rstrip_lines lines with
  | [] => True
  | kept => truthy (PyStr.join nl kept) = true
  end.
Proof.
  induction lines as [|l rest IH]; [exact I|]. cbn [rstrip_lines].
  destruct (rstrip_lines rest) as [|k ks].
  - destruct (truthy (rstrip l)) eqn:T; [exact T | exact I].
  - cbn [PyStr.join]. apply truthy_app_r. reflexivity.
Qed.

(** [rstrip] on a text, seen on its lines. *)
Lemma rstrip_join (lines : list string) :
  rstrip (PyStr.join nl lines) = PyStr.join nl (rstrip_lines lines).
Proof.
  induction lines as [|l rest IH]; [reflexivity|].
  pose proof (rstrip_lines_truthy rest) as T.
  cbn [rstrip_lines]. destruct rest as [|r rs].
  - cbn [rstrip_lines PyStr.join].
    destruct (truthy (rstrip l)) eqn:E; [reflexivity|].
    apply truthy_false in E. exact E.
  - change (PyStr.join nl (l :: r :: rs)) with (l ++ nl ++ PyStr.join nl (r :: rs)).
    destruct (rstrip_lines (r :: rs)) as [|k ks].
    + assert (A : all_space (nl ++ PyStr.join nl (r :: rs)) = true).
      { apply rstrip_empty_all_space in IH. unfold nl. simpl. exact IH. }
      rewrite (rstrip_app_space l _ A).
      destruct (truthy (rstrip l)) eqn:E; [reflexivity|].
      apply truthy_false in E. exact E.
    + assert (B : truthy (rstrip (nl ++ PyStr.join nl (r :: rs))) = true).
      { rewrite (rstrip_app_truthy nl) by (rewrite IH; exact T).
        reflexivity. }
      rewrite (rstrip_app_truthy l _ B).
      rewrite (rstrip_app_truthy nl) by (rewrite IH; exact T).
      rewrite IH. reflexivity.
Qed.

Lemma split_join (lines : list string) :
  lines <> [] -> Forall (fun l => lacks "010"%char l = true) lines ->
  split_char "010"%char (PyStr.join nl lines) = lines.
Proof.
  induction lines as [|l rest IH]; [congruence|]. intros _ H.
  inversion H as [|? ? Hl Hrest]; subst.
  destruct rest as [|r rs].
  - simpl. apply split_char_lacks. exact Hl.
  - change (PyStr.join nl (l :: r :: rs))
      with (l ++ String "010"%char (PyStr.join nl (r :: rs))).
    rewrite (split_char_app _ l _ Hl), IH; [reflexivity | discriminate | exact Hrest].
Qed.

Lemma rstrip_lines_Forall (P : string -> Prop) (lines : list string) :
  (forall l, P l -> P (rstrip l)) ->
  Forall P lines -> Forall P (rstrip_lines lines).
Proof.
  intros HP. induction lines as [|l rest IH]; intros H; [constructor|].
  inversion H as [|? ? Hl Hrest]; subst. cbn [rstrip_lines].
  specialize (IH Hrest).
  destruct (rstrip_lines rest) as [|k ks].
  - destruct (truthy (rstrip l)); constructor; [apply HP; exact Hl | constructor].
  - constructor; assumption.
Qed.

Lemma rstrip_lines_app (a b : list string) :
  rstrip_lines b <> [] -> rstrip_lines (a ++ b) = (a ++ rstrip_lines b)%list.
Proof.
  intros Hb. induction a as [|l a IH]; [reflexivity|].
  cbn [app rstrip_lines]. rewrite IH.
  destruct (a ++ rstrip_lines b)%list eqn:E; [|reflexivity].
  apply app_eq_nil in E. destruct E as [_ E]. contradiction.
Qed.

Lemma rstrip_lines_cons (h : string) (rest : list string) :
  truthy (rstrip h) = true ->
  rstrip_lines (h :: rest)
  = match rstrip_lines rest with
    | [] => [rstrip h]
    | kept => h :: kept
    end.
Proof. intros T. cbn [rstrip_lines]. rewrite T. reflexivity. Qed.

(** When [rstrip_lines] keeps nothing, every line was blank. *)
Lemma rstrip_lines_blank (lines : list string) :
  rstrip_lines lines = [] -> Forall (fun l => rstrip l = EmptyString) lines.
Proof.
  induction lines as [|l rest IH]; intros H; [constructor|].
  cbn [rstrip_lines] in H. destruct (rstrip_lines rest) as [|k ks]; [|discriminate].
  constructor; [|apply IH; reflexivity].
  destruct (truthy (rstrip l)) eqn:T; [discriminate|]. apply truthy_false. exact T.
Qed.

(** Lines whose last one is neither empty nor ends in white space are
    kept as they are. *)
Lemma rstrip_lines_clean (lines : list string) :
  (forall init l, lines = (init ++ [l])%list -> truthy l = true /\ rstrip l = l) ->
  rstrip_lines lines = lines.
Proof.
  induction lines as [|a rest IH]; intros H; [reflexivity|].
  cbn [rstrip_lines]. rewrite IH.
  - destruct rest as [|b rest]; [|reflexivity].
    destruct (H [] a eq_refl) as [T R]. rewrite R, T. reflexivity.
  - intros init l E. apply (H (a :: init)). rewrite E. reflexivity.
Qed.

Lemma lstrip_first (a : string) :
  no_space (take 1 a) = true -> lstrip a = a.
Proof.
  destruct a as [|x a]; [reflexivity|]. simpl. intros H.
  rewrite andb_true_r in H. apply negb_true_iff in H. rewrite H. reflexivity.
Qed.

Lemma lstrip_app_first (a b : string) :
  no_space (take 1 a) = true -> truthy a = true -> lstrip (a ++ b) = a ++ b.
Proof.
  destruct a as [|x a]; [discriminate|]. simpl. intros H _.
  rewrite andb_true_r in H. apply negb_true_iff in H. rewrite H. reflexivity.
Qed.

Lemma labelled_rstrip (l : string) :
  AITerminalWindow.labelled (rstrip l) = AITerminalWindow.labelled l.
Proof.
  unfold AITerminalWindow.labelled.
  rewrite !startswith_rstrip by reflexivity. reflexivity.
Qed.

Lemma labelled_rstrip_truthy (l : string) :
  AITerminalWindow.labelled l = true -> truthy (rstrip l) = true.
Proof.
  intros H. rewrite <- labelled_rstrip in H.
  apply labelled_first_char in H. apply H.
Qed.

Lemma blank_unlabelled (l : string) :
  rstrip l = EmptyString -> AITerminalWindow.labelled l = false.
Proof. intros H. rewrite <- labelled_rstrip, H. reflexivity. Qed.

Lemma unlabelled_labels (l : string) :
  AITerminalWindow.labelled l = false ->
  startswith "DECISION:" l = false /\ startswith "COMMAND:" l = false
  /\ startswith "RESPONSE:" l = false.
Proof.
  unfold AITerminalWindow.labelled. intros H.
  apply orb_false_iff in H. destruct H as [H HR].
  apply orb_false_iff in H. destruct H as [HD HC]. auto.
Qed.

(** The lines of a stripped text whose first line carries a label, behind
    leading white space. *)
Lemma lines_of_text (pre h : string) (rest : list string) :
  all_space pre = true -> AITerminalWindow.labelled h = true ->
  Forall (fun l => lacks "010"%char l = true) (h :: rest) ->
  split_char "010"%char (strip (pre ++ PyStr.join nl (h :: rest)))
  = rstrip_lines (h :: rest).
Proof.
  intros Hpre Hlab Hnl.
  pose proof (labelled_rstrip_truthy h Hlab) as T.
  pose proof (rstrip_lines_truthy (h :: rest)) as K.
  pose proof (rstrip_lines_cons h rest T) as C.
  assert (Ne : rstrip_lines (h :: rest) <> []).
  { rewrite C. destruct (rstrip_lines rest); discriminate. }
  destruct (rstrip_lines (h :: rest)) as [|k ks] eqn:E; [congruence|].
  unfold strip.
  rewrite (rstrip_app_truthy pre) by (rewrite rstrip_join, E; exact K).
  rewrite (lstrip_app_space pre _ Hpre), rstrip_join, E.
  assert (L : lstrip (PyStr.join nl (k :: ks)) = PyStr.join nl (k :: ks)).
  { destruct (rstrip_lines rest) as [|k' ks'].
    - injection C as -> ->. cbn [PyStr.join].
      rewrite <- labelled_rstrip in Hlab.
      apply lstrip_first, labelled_first_char, Hlab.
    - injection C as -> ->. cbn [PyStr.join].
      destruct (labelled_first_char _ Hlab) as [F Tr].
      apply lstrip_app_first; assumption. }
  rewrite L. apply split_join; [discriminate|].
  rewrite <- E. apply rstrip_lines_Forall; [apply lacks_rstrip | exact Hnl].
Qed.

(** ** Parsing the lines *)

Lemma decision_without_label (lines : list string) :
  forall p,
    Forall (fun l => startswith "DECISION:" l = false) lines ->
    AITerminalWindow.decision (fold_left AITerminalWindow.parse_line lines p)
    = AITerminalWindow.decision p.
Proof.
  induction lines as [|l lines IH]; intros p H; [reflexivity|].
  inversion H as [|? ? Hl Hrest]; subst. cbn [fold_left].
  rewrite (IH _ Hrest). apply parse_line_keeps_decision. exact Hl.
Qed.

Lemma command_without_label (lines : list string) :
  forall p,
    Forall (fun l => startswith "COMMAND:" l = false) lines ->
    AITerminalWindow.command (fold_left AITerminalWindow.parse_line lines p)
    = AITerminalWindow.command p.
Proof.
  induction lines as [|l lines IH]; intros p H; [reflexivity|].
  inversion H as [|? ? Hl Hrest]; subst. cbn [fold_left].
  rewrite (IH _ Hrest). apply parse_line_keeps_command. exact Hl.
Qed.

(** While no capture is open, lines without the message label leave the
    message alone and open no capture. *)
Lemma message_without_label (lines : list string) :
  forall p,
    AITerminalWindow.response_started p = false ->
    Forall (fun l => startswith "RESPONSE:" l = false) lines ->
    AITerminalWindow.ai_message (fold_left AITerminalWindow.parse_line lines p)
    = AITerminalWindow.ai_message p.
Proof.
  induction lines as [|l lines IH]; intros p Hs H; [reflexivity|].
  inversion H as [|? ? Hl Hrest]; subst. cbn [fold_left].
  assert (Q : AITerminalWindow.response_started (AITerminalWindow.parse_line p l) = false
              /\ AITerminalWindow.ai_message (AITerminalWindow.parse_line p l)
                 = AITerminalWindow.ai_message p).
  { unfold AITerminalWindow.parse_line. rewrite Hl, Hs.
    destruct (startswith "DECISION:" l); [split; reflexivity|].
    destruct (startswith "COMMAND:" l); split; first [reflexivity | exact Hs]. }
  destruct Q as [Q1 Q2]. rewrite (IH _ Q1 Hrest). exact Q2.
Qed.

(** Lines without a label keep an open capture open. *)
Lemma plain_lines_started (lines : list string) :
  forall p,
    AITerminalWindow.response_started p = true ->
    Forall (fun l => AITerminalWindow.labelled l = false) lines ->
    AITerminalWindow.response_started (fold_left AITerminalWindow.parse_line lines p)
    = true.
Proof.
  induction lines as [|l lines IH]; intros p Hs H; [exact Hs|].
  inversion H as [|? ? Hl Hrest]; subst. cbn [fold_left].
  apply IH; [|exact Hrest].
  rewrite (parse_line_plain p l Hl), Hs. reflexivity.
Qed.

(** The message a line with the message label leaves: its own value, and
    the lines that follow it up to the next line with a label. *)
Lemma message_of_block (before cont rest : list string) (line : string) :
  forall p,
    startswith "RESPONSE:" line = true ->
    Forall (fun l => AITerminalWindow.labelled l = false) cont ->
    Forall (fun l => startswith "RESPONSE:" l = false) rest ->
    match rest with [] => True | l :: _ => AITerminalWindow.labelled l = true end ->
    AITerminalWindow.ai_message
      (fold_left AITerminalWindow.parse_line (before ++ line :: cont ++ rest) p)
    = fold_left (fun m l => m ++ nl ++ l) cont (AITerminalWindow.field "RESPONSE:" line).
Proof.
  intros p Hr Hcont Hrest Hhead.
  rewrite fold_left_app. cbn [fold_left]. rewrite fold_left_app.
  set (q := AITerminalWindow.parse_line _ line).
  assert (Qs : AITerminalWindow.response_started q = true).
  { unfold q. rewrite (parse_line_response _ line Hr). reflexivity. }
  assert (Qm : AITerminalWindow.ai_message q = AITerminalWindow.field "RESPONSE:" line).
  { unfold q. rewrite (parse_line_response _ line Hr). reflexivity. }
  pose proof (message_of_plain_lines cont q Qs Hcont) as M.
  pose proof (plain_lines_started cont q Qs Hcont) as S.
  rewrite Qm in M.
  destruct rest as [|l rest]; [exact M|].
  inversion Hrest as [|? ? Hl Hrest']; subst. cbn [fold_left].
  rewrite message_without_label; [| |exact Hrest'].
  - rewrite (parse_line_keeps_message _ l Hhead Hl). exact M.
  - unfold AITerminalWindow.labelled in Hhead. rewrite Hl, orb_false_r in Hhead.
    unfold AITerminalWindow.parse_line.
    destruct (startswith "DECISION:" l); [reflexivity|].
    destruct (startswith "COMMAND:" l); [reflexivity | discriminate Hhead].
Qed.

(** White space at the end of a line changes neither the decision nor the
    command the line leaves. *)
Lemma parse_line_rstrip_fields (p : AITerminalWindow.parsed) (l : string) :
  AITerminalWindow.decision (AITerminalWindow.parse_line p (rstrip l))
  = AITerminalWindow.decision (AITerminalWindow.parse_line p l)
  /\ AITerminalWindow.command (AITerminalWindow.parse_line p (rstrip l))
     = AITerminalWindow.command (AITerminalWindow.parse_line p l).
Proof.
  unfold AITerminalWindow.parse_line.
  rewrite !startswith_rstrip by reflexivity.
  rewrite (field_rstrip "DECISION:" l eq_refl eq_refl),
    (field_rstrip "COMMAND:" l eq_refl eq_refl).
  destruct (startswith "DECISION:" l); [split; reflexivity|].
  destruct (startswith "COMMAND:" l); [split; reflexivity|].
  destruct (startswith "RESPONSE:" l); [split; reflexivity|].
  destruct (AITerminalWindow.response_started p); split; reflexivity.
Qed.

Lemma blank_lines_unlabelled (lines : list string) :
  Forall (fun l => rstrip l = EmptyString) lines ->
  Forall (fun l => startswith "DECISION:" l = false) lines
  /\ Forall (fun l => startswith "COMMAND:" l = false) lines.
Proof.
  intros H. split; eapply Forall_impl; try exact H; intros l B;
    apply blank_unlabelled, unlabelled_labels in B; tauto.
Qed.

(** The decision and the command read from a text do not depend on the
    white space at its end. *)
Lemma fields_rstrip_lines (lines : list string) :
  forall p,
    AITerminalWindow.decision
      (fold_left AITerminalWindow.parse_line (rstrip_lines lines) p)
    = AITerminalWindow.decision (fold_left AITerminalWindow.parse_line lines p)
    /\ AITerminalWindow.command
         (fold_left AITerminalWindow.parse_line (rstrip_lines lines) p)
       = AITerminalWindow.command (fold_left AITerminalWindow.parse_line lines p).
Proof.
  induction lines as [|l rest IH]; intros p; [split; reflexivity|].
  cbn [rstrip_lines fold_left].
  destruct (rstrip_lines rest) as [|k ks] eqn:K.
  - destruct (blank_lines_unlabelled rest (rstrip_lines_blank rest K)) as [BD BC].
    rewrite (decision_without_label rest _ BD), (command_without_label rest _ BC).
    destruct (truthy (rstrip l)) eqn:T.
    + cbn [fold_left]. apply parse_line_rstrip_fields.
    + apply truthy_false in T. apply blank_unlabelled, unlabelled_labels in T.
      destruct T as [TD [TC _]]. cbn [fold_left].
      rewrite (parse_line_keeps_decision p l TD), (parse_line_keeps_command p l TC).
      split; reflexivity.
  - cbn [fold_left]. exact (IH (AITerminalWindow.parse_line p l)).
Qed.

Lemma response_labelled (l : string) :
  startswith "RESPONSE:" l = true -> AITerminalWindow.labelled l = true.
Proof.
  intros H. unfold AITerminalWindow.labelled. rewrite H, !orb_true_r. reflexivity.
Qed.

(** The head of what [rstrip_lines] keeps of lines that start with a
    labelled line is a labelled line. *)
Lemma rstrip_lines_head (h : string) (rest : list string) :
  AITerminalWindow.labelled h = true ->
  match rstrip_lines (h :: rest) with
  | [] => False
  | l :: _ => AITerminalWindow.labelled l = true
  end.
Proof.
  intros H. rewrite (rstrip_lines_cons h rest (labelled_rstrip_truthy h H)).
  destruct (rstrip_lines rest); [rewrite labelled_rstrip|]; exact H.
Qed.

(** The message read from a text in which the block of the message stands
    between the lines [X] and the lines [Y], when the lines that continue
    the message do not end in white space. *)
Lemma message_of_blocks (X Y cr : list string) (r : string) :
  startswith "RESPONSE:" r = true ->
  Forall (fun l => AITerminalWindow.labelled l = false) cr ->
  (forall init l, cr = (init ++ [l])%list -> truthy l = true /\ rstrip l = l) ->
  Forall (fun l => startswith "RESPONSE:" l = false) Y ->
  match Y with [] => True | l :: _ => AITerminalWindow.labelled l = true end ->
  forall p,
    AITerminalWindow.ai_message
      (fold_left AITerminalWindow.parse_line
         (rstrip_lines (X ++ (r :: cr) ++ Y)) p)
    = fold_left (fun m l => m ++ nl ++ l) cr (AITerminalWindow.field "RESPONSE:" r).
Proof.
  intros Hr Hcr Hclean HY Hhead p.
  pose proof (rstrip_lines_clean cr Hclean) as C.
  pose proof (labelled_rstrip_truthy r (response_labelled r Hr)) as T.
  destruct Y as [|h Y].
  - rewrite app_nil_r.
    assert (B : rstrip_lines (r :: cr)
                = match cr with [] => [rstrip r] | _ => r :: cr end).
    { rewrite (rstrip_lines_cons r cr T), C. destruct cr; reflexivity. }
    rewrite rstrip_lines_app by (rewrite B; destruct cr; discriminate).
    rewrite B. destruct cr as [|a cr].
    + change (X ++ [rstrip r])%list with (X ++ rstrip r :: [] ++ [])%list.
      rewrite message_of_block;
        [| rewrite startswith_rstrip by reflexivity; exact Hr
         | constructor | constructor | exact I].
      cbn [fold_left]. apply (field_rstrip "RESPONSE:" r); reflexivity.
    + rewrite <- (app_nil_r (a :: cr)) at 1.
      change (X ++ r :: (a :: cr) ++ [])%list with (X ++ r :: (a :: cr) ++ [])%list.
      apply message_of_block; [exact Hr | exact Hcr | constructor | exact I].
  - pose proof (rstrip_lines_head h Y Hhead) as Hd.
    change (X ++ (r :: cr) ++ h :: Y)%list with (X ++ (r :: cr) ++ (h :: Y))%list.
    rewrite app_assoc.
    rewrite rstrip_lines_app by (destruct (rstrip_lines (h :: Y)); [contradiction | discriminate]).
    rewrite <- app_assoc.
    change (X ++ (r :: cr) ++ rstrip_lines (h :: Y))%list
      with (X ++ r :: cr ++ rstrip_lines (h :: Y))%list.
    apply message_of_block; [exact Hr | exact Hcr | |].
    + apply rstrip_lines_Forall; [|exact HY].
      intros l E. rewrite startswith_rstrip by reflexivity. exact E.
    + destruct (rstrip_lines (h :: Y)); [contradiction | exact Hd].
Qed.

(** C2, as the code has it.  [parse_ai_response] is a total function that
    scans the stripped answer line by line.  The last line carrying a label
    decides that label's value; for the message this is the value on the
    line itself followed by the lines after it up to the next line that
    carries a label.  Three blocks, each a labelled line with lines
    without a label after it, give the same triple in every order and
    behind any leading blank lines, provided the lines that continue the
    message do not end in a blank line or in white space (the lines after
    the decision and the command are dropped).  A label no line starts
    with leaves its default, so that an answer none of whose lines starts
    with a label gives (CONVERSATION, NONE, empty message). *)
Theorem C2_parse_ai_response :
  (forall (response : string) (before after : list string) (line : string),
      split_char "010"%char (strip response) = (before ++ line :: after)%list ->
      (startswith "DECISION:" line = true ->
       Forall (fun l => startswith "DECISION:" l = false) after ->
       fst (fst (AITerminalWindow.parse_ai_response response))
       = AITerminalWindow.field "DECISION:" line)
      /\ (startswith "COMMAND:" line = true ->
          Forall (fun l => startswith "COMMAND:" l = false) after ->
          snd (fst (AITerminalWindow.parse_ai_response response))
          = AITerminalWindow.field "COMMAND:" line)
      /\ (startswith "RESPONSE:" line = true ->
          Forall (fun l => startswith "RESPONSE:" l = false) after ->
          forall cont rest : list string,
            after = (cont ++ rest)%list ->
            Forall (fun l => AITerminalWindow.labelled l = false) cont ->
            match rest with
            | [] => True
            | l :: _ => AITerminalWindow.labelled l = true
            end ->
            snd (AITerminalWindow.parse_ai_response response)
            = fold_left (fun m l => m ++ nl ++ l) cont
                (AITerminalWindow.field "RESPONSE:" line)))
  /\ (forall (d c r pre : string) (cd cc cr : list string) (perm : list (list string)),
        startswith "DECISION:" d = true ->
        startswith "COMMAND:" c = true ->
        startswith "RESPONSE:" r = true ->
        Forall (fun l => AITerminalWindow.labelled l = false) (cd ++ cc ++ cr) ->
        Forall (fun l => lacks "010"%char l = true) (d :: c :: r :: cd ++ cc ++ cr) ->
        (forall init l, cr = (init ++ [l])%list -> truthy l = true /\ rstrip l = l) ->
        all_space pre = true ->
        Permutation perm [d :: cd; c :: cc; r :: cr] ->
        AITerminalWindow.parse_ai_response (pre ++ PyStr.join nl (List.concat perm))
        = (AITerminalWindow.field "DECISION:" d,
           AITerminalWindow.field "COMMAND:" c,
           fold_left (fun m l => m ++ nl ++ l) cr
             (AITerminalWindow.field "RESPONSE:" r)))
  /\ (forall response : string,
        let lines := split_char "010"%char (strip response) in
        (Forall (fun l => startswith "DECISION:" l = false) lines ->
         fst (fst (AITerminalWindow.parse_ai_response response)) = "CONVERSATION")
        /\ (Forall (fun l => startswith "COMMAND:" l = false) lines ->
            snd (fst (AITerminalWindow.parse_ai_response response)) = "NONE")
        /\ (Forall (fun l => startswith "RESPONSE:" l = false) lines ->
            snd (AITerminalWindow.parse_ai_response response) = EmptyString)
        /\ (Forall (fun l => AITerminalWindow.labelled l = false) lines ->
            AITerminalWindow.parse_ai_response response
            = ("CONVERSATION", "NONE", EmptyString))).
Proof.
  split; [|split].
  - intros response before after line Hlines.
    unfold AITerminalWindow.parse_ai_response, AITerminalWindow.parse_lines.
    rewrite Hlines. cbn [fst snd].
    split; [|split].
    + intros Hd Hafter. rewrite fold_left_app.
      rewrite (decision_of_lines line (line :: after)).
      * cbn [existsb]. rewrite Hd. reflexivity.
      * intros l [<- | Hin] Hl; [reflexivity|].
        rewrite Forall_forall in Hafter. rewrite (Hafter l Hin) in Hl. discriminate.
    + intros Hc Hafter. rewrite fold_left_app.
      rewrite (command_of_lines line (line :: after)).
      * cbn [existsb]. rewrite Hc. reflexivity.
      * intros l [<- | Hin] Hl; [reflexivity|].
        rewrite Forall_forall in Hafter. rewrite (Hafter l Hin) in Hl. discriminate.
    + intros Hr Hafter cont rest -> Hcont Hhead.
      apply message_of_block; [exact Hr | exact Hcont | | exact Hhead].
      apply Forall_app in Hafter. apply Hafter.
  - intros d c r pre cd cc cr perm Hd Hc Hr Hplain Hnl Hclean Hpre Hperm.
    rewrite Forall_forall in Hplain, Hnl.
    assert (HinB : forall B, In B perm -> B = d :: cd \/ B = c :: cc \/ B = r :: cr).
    { intros B HB. apply (Permutation_in B Hperm) in HB. simpl in HB.
      destruct HB as [<- | [<- | [<- | []]]]; auto. }
    assert (Hmem : forall l, In l (List.concat perm) ->
                     l = d \/ l = c \/ l = r \/ In l (cd ++ cc ++ cr)).
    { intros l Hl. apply in_concat in Hl. destruct Hl as [B [HB Hl]].
      rewrite !in_app_iff.
      destruct (HinB B HB) as [-> | [-> | ->]]; simpl in Hl;
        destruct Hl as [<- | Hl]; tauto. }
    assert (Has : forall l, In l [d; c; r] -> In l (List.concat perm)).
    { intros l Hl. apply in_concat.
      assert (P : forall B, In B [d :: cd; c :: cc; r :: cr] -> In B perm).
      { intros B HB. apply (Permutation_in B (Permutation_sym Hperm) HB). }
      simpl in Hl. destruct Hl as [<- | [<- | [<- | []]]].
      - exists (d :: cd). split; [apply P|]; simpl; auto.
      - exists (c :: cc). split; [apply P|]; simpl; auto.
      - exists (r :: cr). split; [apply P|]; simpl; auto. }
    assert (HD : forall l, In l (List.concat perm) -> startswith "DECISION:" l = true -> l = d).
    { intros l Hl S. destruct (Hmem l Hl) as [-> | [-> | [-> | Hin]]]; [reflexivity| | |].
      - rewrite (command_not_decision c Hc) in S. discriminate.
      - rewrite (response_not_decision r Hr) in S. discriminate.
      - apply Hplain, unlabelled_labels in Hin. destruct Hin as [E _]. congruence. }
    assert (HC : forall l, In l (List.concat perm) -> startswith "COMMAND:" l = true -> l = c).
    { intros l Hl S. destruct (Hmem l Hl) as [-> | [-> | [-> | Hin]]]; [|reflexivity| |].
      - rewrite (decision_not_command d Hd) in S. discriminate.
      - rewrite (response_not_command r Hr) in S. discriminate.
      - apply Hplain, unlabelled_labels in Hin. destruct Hin as [_ [E _]]. congruence. }
    assert (Hlacks : Forall (fun l => lacks "010"%char l = true) (List.concat perm)).
    { apply Forall_forall. intros l Hl. apply Hnl.
      destruct (Hmem l Hl) as [-> | [-> | [-> | Hin]]]; simpl; auto. }
    (* the block of the message, and the blocks around it *)
    assert (HR : In (r :: cr) perm).
    { apply (Permutation_in _ (Permutation_sym Hperm)). simpl. auto. }
    apply in_split in HR. destruct HR as [Xb [Yb E]].
    assert (Hrest : Permutation [d :: cd; c :: cc] (Xb ++ Yb)).
    { apply Permutation_cons_app_inv with (a := r :: cr).
      apply (perm_trans (Permutation_cons_append [d :: cd; c :: cc] (r :: cr))).
      rewrite <- E. apply Permutation_sym. exact Hperm. }
    assert (Hother : forall B, In B (Xb ++ Yb) -> B = d :: cd \/ B = c :: cc).
    { intros B HB. apply (Permutation_in B (Permutation_sym Hrest)) in HB. simpl in HB.
      destruct HB as [<- | [<- | []]]; auto. }
    assert (HnoR : forall Bs, (forall B, In B Bs -> In B (Xb ++ Yb)) ->
                     Forall (fun l => startswith "RESPONSE:" l = false) (List.concat Bs)).
    { intros Bs Sub. apply Forall_forall. intros l Hl.
      apply in_concat in Hl. destruct Hl as [B [HB Hl]].
      assert (Hline : l = d \/ l = c \/ In l (cd ++ cc ++ cr)).
      { rewrite !in_app_iff.
        destruct (Hother B (Sub B HB)) as [-> | ->]; simpl in Hl;
          destruct Hl as [<- | Hl]; tauto. }
      destruct Hline as [-> | [-> | Hin]].
      - apply decision_not_response. exact Hd.
      - apply command_not_response. exact Hc.
      - apply Hplain, unlabelled_labels in Hin. tauto. }
    assert (Hhead : forall Bs, (forall B, In B Bs -> In B (Xb ++ Yb)) ->
                      match List.concat Bs with
                      | [] => True
                      | l :: _ => AITerminalWindow.labelled l = true
                      end).
    { intros [|B Bs] Sub; [exact I|].
      unfold AITerminalWindow.labelled.
      destruct (Hother B (Sub B (or_introl eq_refl))) as [-> | ->]; cbn [List.concat app].
      - rewrite Hd. reflexivity.
      - rewrite Hc, orb_true_r. reflexivity. }
    assert (L : List.concat perm = (List.concat Xb ++ (r :: cr) ++ List.concat Yb)%list).
    { rewrite E, concat_app. reflexivity. }
    assert (First : exists h rest, List.concat perm = h :: rest
                                   /\ AITerminalWindow.labelled h = true).
    { rewrite L.
      pose proof (Hhead Xb (fun B HB => in_or_app Xb Yb B (or_introl HB))) as HX.
      destruct (List.concat Xb) as [|h X].
      - exists r, (cr ++ List.concat Yb)%list. split; [reflexivity|].
        apply response_labelled. exact Hr.
      - exists h, (X ++ (r :: cr) ++ List.concat Yb)%list. split; [reflexivity | exact HX]. }
    destruct First as [h [rest [F Hh]]].
    unfold AITerminalWindow.parse_ai_response, AITerminalWindow.parse_lines.
    rewrite F in Hlacks |- *.
    rewrite (lines_of_text pre h rest Hpre Hh Hlacks). rewrite <- F.
    destruct (fields_rstrip_lines (List.concat perm) AITerminalWindow.parse_start) as [FD FC].
    rewrite FD, FC.
    rewrite (decision_of_lines d _ _ HD), (command_of_lines c _ _ HC).
    replace (existsb (startswith "DECISION:") (List.concat perm)) with true.
    2:{ symmetry. apply existsb_exists. exists d. split; [apply Has; simpl; auto | exact Hd]. }
    replace (existsb (startswith "COMMAND:") (List.concat perm)) with true.
    2:{ symmetry. apply existsb_exists. exists c. split; [apply Has; simpl; auto | exact Hc]. }
    rewrite L.
    rewrite (message_of_blocks (List.concat Xb) (List.concat Yb) cr r Hr).
    + reflexivity.
    + apply Forall_forall. intros l Hl. apply Hplain. rewrite !in_app_iff. auto.
    + exact Hclean.
    + apply HnoR. intros B HB. apply in_or_app. right. exact HB.
    + apply Hhead. intros B HB. apply in_or_app. right. exact HB.
  - intros response lines.
    unfold AITerminalWindow.parse_ai_response, AITerminalWindow.parse_lines.
    fold lines. cbn [fst snd].
    split; [|split; [|split]].
    + intros H. rewrite (decision_without_label lines _ H). reflexivity.
    + intros H. rewrite (command_without_label lines _ H). reflexivity.
    + intros H. rewrite (message_without_label lines AITerminalWindow.parse_start eq_refl H). reflexivity.
    + intros H. rewrite (plain_lines_default _ H). reflexivity.
Qed.

Lemma C2_parse_ai_response_witness :
  fst (fst (AITerminalWindow.parse_ai_response
              ("DECISION: CONVERSATION" ++ nl ++ "DECISION: COMMAND" ++ nl
               ++ "COMMAND: ls" ++ nl ++ "RESPONSE: ok")))
  = "COMMAND"
  /\ snd (AITerminalWindow.parse_ai_response
            (PyStr.join nl ["RESPONSE: no"; "RESPONSE: ok"; "then"; "DECISION: COMMAND";
                            "dropped"; "COMMAND: ls"]))
     = "ok" ++ nl ++ "then"
  /\ AITerminalWindow.parse_ai_response
       (nl ++ nl ++ PyStr.join nl
                      (List.concat [["RESPONSE: ok  "; "then"]; ["DECISION: COMMAND"; "dropped"];
                               ["COMMAND: ls "; EmptyString]]))
     = ("COMMAND", "ls", "ok" ++ nl ++ "then")
  /\ AITerminalWindow.parse_ai_response ("Hello," ++ nl ++ "how can I help?")
     = ("CONVERSATION", "NONE", EmptyString)
  /\ snd (fst (AITerminalWindow.parse_ai_response
                 ("DECISION: COMMAND" ++ nl ++ "RESPONSE: ok")))
     = "NONE".
Proof.
  destruct C2_parse_ai_response as [A [B C]].
  split; [|split; [|split; [|split]]].
  - destruct (A ("DECISION: CONVERSATION" ++ nl ++ "DECISION: COMMAND" ++ nl
                 ++ "COMMAND: ls" ++ nl ++ "RESPONSE: ok")
                ["DECISION: CONVERSATION"] ["COMMAND: ls"; "RESPONSE: ok"]
                "DECISION: COMMAND" eq_refl) as [A1 _].
    apply A1; [reflexivity|].
    repeat constructor.
  - destruct (A (PyStr.join nl ["RESPONSE: no"; "RESPONSE: ok"; "then"; "DECISION: COMMAND";
                                "dropped"; "COMMAND: ls"])
                ["RESPONSE: no"] ["then"; "DECISION: COMMAND"; "dropped"; "COMMAND: ls"]
                "RESPONSE: ok" eq_refl) as [_ [_ A3]].
    apply (A3 eq_refl) with (cont := ["then"])
                            (rest := ["DECISION: COMMAND"; "dropped"; "COMMAND: ls"]);
      [repeat constructor | reflexivity | repeat constructor | reflexivity].
  - apply (B "DECISION: COMMAND" "COMMAND: ls " "RESPONSE: ok  " (nl ++ nl)
             ["dropped"] [EmptyString] ["then"]);
      try reflexivity.
    + repeat constructor.
    + repeat constructor.
    + intros init l E. destruct init as [|a init].
      * injection E as <-. split; reflexivity.
      * destruct init; discriminate E.
    + exact (Permutation_cons_append
               [["DECISION: COMMAND"; "dropped"]; ["COMMAND: ls "; EmptyString]]
               ["RESPONSE: ok  "; "then"]).
  - destruct (C ("Hello," ++ nl ++ "how can I help?")) as [_ [_ [_ C4]]].
    apply C4. repeat constructor.
  - destruct (C ("DECISION: COMMAND" ++ nl ++ "RESPONSE: ok")) as [_ [C2 _]].
    apply C2. repeat constructor.
Defined.

(** C2 as stated fails on the order of the labels when the message runs
    over several lines.  The two answers below are made of the same three
    blocks, each a labelled line followed by a blank line; with the message
    last, the final stripping takes its blank line away, and with the
    message first the blank line is part of the message. *)
Lemma C2_order_changes_message :
  AITerminalWindow.parse_ai_response
    (PyStr.join nl (List.concat [["DECISION: COMMAND"; EmptyString];
                            ["COMMAND: ls"; EmptyString];
                            ["RESPONSE: Listing."; EmptyString]]))
  = ("COMMAND", "ls", "Listing.")
  /\ AITerminalWindow.parse_ai_response
       (PyStr.join nl (List.concat [["RESPONSE: Listing."; EmptyString];
                               ["DECISION: COMMAND"; EmptyString];
                               ["COMMAND: ls"; EmptyString]]))
     = ("COMMAND", "ls", "Listing." ++ nl)
  /\ "Listing." <> "Listing." ++ nl.
Proof.
  repeat split. discriminate.
Qed.

(** * Further properties of the code *)

(** ** Stripping twice *)

Lemma rstrip_fixed (s : string) (x : ascii) :
  last_char s = Some x -> is_space x = false -> rstrip s = s.
Proof.
  intros L S. revert L. induction s as [|a s IH]; [reflexivity|]. intros L. simpl.
  destruct s as [|b s'].
  - simpl in L. injection L as ->. simpl. rewrite S. reflexivity.
  - rewrite last_char_cons in L. rewrite (IH L). reflexivity.
Qed.

Lemma lstrip_idem (s : string) : lstrip (lstrip s) = lstrip s.
Proof.
  induction s as [|a s IH]; [reflexivity|]. simpl.
  destruct (is_space a) eqn:A; [exact IH|]. simpl. rewrite A. reflexivity.
Qed.

Lemma strip_idem (s : string) : strip (strip s) = strip s.
Proof.
  destruct (truthy (strip s)) eqn:T.
  - destruct (strip_last s T) as [x [L S]].
    unfold strip at 1. rewrite (rstrip_fixed _ x L S).
    unfold strip. apply lstrip_idem.
  - apply truthy_false in T. rewrite T. reflexivity.
Qed.

(** ** The segments of a remote command *)

Lemma collect_shape (parts : list string) :
  forall buf,
    Forall (fun p => SSHClient.is_sep p = true \/ (truthy p = true /\ strip p = p))
           (SSHClient.collect parts buf).
Proof.
  induction parts as [|part parts IH]; intros buf; simpl.
  - destruct (truthy (strip buf)) eqn:T; constructor; [|constructor].
    right. split; [exact T | apply strip_idem].
  - destruct (SSHClient.is_sep part) eqn:S; [|apply IH].
    apply Forall_app. split.
    + destruct (truthy (strip buf)) eqn:T; constructor; [|constructor].
      right. split; [exact T | apply strip_idem].
    + constructor; [left; exact S | apply IH].
Qed.

Lemma re_split_plain (s : string) :
  forall buf,
    lacks ";"%char s = true -> lacks "&"%char s = true ->
    SSHClient.re_split_from buf 0 s = [buf ++ s].
Proof.
  induction s as [|c s IH]; intros buf Hs Ha.
  - simpl. f_equal. induction buf as [|b buf IHb]; [reflexivity|].
    simpl. rewrite IHb at 1. reflexivity.
  - simpl in Hs, Ha. apply andb_true_iff in Hs. destruct Hs as [Hc Hs].
    apply andb_true_iff in Ha. destruct Ha as [Hc' Ha].
    apply negb_true_iff in Hc. apply negb_true_iff in Hc'.
    cbn [SSHClient.re_split_from]. rewrite Hc.
    replace (startswith "&&" (String c s)) with false.
    + rewrite (IH _ Hs Ha). rewrite append_assoc_str. reflexivity.
    + cbn [startswith]. rewrite Ascii.eqb_sym, Hc'. reflexivity.
Qed.

(** X1: the list [split_commands] returns holds separators and segments
    only: every segment is non-empty and carries no white space at either
    end.  A command with no semicolon and no ampersand is one segment, the
    stripped command, and a blank command gives the empty list. *)
Theorem split_commands_segments :
  forall command : string,
    Forall (fun p => SSHClient.is_sep p = true \/ (truthy p = true /\ strip p = p))
           (SSHClient.split_commands command)
    /\ (lacks ";"%char command = true -> lacks "&"%char command = true ->
        SSHClient.split_commands command
        = if truthy (strip command) then [strip command] else []).
Proof.
  intros command. split; [apply collect_shape|].
  intros Hs Ha. unfold SSHClient.split_commands, SSHClient.re_split.
  rewrite (re_split_plain command EmptyString Hs Ha). cbn [append SSHClient.collect].
  assert (N : SSHClient.is_sep command = false).
  { unfold SSHClient.is_sep.
    destruct (String.eqb command ";") eqn:E1.
    - apply String.eqb_eq in E1. subst. discriminate Hs.
    - destruct (String.eqb command "&&") eqn:E2; [|reflexivity].
      apply String.eqb_eq in E2. subst. discriminate Ha. }
  rewrite N. reflexivity.
Qed.

Lemma split_commands_segments_witness :
  SSHClient.split_commands "  ls -l /tmp  " = ["ls -l /tmp"].
Proof.
  apply (proj2 (split_commands_segments "  ls -l /tmp  ")); reflexivity.
Defined.

(** ** What a remote command sends *)

Lemma segment_probes (host : SSHClient.Host) (part : string) (d : option string) (o : bool) :
  match SSHClient.segment host part d o with
  | SSHClient.Next _ _ evs | SSHClient.Stop _ _ evs => forallb SSHClient.is_probe evs = true
  end.
Proof.
  unfold SSHClient.segment.
  destruct (SSHClient.is_sep part); [reflexivity|].
  destruct (startswith "cd " part); [|reflexivity].
  destruct (Shlex.split part) as [[|name [|target more]]|]; try reflexivity.
  destruct (SSHClient.exec_command host _) as [out err|msg]; [|reflexivity].
  destruct (truthy out && negb (truthy err)); [|reflexivity].
  destruct (last _ None); reflexivity.
Qed.

Lemma track_probes (host : SSHClient.Host) (parts : list string) :
  forall d o, forallb SSHClient.is_probe (snd (SSHClient.track host parts d o)) = true.
Proof.
  induction parts as [|part parts IH]; intros d o; [reflexivity|].
  simpl. pose proof (segment_probes host part d o) as S.
  destruct (SSHClient.segment host part d o) as [d1 o1 evs|d1 o1 evs]; [|exact S].
  specialize (IH d1 o1).
  destruct (SSHClient.track host parts d1 o1) as [[d2 o2] evs2]. simpl in IH |- *.
  rewrite forallb_app, S, IH. reflexivity.
Qed.

Lemma segment_not_cd (host : SSHClient.Host) (part : string) (d : option string) (o : bool) :
  startswith "cd " part = false ->
  exists o', SSHClient.segment host part d o = SSHClient.Next d o' [].
Proof.
  intros H. unfold SSHClient.segment. rewrite H.
  destruct (SSHClient.is_sep part); eexists; reflexivity.
Qed.

Lemma track_not_cd (host : SSHClient.Host) (parts : list string) :
  forall d o,
    Forall (fun p => startswith "cd " p = false) parts ->
    exists o', SSHClient.track host parts d o = (d, o', []).
Proof.
  induction parts as [|part parts IH]; intros d o H.
  - exists o. reflexivity.
  - inversion H as [|? ? Hp Hrest]; subst. simpl.
    destruct (segment_not_cd host part d o Hp) as [o1 E]. rewrite E.
    destruct (IH d o1 Hrest) as [o2 E2]. rewrite E2. exists o2. reflexivity.
Qed.

Lemma execute_without_cd :
  forall (c : SSHClient.t) (host : SSHClient.Host) (command : string),
    SSHClient.client c = Some host ->
    SSHClient.connected c = true ->
    Forall (fun p => startswith "cd " p = false) (SSHClient.split_commands command) ->
    let full :=
      match SSHClient.current_directory c with
      | Some d => if truthy d then "cd " ++ Shlex.quote d ++ " && " ++ command
                  else command
      | None => command
      end in
    SSHClient.execute_command c command false
    = match SSHClient.exec_command host full with
      | SSHClient.ExecOut output error =>
          (c, [SSHClient.EvExec full],
           (true, Some (if truthy output then output else error)))
      | SSHClient.ExecRaised msg => (c, [SSHClient.EvExec full], (false, Some msg))
      end.
Proof.
  intros c host command Hclient Hconn Hno full.
  destruct (track_not_cd host _ (SSHClient.current_directory c) true Hno) as [o T].
  assert (Same : (if SSHClient.known (SSHClient.current_directory c)
                  then SSHClient.set_current_directory (SSHClient.current_directory c) c
                  else c) = c).
  { destruct (SSHClient.known _); [apply set_current_directory_same | reflexivity]. }
  unfold SSHClient.execute_command. rewrite Hclient, Hconn. simpl negb.
  cbv beta iota zeta. rewrite T. cbv beta iota. rewrite !Same.
  replace (o && (List.length (SSHClient.split_commands command) =? 1)%nat
           && match SSHClient.split_commands command with
              | [] => false
              | first :: _ => startswith "cd " first
              end) with false.
  - fold full. reflexivity.
  - destruct (SSHClient.split_commands command) as [|first rest].
    + rewrite andb_false_r. reflexivity.
    + inversion Hno as [|? ? Hf _]; subst. rewrite Hf, andb_false_r. reflexivity.
Qed.

(** X2: on a connected remote backend, a command none of whose segments
    starts with [cd ] sends no probe and leaves the client as it was: the
    one thing submitted is the command itself, unchanged, behind a [cd]
    into the quoted tracked directory when that directory is known. *)
Theorem remote_command_without_cd :
  forall (c : SSHClient.t) (host : SSHClient.Host) (command : string),
    SSHClient.client c = Some host ->
    SSHClient.connected c = true ->
    Forall (fun p => startswith "cd " p = false) (SSHClient.split_commands command) ->
    let full :=
      match SSHClient.current_directory c with
      | Some d => if truthy d then "cd " ++ Shlex.quote d ++ " && " ++ command
                  else command
      | None => command
      end in
    SSHClient.execute_command c command false
    = match SSHClient.exec_command host full with
      | SSHClient.ExecOut output error =>
          (c, [SSHClient.EvExec full],
           (true, Some (if truthy output then output else error)))
      | SSHClient.ExecRaised msg => (c, [SSHClient.EvExec full], (false, Some msg))
      end.
Proof.
  exact execute_without_cd.
Qed.

Lemma remote_command_without_cd_witness :
  SSHClient.execute_command Scenario.remote "ls -l ; pwd" false
  = (Scenario.remote, [SSHClient.EvExec "cd /home/u && ls -l ; pwd"],
     (true, Some EmptyString)).
Proof.
  apply (remote_command_without_cd Scenario.remote Scenario.host "ls -l ; pwd");
    try reflexivity.
  repeat constructor.
Defined.

(** X3: a blocking command on a connected remote backend changes nothing
    of the client but the tracked directory, and what it sends is a run of
    directory probes followed by at most one submission to the general
    path; that submission ends with the command exactly as it was given, so
    its [cd] segments are sent along, and the prefix before it is either
    empty or the [cd] into the quoted directory tracked after the probes. *)
Theorem remote_command_trace :
  forall (c : SSHClient.t) (host : SSHClient.Host) (command : string),
    SSHClient.client c = Some host ->
    SSHClient.connected c = true ->
    exists (c' : SSHClient.t) (probes : list SSHClient.event) (r : bool * option string),
      SSHClient.client c' = SSHClient.client c
      /\ SSHClient.connected c' = SSHClient.connected c
      /\ SSHClient.running_channel c' = SSHClient.running_channel c
      /\ forallb SSHClient.is_probe probes = true
      /\ (SSHClient.execute_command c command false = (c', probes, r)
          \/ exists prefix,
               SSHClient.execute_command c command false
               = (c', (probes ++ [SSHClient.EvExec (prefix ++ command)])%list, r)
               /\ (prefix = EmptyString
                   \/ exists d, SSHClient.current_directory c' = Some d
                                /\ prefix = "cd " ++ Shlex.quote d ++ " && ")).
Proof.
  intros c host command Hclient Hconn.
  unfold SSHClient.execute_command. rewrite Hclient, Hconn. simpl negb.
  cbv beta iota zeta.
  pose proof (track_probes host (SSHClient.split_commands command)
                (SSHClient.current_directory c) true) as P.
  destruct (SSHClient.track host (SSHClient.split_commands command)
              (SSHClient.current_directory c) true) as [[d o] probes].
  simpl in P. cbv beta iota.
  set (c1 := if SSHClient.known d then SSHClient.set_current_directory d c else c).
  assert (F : SSHClient.client c1 = SSHClient.client c
              /\ SSHClient.connected c1 = SSHClient.connected c
              /\ SSHClient.running_channel c1 = SSHClient.running_channel c).
  { unfold c1. destruct (SSHClient.known d); repeat split. }
  destruct F as [F1 [F2 F3]].
  match goal with |- context [if ?b then (c1, probes, _) else _] => destruct b end.
  - exists c1, probes, (true, d).
    split; [rewrite F1; exact Hclient|]. split; [rewrite F2; exact Hconn|].
    split; [exact F3|]. split; [exact P|].
    left. reflexivity.
  - assert (Pre : exists prefix,
               match SSHClient.current_directory c1 with
               | Some d0 => if truthy d0 then "cd " ++ Shlex.quote d0 ++ " && " ++ command
                            else command
               | None => command
               end = prefix ++ command
               /\ (prefix = EmptyString
                   \/ exists d0, SSHClient.current_directory c1 = Some d0
                                 /\ prefix = "cd " ++ Shlex.quote d0 ++ " && ")).
    { destruct (SSHClient.current_directory c1) as [d0|].
      - destruct (truthy d0).
        + exists ("cd " ++ Shlex.quote d0 ++ " && "). split.
          * rewrite !append_assoc_str. reflexivity.
          * right. exists d0. split; reflexivity.
        + exists EmptyString. split; [reflexivity | left; reflexivity].
      - exists EmptyString. split; [reflexivity | left; reflexivity]. }
    destruct Pre as [prefix [E Hp]]. rewrite E.
    destruct (SSHClient.exec_command host (prefix ++ command)) as [out err|msg];
      eexists c1, probes, _;
      (split; [rewrite F1; exact Hclient|]); (split; [rewrite F2; exact Hconn|]);
      (split; [exact F3|]);
      (split; [exact P|]);
      right; exists prefix; (split; [reflexivity | exact Hp]).
Qed.

Lemma remote_command_trace_witness :
  exists (c' : SSHClient.t) (probes : list SSHClient.event) (r : bool * option string),
    SSHClient.client c' = SSHClient.client Scenario.remote
    /\ SSHClient.connected c' = SSHClient.connected Scenario.remote
    /\ SSHClient.running_channel c' = SSHClient.running_channel Scenario.remote
    /\ forallb SSHClient.is_probe probes = true
    /\ (SSHClient.execute_command Scenario.remote "cd /tmp && ls" false = (c', probes, r)
        \/ exists prefix,
             SSHClient.execute_command Scenario.remote "cd /tmp && ls" false
             = (c', (probes ++ [SSHClient.EvExec (prefix ++ "cd /tmp && ls")])%list, r)
             /\ (prefix = EmptyString
                 \/ exists d, SSHClient.current_directory c' = Some d
                              /\ prefix = "cd " ++ Shlex.quote d ++ " && ")).
Proof.
  apply (remote_command_trace Scenario.remote Scenario.host "cd /tmp && ls");
    reflexivity.
Defined.

(** ** Quoting in the commands sent to the host *)

Lemma safe_char (c : ascii) :
  Shlex.is_safe c = true ->
  Shlex.is_lex_space c = false /\ Shlex.is_quote c = false /\ Shlex.is_escape c = false.
Proof.
  destruct c as [[] [] [] [] [] [] [] []]; vm_compute; intros H;
    first [discriminate H | repeat split].
Qed.

Lemma append_empty_r (s : string) : s ++ EmptyString = s.
Proof. induction s as [|c s IH]; [reflexivity|]. simpl. rewrite IH. reflexivity. Qed.

Lemma push_append (tok : string) (c : ascii) (s : string) :
  Shlex.push tok c ++ s = tok ++ String c s.
Proof. unfold Shlex.push. rewrite append_assoc_str. reflexivity. Qed.

Lemma truthy_push (tok : string) (c : ascii) : truthy (Shlex.push tok c) = true.
Proof. unfold Shlex.push. apply truthy_app_r. reflexivity. Qed.

(** A run of safe characters up to a blank is read as one token. *)
Lemma lex_word_safe (s rest : string) :
  forall (tok : string) (q : bool),
    Shlex.all_safe s = true -> truthy tok = true ->
    Shlex.lex Shlex.InWord tok q (s ++ String " " rest)
    = option_map (cons (tok ++ s)) (Shlex.lex Shlex.InSpace EmptyString false rest).
Proof.
  induction s as [|c s IH]; intros tok q Hs Ht.
  - cbn [append Shlex.lex]. change (Shlex.is_lex_space " ") with true. cbv iota.
    rewrite Ht, append_empty_r. reflexivity.
  - simpl in Hs. apply andb_true_iff in Hs. destruct Hs as [Hc Hs].
    destruct (safe_char c Hc) as [S1 [S2 S3]].
    cbn [append Shlex.lex]. rewrite S1, S2, S3.
    rewrite (IH _ q Hs (truthy_push tok c)), push_append. reflexivity.
Qed.

(** The body [shlex.quote] puts between single quotes is read back as the
    text it was made from. *)
Lemma lex_quoted_body (s rest : string) :
  forall (tok : string) (q : bool),
    Shlex.lex (Shlex.InQuote "039") tok q
      (replace_from squote Shlex.quoted_quote 0 s ++ String "039" (String " " rest))
    = option_map (cons (tok ++ s)) (Shlex.lex Shlex.InSpace EmptyString false rest).
Proof.
  induction s as [|c s IH]; intros tok q.
  - cbn [replace_from append Shlex.lex]. rewrite Ascii.eqb_refl.
    cbn [Shlex.lex]. change (Shlex.is_lex_space " ") with true. cbv iota.
    rewrite orb_true_r, append_empty_r. reflexivity.
  - cbn [replace_from]. unfold squote at 1. cbn [startswith].
    rewrite andb_true_r.
    destruct (Ascii.eqb "039" c) eqn:E.
    + apply Ascii.eqb_eq in E. subst c.
      change (String.length squote - 1) with 0.
      unfold Shlex.quoted_quote, squote, dquote. cbn [append Shlex.lex].
      rewrite Ascii.eqb_refl. cbn [Shlex.lex].
      change (Shlex.is_lex_space "034") with false.
      change (Shlex.is_quote "034") with true. cbv iota. cbn [Shlex.lex].
      change (Ascii.eqb "039" "034") with false.
      change (Shlex.is_escape "039") with false. cbn [andb]. cbv iota.
      cbn [Shlex.lex]. rewrite Ascii.eqb_refl. cbn [Shlex.lex].
      change (Shlex.is_lex_space "039") with false.
      change (Shlex.is_quote "039") with true. cbv iota.
      rewrite IH, push_append. reflexivity.
    + cbn [append Shlex.lex]. rewrite Ascii.eqb_sym, E.
      change (Ascii.eqb "039" "034") with false. rewrite andb_false_r.
      rewrite IH, push_append. reflexivity.
Qed.

(** What [shlex.quote] makes of a text is read back, up to the next blank,
    as that text and nothing else. *)
Lemma lex_quote (s rest : string) :
  Shlex.lex Shlex.InSpace EmptyString false (Shlex.quote s ++ String " " rest)
  = option_map (cons s) (Shlex.lex Shlex.InSpace EmptyString false rest).
Proof.
  unfold Shlex.quote. destruct s as [|c s]; [reflexivity|].
  cbn [truthy negb]. destruct (Shlex.all_safe (String c s)) eqn:Safe.
  - simpl in Safe. apply andb_true_iff in Safe. destruct Safe as [Hc Hs].
    destruct (safe_char c Hc) as [S1 [S2 S3]].
    cbn [append Shlex.lex]. rewrite S1, S2, S3.
    exact (lex_word_safe s rest (String c EmptyString) false Hs eq_refl).
  - change ((squote ++ replace squote (squote ++ dquote ++ squote ++ dquote ++ squote)
                        (String c s) ++ squote) ++ String " " rest)
      with (String "039"
              ((replace_from squote Shlex.quoted_quote 0 (String c s) ++ squote)
               ++ String " " rest)).
    rewrite append_assoc_str. unfold squote at 2. cbn [append].
    cbn [Shlex.lex].
    change (Shlex.is_lex_space "039") with false.
    change (Shlex.is_escape "039") with false.
    change (Shlex.is_quote "039") with true. cbv iota.
    exact (lex_quoted_body (String c s) rest EmptyString false).
Qed.

Lemma lex_cd_quote (s rest : string) :
  Shlex.lex Shlex.InSpace EmptyString false ("cd " ++ Shlex.quote s ++ String " " rest)
  = option_map (fun l => "cd" :: s :: l)
      (Shlex.lex Shlex.InSpace EmptyString false rest).
Proof.
  change (Shlex.lex Shlex.InSpace EmptyString false
            ("cd " ++ Shlex.quote s ++ String " " rest))
    with (option_map (cons "cd")
            (Shlex.lex Shlex.InSpace EmptyString false
               (Shlex.quote s ++ String " " rest))).
  rewrite lex_quote.
  destruct (Shlex.lex Shlex.InSpace EmptyString false rest); reflexivity.
Qed.

Lemma lex_and (rest : string) :
  Shlex.lex Shlex.InSpace EmptyString false ("&& " ++ rest)
  = option_map (cons "&&") (Shlex.lex Shlex.InSpace EmptyString false rest).
Proof. reflexivity. Qed.

(** X4: read back by a POSIX tokenizer, the directory probe is exactly the
    words [cd], the tracked directory, [&&], [cd], the target, [&&], [pwd]:
    whatever characters the directory and the target hold (blanks, quotes,
    semicolons), they stay single arguments of the two [cd]s. *)
Theorem probe_cmd_tokens :
  forall (d target : string),
    truthy d = true ->
    Shlex.split (SSHClient.probe_cmd (Some d) target)
    = Some ["cd"; d; "&&"; "cd"; target; "&&"; "pwd"]
    /\ Shlex.split (SSHClient.probe_cmd None target)
       = Some ["cd"; target; "&&"; "pwd"].
Proof.
  intros d target Hd. unfold SSHClient.probe_cmd, Shlex.split. rewrite Hd. split.
  - change (Shlex.lex Shlex.InSpace EmptyString false
              ("cd " ++ Shlex.quote d ++ " && cd " ++ Shlex.quote target ++ " && pwd"))
      with (Shlex.lex Shlex.InSpace EmptyString false
              ("cd " ++ Shlex.quote d
               ++ String " " ("&& " ++ ("cd " ++ Shlex.quote target
                                        ++ String " " "&& pwd")))).
    rewrite lex_cd_quote, lex_and, lex_cd_quote. reflexivity.
  - change (Shlex.lex Shlex.InSpace EmptyString false
              ("cd " ++ Shlex.quote target ++ " && pwd"))
      with (Shlex.lex Shlex.InSpace EmptyString false
              ("cd " ++ Shlex.quote target ++ String " " "&& pwd")).
    rewrite lex_cd_quote. reflexivity.
Qed.

Lemma probe_cmd_tokens_witness :
  Shlex.split (SSHClient.probe_cmd (Some "/home/my dir") "it's; rm -rf x")
  = Some ["cd"; "/home/my dir"; "&&"; "cd"; "it's; rm -rf x"; "&&"; "pwd"]
  /\ Shlex.split (SSHClient.probe_cmd None "it's; rm -rf x")
     = Some ["cd"; "it's; rm -rf x"; "&&"; "pwd"].
Proof.
  apply (probe_cmd_tokens "/home/my dir" "it's; rm -rf x"). reflexivity.
Defined.

(** X5: read back by a POSIX tokenizer, the command submitted to the
    general path for a known directory is the words [cd], the tracked
    directory, [&&], followed by the words of the command itself: the
    directory cannot run into the command or split into several words. *)
Theorem full_command_tokens :
  forall (d command : string),
    Shlex.split ("cd " ++ Shlex.quote d ++ " && " ++ command)
    = option_map (fun words => "cd" :: d :: "&&" :: words) (Shlex.split command).
Proof.
  intros d command. unfold Shlex.split.
  change (Shlex.lex Shlex.InSpace EmptyString false
            ("cd " ++ Shlex.quote d ++ " && " ++ command))
    with (Shlex.lex Shlex.InSpace EmptyString false
            ("cd " ++ Shlex.quote d ++ String " " ("&& " ++ command))).
  rewrite lex_cd_quote, lex_and.
  destruct (Shlex.lex Shlex.InSpace EmptyString false command); reflexivity.
Qed.

(** ** Running handles, connecting and disconnecting *)

(** X6: once a streamed command has returned, with success or with an
    error, the backend holds no running handle any more, so that an
    interrupt or a kill sent afterwards reports false; this holds whatever
    handle the client held before.  On the local backend the streamed
    commands are those that are not a [cd]; on the remote backend, with a
    connected client, they are all commands but a single [cd] part. *)
Theorem streamed_command_leaves_no_handle :
  (forall (os : LocalClient.OS) (lc : LocalClient.t) (command : string),
      LocalClient.is_cd command = false ->
      let lc' := fst (fst (LocalClient.execute_command os lc command true None)) in
      LocalClient.running_process lc' = None
      /\ LocalClient.interrupt_command os lc' = (lc', false)
      /\ LocalClient.kill_command os lc' = (lc', false))
  /\ (forall (sc : SSHClient.t) (host : SSHClient.Host) (command : string),
        SSHClient.client sc = Some host ->
        SSHClient.connected sc = true ->
        (forall part, SSHClient.split_commands command = [part] ->
                      startswith "cd " part = false) ->
        let sc' := fst (fst (SSHClient.execute_command sc command true)) in
        SSHClient.running_channel sc' = None
        /\ SSHClient.interrupt_command sc' = (sc', false)
        /\ SSHClient.kill_command sc' = (sc', false)).
Proof.
  split.
  - intros os lc command Hcd lc'.
    assert (L : LocalClient.running_process lc' = None).
    { unfold lc', LocalClient.execute_command. rewrite Hcd.
      unfold LocalClient._execute_streaming.
      destruct (LocalClient.popen os command _); reflexivity. }
    split; [exact L|].
    unfold LocalClient.interrupt_command, LocalClient.kill_command.
    rewrite L. split; reflexivity.
  - intros sc host command Hclient Hconn Hlen sc'.
    assert (S : SSHClient.running_channel sc' = None).
    { unfold sc', SSHClient.execute_command. rewrite Hclient, Hconn. simpl negb.
      cbv beta iota zeta.
      destruct (SSHClient.track host _ _ true) as [[d o] probes]. cbv beta iota.
      replace (o && (List.length (SSHClient.split_commands command) =? 1)%nat
               && match SSHClient.split_commands command with
                  | [] => false
                  | first :: _ => startswith "cd " first
                  end) with false.
      2:{ destruct (SSHClient.split_commands command) as [|p [|p2 rest]] eqn:E.
          - rewrite andb_false_r. reflexivity.
          - rewrite (Hlen p eq_refl), andb_false_r. reflexivity.
          - simpl. rewrite andb_false_r. reflexivity. }
      unfold SSHClient._execute_streaming.
      destruct (SSHClient.open_session host _); reflexivity. }
    split; [exact S|].
    unfold SSHClient.interrupt_command, SSHClient.kill_command.
    rewrite S. split; reflexivity.
Qed.

Lemma streamed_command_leaves_no_handle_witness :
  LocalClient.running_process
    (fst (fst (LocalClient.execute_command Scenario.os
                 (LocalClient.set_running_process (Some 7) Scenario.local)
                 "ls ; pwd" true None))) = None
  /\ SSHClient.running_channel
       (fst (fst (SSHClient.execute_command
                    (SSHClient.set_running_channel
                       (Some {| SSHClient.send_ok := true; SSHClient.close_ok := true |})
                       Scenario.remote)
                    "cd /tmp && ls" true))) = None.
Proof.
  destruct streamed_command_leaves_no_handle as [L S]. split.
  - apply (L Scenario.os (LocalClient.set_running_process (Some 7) Scenario.local)
             "ls ; pwd"). reflexivity.
  - apply (S (SSHClient.set_running_channel
                (Some {| SSHClient.send_ok := true; SSHClient.close_ok := true |})
                Scenario.remote)
             Scenario.host "cd /tmp && ls"); try reflexivity.
    intros part E. vm_compute in E. discriminate E.
Defined.

(** X7: on the remote backend a kill that succeeds forgets the channel, so
    a second kill, or an interrupt, finds nothing and reports false; a kill
    whose close raises reports false and keeps the channel.  On the local
    backend a kill never forgets the process: the handle is the same
    afterwards. *)
Theorem kill_forgets_remote_channel :
  forall (os : LocalClient.OS) (lc : LocalClient.t) (sc : SSHClient.t)
         (ch : SSHClient.Channel),
    SSHClient.running_channel sc = Some ch ->
    let r := SSHClient.kill_command sc in
    snd r = SSHClient.close_ok ch
    /\ (SSHClient.close_ok ch = true ->
        SSHClient.running_channel (fst r) = None
        /\ SSHClient.kill_command (fst r) = (fst r, false)
        /\ SSHClient.interrupt_command (fst r) = (fst r, false))
    /\ (SSHClient.close_ok ch = false -> fst r = sc)
    /\ fst (LocalClient.kill_command os lc) = lc
    /\ fst (LocalClient.interrupt_command os lc) = lc.
Proof.
  intros os lc sc ch Hch r. unfold r, SSHClient.kill_command. rewrite Hch.
  destruct (SSHClient.close_ok ch) eqn:E; simpl.
  - split; [reflexivity|]. split; [intros _; repeat split|]. split; [discriminate|].
    unfold LocalClient.kill_command, LocalClient.interrupt_command.
    destruct (LocalClient.running_process lc) as [pid|]; [|split; reflexivity].
    destruct (LocalClient.killpg os pid true), (LocalClient.kill os pid),
      (LocalClient.killpg os pid false), (LocalClient.terminate os pid);
      split; reflexivity.
  - split; [reflexivity|]. split; [discriminate|]. split; [reflexivity|].
    unfold LocalClient.kill_command, LocalClient.interrupt_command.
    destruct (LocalClient.running_process lc) as [pid|]; [|split; reflexivity].
    destruct (LocalClient.killpg os pid true), (LocalClient.kill os pid),
      (LocalClient.killpg os pid false), (LocalClient.terminate os pid);
      split; reflexivity.
Qed.

Lemma kill_forgets_remote_channel_witness :
  snd (SSHClient.kill_command
         (SSHClient.set_running_channel
            (Some {| SSHClient.send_ok := true; SSHClient.close_ok := true |})
            Scenario.remote)) = true
  /\ SSHClient.running_channel
       (fst (SSHClient.kill_command
               (SSHClient.set_running_channel
                  (Some {| SSHClient.send_ok := true; SSHClient.close_ok := true |})
                  Scenario.remote))) = None.
Proof.
  destruct (kill_forgets_remote_channel Scenario.os Scenario.local
              (SSHClient.set_running_channel
                 (Some {| SSHClient.send_ok := true; SSHClient.close_ok := true |})
                 Scenario.remote)
              {| SSHClient.send_ok := true; SSHClient.close_ok := true |} eq_refl)
    as [R [K _]].
  split; [exact R | exact (proj1 (K eq_refl))].
Defined.

(** X8: after [disconnect] a remote client refuses every command with
    [Not connected], contacts the host for nothing, offers no completions
    and stays as it is, whatever it was before; the tracked directory and
    the running channel survive the disconnect.  A local client is not
    changed at all by its [disconnect]: it stays connected. *)
Theorem disconnect_then_use :
  forall (os : LocalClient.OS) (lc : LocalClient.t) (sc : SSHClient.t)
         (command partial_text : string) (streaming : bool),
    let sc' := SSHClient.disconnect sc in
    SSHClient.execute_command sc' command streaming
    = (sc', [], (false, Some "Not connected"))
    /\ SSHClient.get_completions sc' partial_text = []
    /\ SSHClient.current_directory sc' = SSHClient.current_directory sc
    /\ SSHClient.running_channel sc' = SSHClient.running_channel sc
    /\ LocalClient.disconnect os lc = lc.
Proof.
  intros os lc sc command partial_text streaming sc'.
  assert (L : LocalClient.disconnect os lc = lc).
  { unfold LocalClient.disconnect, LocalClient.kill_command.
    destruct (LocalClient.running_process lc) as [pid|]; [|reflexivity].
    destruct (LocalClient.killpg os pid true), (LocalClient.kill os pid); reflexivity. }
  rewrite L. unfold sc', SSHClient.disconnect, SSHClient.execute_command,
    SSHClient.get_completions.
  destruct (SSHClient.client sc) as [host|] eqn:E; simpl.
  - repeat split.
  - rewrite E. repeat split.
Qed.

(** X9: a connect that succeeds marks the client connected even when the
    [pwd] that follows raises; the directory is then unknown, and a command
    without [cd] is submitted exactly as given, with no [cd] put before it.
    When the [pwd] answers, the tracked directory is its stripped output.
    A connect that fails returns the diagnostic and changes nothing but the
    client object: the flag, the directory and the channel are as they
    were, so that a new client stays not connected while a client that was
    connected before still counts as connected. *)
Theorem connect_seeds_directory :
  forall (host : SSHClient.Host) (c : SSHClient.t) (command msg : string),
    let ok := fst (SSHClient.connect (SSHClient.Dialled host) c) in
    let failed := fst (SSHClient.connect (SSHClient.DialRaised host msg) c) in
    snd (SSHClient.connect (SSHClient.Dialled host) c) = (true, "Connected successfully")
    /\ SSHClient.connected ok = true
    /\ (forall out err, SSHClient.exec_command host "pwd" = SSHClient.ExecOut out err ->
        SSHClient.current_directory ok = Some (strip out))
    /\ (forall e, SSHClient.exec_command host "pwd" = SSHClient.ExecRaised e ->
        SSHClient.current_directory ok = None
        /\ (Forall (fun p => startswith "cd " p = false)
                   (SSHClient.split_commands command) ->
            snd (fst (SSHClient.execute_command ok command false))
            = [SSHClient.EvExec command]))
    /\ snd (SSHClient.connect (SSHClient.DialRaised host msg) c) = (false, msg)
    /\ SSHClient.client failed = Some host
    /\ SSHClient.connected failed = SSHClient.connected c
    /\ SSHClient.current_directory failed = SSHClient.current_directory c
    /\ SSHClient.running_channel failed = SSHClient.running_channel c
    /\ SSHClient.connect (SSHClient.DialRaised host msg) SSHClient.init
       = ({| SSHClient.client := Some host; SSHClient.connected := false;
             SSHClient.current_directory := None;
             SSHClient.running_channel := None |}, (false, msg)).
Proof.
  intros host c command msg ok failed.
  split; [reflexivity|]. split; [reflexivity|].
  split; [|split; [|repeat split]].
  - intros out err E. unfold ok. simpl. rewrite E. reflexivity.
  - intros e E.
    assert (D : SSHClient.current_directory ok = None).
    { unfold ok. simpl. rewrite E. reflexivity. }
    split; [exact D|]. intros Hno.
    rewrite (execute_without_cd ok host command eq_refl eq_refl Hno).
    rewrite D. destruct (SSHClient.exec_command host command); reflexivity.
Qed.

(** ** The answer of the model, and what it may start *)

Lemma all_space_app (a b : string) :
  all_space (a ++ b) = all_space a && all_space b.
Proof.
  induction a as [|x a IH]; [reflexivity|]. simpl. rewrite IH, andb_assoc. reflexivity.
Qed.

Lemma rstrip_all_space (w : string) : all_space w = true -> rstrip w = EmptyString.
Proof.
  induction w as [|c w IH]; [reflexivity|]. simpl. intros H.
  apply andb_true_iff in H. destruct H as [Hc Hw]. rewrite (IH Hw), Hc. reflexivity.
Qed.

Lemma lstrip_all_space (w : string) : all_space w = true -> lstrip w = EmptyString.
Proof.
  induction w as [|c w IH]; [reflexivity|]. simpl. intros H.
  apply andb_true_iff in H. destruct H as [Hc Hw]. rewrite Hc. exact (IH Hw).
Qed.

(** White space around a text does not change what [strip] returns. *)
Lemma strip_surround (pre text post : string) :
  all_space pre = true -> all_space post = true ->
  strip (pre ++ text ++ post) = strip text.
Proof.
  intros Hpre Hpost. rewrite <- append_assoc_str, strip_app_space by exact Hpost.
  unfold strip. destruct (truthy (rstrip text)) eqn:T.
  - rewrite (rstrip_app_truthy pre text T). apply lstrip_app_space. exact Hpre.
  - apply truthy_false in T. rewrite T.
    destruct (rstrip_split text) as [w [Hw E]]. rewrite T in E. simpl in E. subst text.
    rewrite rstrip_all_space; [reflexivity|].
    rewrite all_space_app, Hpre, Hw. reflexivity.
Qed.

(** X10: white space before and after the model's answer (blank lines,
    indentation of the first line, trailing newlines) never changes the
    parsed decision, command and message. *)
Theorem parse_ignores_surrounding_space :
  forall (text pre post : string),
    all_space pre = true -> all_space post = true ->
    AITerminalWindow.parse_ai_response (pre ++ text ++ post)
    = AITerminalWindow.parse_ai_response text.
Proof.
  intros text pre post Hpre Hpost. unfold AITerminalWindow.parse_ai_response.
  rewrite (strip_surround pre text post Hpre Hpost). reflexivity.
Qed.

Lemma parse_ignores_surrounding_space_witness :
  AITerminalWindow.parse_ai_response
    ((nl ++ "  ") ++ ("DECISION: COMMAND" ++ nl ++ "COMMAND: ls") ++ (nl ++ nl))
  = AITerminalWindow.parse_ai_response ("DECISION: COMMAND" ++ nl ++ "COMMAND: ls").
Proof.
  apply (parse_ignores_surrounding_space
           ("DECISION: COMMAND" ++ nl ++ "COMMAND: ls") (nl ++ "  ") (nl ++ nl));
    reflexivity.
Defined.

(** X11: when the model's answer has no line that starts with [DECISION:],
    or none that starts with [COMMAND:], [process_ai_command] runs nothing
    on the backend: the backend is left as it was, the parsed message is
    shown and becomes the one assistant turn appended to the history, and
    the input is enabled again. *)
Theorem no_label_no_execution :
  forall (wd : AITerminalWindow.World) (w : AITerminalWindow.t)
         (request_text text : string),
    let s := AITerminalWindow.saved_settings w in
    AITerminalWindow.generate wd
      (AITerminalWindow.get "http://localhost:11434" (AITerminalWindow.ollama_url s))
      (AITerminalWindow.get "llama2" (AITerminalWindow.ollama_model s))
      (AITerminalWindow.build_prompt w request_text)
    = AITerminalWindow.Generated text ->
    Forall (fun l => startswith "DECISION:" l = false)
           (split_char "010"%char (strip text))
    \/ Forall (fun l => startswith "COMMAND:" l = false)
              (split_char "010"%char (strip text)) ->
    let response := snd (AITerminalWindow.parse_ai_response text) in
    let w' := fst (AITerminalWindow.process_ai_command wd w request_text) in
    snd (AITerminalWindow.process_ai_command wd w request_text) = []
    /\ AITerminalWindow.ssh_client w' = AITerminalWindow.ssh_client w
    /\ AITerminalWindow.conversation_history w'
       = (AITerminalWindow.conversation_history w
          ++ [{| AITerminalWindow.role := "assistant";
                 AITerminalWindow.content := response |}])%list
    /\ AITerminalWindow.chat w'
       = (AITerminalWindow.chat w
          ++ [{| AITerminalWindow.chat_role :=
                   upper (AITerminalWindow.get "Jarvis" (AITerminalWindow.ai_name s));
                 AITerminalWindow.chat_text := response;
                 AITerminalWindow.chat_tag := "ai" |}])%list
    /\ AITerminalWindow.send_sensitive w' = true
    /\ AITerminalWindow.input_sensitive w' = true.
Proof.
  intros wd w request_text text s Hgen Hno response w'.
  assert (Skip : (String.eqb (fst (fst (AITerminalWindow.parse_ai_response text))) "COMMAND"
                  && truthy (snd (fst (AITerminalWindow.parse_ai_response text)))
                  && negb (String.eqb (snd (fst (AITerminalWindow.parse_ai_response text)))
                                      "NONE")) = false).
  { unfold AITerminalWindow.parse_ai_response, AITerminalWindow.parse_lines.
    cbn [fst snd]. destruct Hno as [H|H].
    - rewrite (decision_without_label _ _ H). reflexivity.
    - rewrite (command_without_label _ _ H).
      cbn [AITerminalWindow.command AITerminalWindow.parse_start].
      change (negb (String.eqb "NONE" "NONE")) with false.
      rewrite andb_false_r. reflexivity. }
  unfold w', response, AITerminalWindow.process_ai_command. fold s. rewrite Hgen.
  destruct (AITerminalWindow.parse_ai_response text) as [[dec cmd] resp].
  cbn [fst snd] in Skip |- *. rewrite Skip. cbn [fst snd]. repeat split.
Qed.

Lemma no_label_no_execution_witness :
  snd (AITerminalWindow.process_ai_command
         {| AITerminalWindow.os := Scenario.os;
            AITerminalWindow.generate := fun _ _ _ =>
              AITerminalWindow.Generated ("COMMAND: rm -rf /" ++ nl ++ "RESPONSE: done") |}
         (Scenario.window (AITerminalWindow.Local Scenario.local) "hi") "hi") = []
  /\ AITerminalWindow.ssh_client
       (fst (AITerminalWindow.process_ai_command
               {| AITerminalWindow.os := Scenario.os;
                  AITerminalWindow.generate := fun _ _ _ =>
                    AITerminalWindow.Generated
                      ("COMMAND: rm -rf /" ++ nl ++ "RESPONSE: done") |}
               (Scenario.window (AITerminalWindow.Local Scenario.local) "hi") "hi"))
     = Some (AITerminalWindow.Local Scenario.local).
Proof.
  destruct (no_label_no_execution
              {| AITerminalWindow.os := Scenario.os;
                 AITerminalWindow.generate := fun _ _ _ =>
                   AITerminalWindow.Generated
                     ("COMMAND: rm -rf /" ++ nl ++ "RESPONSE: done") |}
              (Scenario.window (AITerminalWindow.Local Scenario.local) "hi") "hi"
              ("COMMAND: rm -rf /" ++ nl ++ "RESPONSE: done") eq_refl)
    as [E [B _]].
  - left. repeat constructor.
  - split; [exact E | exact B].
Defined.

(** ** What a turn leaves behind *)

Lemma history_report_output (w : AITerminalWindow.t) (cmd : string)
    (dir : option string) (out : string) :
  exists turn,
    AITerminalWindow.conversation_history (AITerminalWindow.report_output w cmd dir out)
    = (AITerminalWindow.conversation_history w ++ [turn])%list
    /\ AITerminalWindow.role turn = "assistant".
Proof.
  unfold AITerminalWindow.report_output. cbv zeta.
  match goal with |- context [if ?b then _ else _] => destruct b end;
    eexists; split; reflexivity.
Qed.

Lemma history_run_command (wd : AITerminalWindow.World) (w : AITerminalWindow.t)
    (cmd : string) :
  exists added,
    AITerminalWindow.conversation_history (fst (AITerminalWindow.run_command wd w cmd))
    = (AITerminalWindow.conversation_history w ++ added)%list
    /\ List.length added <= 1
    /\ Forall (fun turn => AITerminalWindow.role turn = "assistant") added.
Proof.
  unfold AITerminalWindow.run_command. cbv zeta.
  set (w1 := AITerminalWindow.append_chat_message "COMMAND" _ "command" w).
  change (AITerminalWindow.ssh_client w1) with (AITerminalWindow.ssh_client w).
  destruct (AITerminalWindow.ssh_client w) as [b|].
  - destruct (AITerminalWindow.backend_execute wd b cmd) as [[b' evs] [ok out]].
    destruct ok; [destruct out as [out|]|].
    + destruct (history_report_output
                  (AITerminalWindow.with_client (Some b') w1) cmd
                  (AITerminalWindow.backend_directory (Some b)) out) as [turn [E R]].
      exists [turn]. cbn [fst]. rewrite E. repeat split; [simpl; lia|].
      constructor; [exact R | constructor].
    + exists []. cbn [fst]. split; [symmetry; apply app_nil_r|].
      split; [simpl; lia | constructor].
    + exists []. cbn [fst]. split; [symmetry; apply app_nil_r|].
      split; [simpl; lia | constructor].
  - exists []. cbn [fst]. split; [symmetry; apply app_nil_r|].
    split; [simpl; lia | constructor].
Qed.

Lemma history_re_enable (w : AITerminalWindow.t) :
  AITerminalWindow.conversation_history (AITerminalWindow.re_enable_input w)
  = AITerminalWindow.conversation_history w.
Proof. reflexivity. Qed.

Lemma history_process (wd : AITerminalWindow.World) (w : AITerminalWindow.t)
    (request_text : string) :
  exists added,
    AITerminalWindow.conversation_history
      (fst (AITerminalWindow.process_ai_command wd w request_text))
    = (AITerminalWindow.conversation_history w ++ added)%list
    /\ List.length added <= 1
    /\ Forall (fun turn => AITerminalWindow.role turn = "assistant") added.
Proof.
  unfold AITerminalWindow.process_ai_command. cbv zeta.
  destruct (AITerminalWindow.generate wd _ _ _) as [text|diag|msg].
  - destruct (AITerminalWindow.parse_ai_response text) as [[dec cmd] resp].
    match goal with |- context [if ?b then _ else _] => destruct b end.
    + set (w1 := AITerminalWindow.append_chat_message _ resp "ai" w).
      destruct (history_run_command wd w1 cmd) as [added [E [L R]]].
      destruct (AITerminalWindow.run_command wd w1 cmd) as [w2 evs].
      exists added. cbn [fst] in E |- *. rewrite history_re_enable, E.
      repeat split; assumption.
    + eexists. cbn [fst]. split; [reflexivity|]. split; [simpl; lia|].
      constructor; [reflexivity | constructor].
  - exists []. split; [symmetry; apply app_nil_r | split; [simpl; lia | constructor]].
  - exists []. split; [symmetry; apply app_nil_r | split; [simpl; lia | constructor]].
Qed.

(** X12: the conversation history only grows at its end.  One run of
    [process_ai_command] keeps every earlier turn in place and appends at
    most one turn, an assistant turn, whatever the model answers and
    whatever the backend does; a whole [on_send_message] appends at most
    two turns. *)
Theorem history_is_append_only :
  forall (wd : AITerminalWindow.World) (w : AITerminalWindow.t) (request_text : string),
    (exists added,
        AITerminalWindow.conversation_history
          (fst (AITerminalWindow.process_ai_command wd w request_text))
        = (AITerminalWindow.conversation_history w ++ added)%list
        /\ List.length added <= 1
        /\ Forall (fun turn => AITerminalWindow.role turn = "assistant") added)
    /\ (exists added,
          AITerminalWindow.conversation_history
            (fst (AITerminalWindow.on_send_message wd w))
          = (AITerminalWindow.conversation_history w ++ added)%list
          /\ List.length added <= 2).
Proof.
  intros wd w request_text. split; [apply history_process|].
  unfold AITerminalWindow.on_send_message. cbv zeta.
  destruct (negb (truthy (strip (AITerminalWindow.input_text w)))).
  - exists []. split; [symmetry; apply app_nil_r | simpl; lia].
  - match goal with |- context [if ?b then _ else _] => destruct b end.
    + exists []. split; [symmetry; apply app_nil_r | simpl; lia].
    + set (m := strip (AITerminalWindow.input_text w)).
      destruct (history_process wd (AITerminalWindow.begin_turn m w) m)
        as [added [E [L _]]].
      exists ({| AITerminalWindow.role := "user"; AITerminalWindow.content := m |}
              :: added).
      rewrite E. split.
      * cbn [AITerminalWindow.begin_turn]. unfold AITerminalWindow.begin_turn.
        cbn. rewrite <- app_assoc. reflexivity.
      * simpl. lia.
Qed.

Lemma sensitive_process (wd : AITerminalWindow.World) (w : AITerminalWindow.t)
    (request_text : string) :
  AITerminalWindow.send_sensitive
    (fst (AITerminalWindow.process_ai_command wd w request_text)) = true
  /\ AITerminalWindow.input_sensitive
       (fst (AITerminalWindow.process_ai_command wd w request_text)) = true.
Proof.
  unfold AITerminalWindow.process_ai_command. cbv zeta.
  destruct (AITerminalWindow.generate wd _ _ _) as [text|diag|msg];
    [|split; reflexivity|split; reflexivity].
  destruct (AITerminalWindow.parse_ai_response text) as [[dec cmd] resp].
  match goal with |- context [if ?b then _ else _] => destruct b end;
    [|split; reflexivity].
  destruct (AITerminalWindow.run_command wd _ cmd) as [w2 evs]. split; reflexivity.
Qed.

(** X13: when [on_send_message] accepts a request (a message that is not
    blank, a connected backend) it disables the send button and the input
    field before the background work starts, and every outcome the model
    call and the backend call can come back with (an answer, a reported
    failure, a raised exception) ends with both enabled again.  This is a
    statement about the calls that come back: the blocking remote call has
    no timeout, and a call that does not come back has no outcome here.  A
    request that is not accepted leaves the window's input state alone and
    starts nothing. *)
Theorem input_enabled_after_turn :
  forall (wd : AITerminalWindow.World) (w : AITerminalWindow.t),
    let w' := fst (AITerminalWindow.on_send_message wd w) in
    let started :=
      AITerminalWindow.begin_turn (strip (AITerminalWindow.input_text w)) w in
    (truthy (strip (AITerminalWindow.input_text w)) = true ->
     (exists b, AITerminalWindow.ssh_client w = Some b) ->
     AITerminalWindow.backend_connected (AITerminalWindow.ssh_client w) = true ->
     AITerminalWindow.on_send_message wd w
     = AITerminalWindow.process_ai_command wd started
         (strip (AITerminalWindow.input_text w))
     /\ AITerminalWindow.send_sensitive started = false
     /\ AITerminalWindow.input_sensitive started = false
     /\ AITerminalWindow.send_sensitive w' = true
     /\ AITerminalWindow.input_sensitive w' = true)
    /\ (truthy (strip (AITerminalWindow.input_text w)) = false ->
        AITerminalWindow.on_send_message wd w = (w, []))
    /\ (AITerminalWindow.backend_connected (AITerminalWindow.ssh_client w) = false ->
        snd (AITerminalWindow.on_send_message wd w) = []
        /\ AITerminalWindow.conversation_history w'
           = AITerminalWindow.conversation_history w
        /\ AITerminalWindow.input_text w' = AITerminalWindow.input_text w
        /\ AITerminalWindow.send_sensitive w' = AITerminalWindow.send_sensitive w).
Proof.
  intros wd w w' started. unfold w', started, AITerminalWindow.on_send_message.
  cbv zeta. split; [|split].
  - intros Hm [b Hb] Hc. rewrite Hm, Hc, Hb. simpl negb. cbv iota.
    split; [reflexivity|]. split; [reflexivity|]. split; [reflexivity|].
    apply sensitive_process.
  - intros Hm. rewrite Hm. reflexivity.
  - intros Hc. rewrite Hc, andb_false_r. simpl negb. cbv iota.
    destruct (negb (truthy (strip (AITerminalWindow.input_text w))));
      repeat split.
Qed.

Lemma input_enabled_after_turn_witness :
  AITerminalWindow.send_sensitive
    (AITerminalWindow.begin_turn "hi"
       (Scenario.window (AITerminalWindow.Local Scenario.local) "hi")) = false
  /\ AITerminalWindow.send_sensitive
       (fst (AITerminalWindow.on_send_message Scenario.world_down
               (Scenario.window (AITerminalWindow.Local Scenario.local) "hi"))) = true
  /\ AITerminalWindow.input_sensitive
       (fst (AITerminalWindow.on_send_message Scenario.world_down
               (Scenario.window (AITerminalWindow.Local Scenario.local) "hi"))) = true.
Proof.
  destruct (proj1 (input_enabled_after_turn Scenario.world_down
                     (Scenario.window (AITerminalWindow.Local Scenario.local) "hi")))
    as [_ [Off [_ On]]];
    [reflexivity | eexists; reflexivity | reflexivity |].
  split; [exact Off | exact On].
Defined.

(** ** Completions *)

Lemma length_app_str (a b : string) :
  String.length (a ++ b) = String.length a + String.length b.
Proof. induction a as [|c a IH]; [reflexivity|]. simpl. rewrite IH. reflexivity. Qed.

Lemma take_app_exact (a b : string) : take (String.length a) (a ++ b) = a.
Proof. induction a as [|c a IH]; [destruct b; reflexivity|]. simpl. rewrite IH. reflexivity. Qed.

Lemma drop_app_exact (a b : string) : drop (String.length a) (a ++ b) = b.
Proof. induction a as [|c a IH]; [reflexivity|]. simpl. exact IH. Qed.

Lemma length_take_min (n : nat) (s : string) :
  String.length (take n s) = Nat.min n (String.length s).
Proof.
  revert s. induction n as [|n IH]; intros [|c s]; simpl; try reflexivity.
  rewrite IH. reflexivity.
Qed.

Lemma length_drop (n : nat) (s : string) :
  String.length (drop n s) = String.length s - n.
Proof.
  revert s. induction n as [|n IH]; intros [|c s]; simpl; try reflexivity; try lia.
  apply IH.
Qed.

Lemma slice_off_suffix (p partial : string) :
  truthy partial = true ->
  slice_to (- Z.of_nat (String.length partial)) (p ++ partial) = p.
Proof.
  intros T. unfold slice_to.
  assert (0 < String.length partial) by (destruct partial; [discriminate | simpl; lia]).
  replace (- Z.of_nat (String.length partial) <? 0)%Z with true
    by (symmetry; apply Z.ltb_lt; lia).
  rewrite length_app_str.
  replace (Z.to_nat (Z.of_nat (String.length p + String.length partial)
                     + - Z.of_nat (String.length partial)))
    with (String.length p) by lia.
  apply take_app_exact.
Qed.

(** X14: [apply_completion] never touches the text behind the cursor and
    leaves the cursor right behind the inserted completion.  When the text
    before the cursor ends with the partial word, that word is what the
    completion replaces: the text in front of the word, the completion and
    the text behind the cursor make up the new input. *)
Theorem completion_replaces_partial_word :
  forall (completion original partial_word : string) (w : AITerminalWindow.t),
    let w' := AITerminalWindow.apply_completion completion original partial_word w in
    drop (AITerminalWindow.input_position w') (AITerminalWindow.input_text w')
    = drop (AITerminalWindow.input_position w) original
    /\ (exists front,
          take (AITerminalWindow.input_position w') (AITerminalWindow.input_text w')
          = front ++ completion)
    /\ (forall front,
          truthy partial_word = true ->
          take (AITerminalWindow.input_position w) original = front ++ partial_word ->
          AITerminalWindow.input_text w'
          = front ++ completion ++ drop (AITerminalWindow.input_position w) original
          /\ AITerminalWindow.input_position w'
             = String.length front + String.length completion).
Proof.
  intros completion original partial_word w w'.
  assert (Shape : exists front,
             AITerminalWindow.input_text w'
             = front ++ completion ++ drop (AITerminalWindow.input_position w) original
             /\ AITerminalWindow.input_position w'
                = String.length front + String.length completion
             /\ (truthy partial_word = true ->
                 front = slice_to (- Z.of_nat (String.length partial_word))
                           (take (AITerminalWindow.input_position w) original))).
  { unfold w', AITerminalWindow.apply_completion. cbv zeta.
    destruct (truthy partial_word); eexists; unfold AITerminalWindow.with_input;
      cbn [AITerminalWindow.input_text AITerminalWindow.input_position];
      (split; [reflexivity|]);
      (split; [|first [intros _; reflexivity | discriminate]]);
      rewrite !length_app_str, ?length_take_min, ?length_drop; lia. }
  destruct Shape as [front [Et [Ep Ef]]].
  assert (P : AITerminalWindow.input_position w' = String.length (front ++ completion))
    by (rewrite length_app_str; exact Ep).
  split; [|split].
  - rewrite Et, P, <- append_assoc_str. apply drop_app_exact.
  - exists front. rewrite Et, P, <- append_assoc_str. apply take_app_exact.
  - intros front' T E. specialize (Ef T). rewrite E, (slice_off_suffix front' _ T) in Ef.
    subst front. split; assumption.
Qed.

Lemma completion_replaces_partial_word_witness :
  AITerminalWindow.input_text
    (AITerminalWindow.apply_completion "foobar" "ls fo | wc" "fo"
       (AITerminalWindow.with_input "ls fo | wc" 5
          (Scenario.window (AITerminalWindow.Local Scenario.local) EmptyString)))
  = "ls foobar | wc"
  /\ AITerminalWindow.input_position
       (AITerminalWindow.apply_completion "foobar" "ls fo | wc" "fo"
          (AITerminalWindow.with_input "ls fo | wc" 5
             (Scenario.window (AITerminalWindow.Local Scenario.local) EmptyString)))
     = 9.
Proof.
  destruct (completion_replaces_partial_word "foobar" "ls fo | wc" "fo"
              (AITerminalWindow.with_input "ls fo | wc" 5
                 (Scenario.window (AITerminalWindow.Local Scenario.local) EmptyString)))
    as [_ [_ H]].
  apply (H "ls "); reflexivity.
Defined.

Lemma completion_lines_clean (out x : string) :
  In x (LocalClient.completion_lines out) -> truthy x = true /\ strip x = x.
Proof.
  unfold LocalClient.completion_lines. intros H.
  apply in_map_iff in H. destruct H as [line [E H]].
  apply filter_In in H. destruct H as [_ T]. subst x.
  split; [exact T | apply strip_idem].
Qed.

(** X15: on both backends every candidate [get_completions] returns is a
    non-empty text with no white space at either end, and when the shell
    call fails (it raises on either backend, it times out on the local
    one, or the remote client is not connected) the result is the empty
    list instead of an error. *)
Theorem completions_are_clean :
  forall (os : LocalClient.OS) (lc : LocalClient.t) (sc : SSHClient.t)
         (partial_text x : string),
    (In x (LocalClient.get_completions os lc partial_text) ->
     truthy x = true /\ strip x = x)
    /\ (In x (SSHClient.get_completions sc partial_text) ->
        truthy x = true /\ strip x = x)
    /\ (SSHClient.connected sc = false -> SSHClient.get_completions sc partial_text = [])
    /\ (SSHClient.client sc = None -> SSHClient.get_completions sc partial_text = [])
    /\ (forall host msg,
          SSHClient.client sc = Some host ->
          SSHClient.exec_command host
            (SSHClient.completion_cmd (SSHClient.current_directory sc) partial_text)
          = SSHClient.ExecRaised msg ->
          SSHClient.get_completions sc partial_text = [])
    /\ (LocalClient.run os (LocalClient.completion_cmd partial_text)
          (LocalClient.current_directory lc) 2 = LocalClient.RunTimeout
        \/ (exists msg,
              LocalClient.run os (LocalClient.completion_cmd partial_text)
                (LocalClient.current_directory lc) 2 = LocalClient.RunError msg) ->
        LocalClient.get_completions os lc partial_text = []).
Proof.
  intros os lc sc partial_text x. split; [|split; [|split; [|split; [|split]]]].
  - unfold LocalClient.get_completions.
    destruct (LocalClient.run os _ _ 2) as [stdout stderr| |msg]; try (intros []).
    destruct (truthy stdout); [apply completion_lines_clean | intros []].
  - unfold SSHClient.get_completions.
    destruct (SSHClient.client sc) as [host|]; [|intros []].
    destruct (negb (SSHClient.connected sc)); [intros []|].
    destruct (SSHClient.exec_command host _) as [out err|msg]; [|intros []].
    destruct (truthy out); [apply completion_lines_clean | intros []].
  - intros H. unfold SSHClient.get_completions. rewrite H.
    destruct (SSHClient.client sc); reflexivity.
  - intros H. unfold SSHClient.get_completions. rewrite H. reflexivity.
  - intros host msg Hc He. unfold SSHClient.get_completions. rewrite Hc, He.
    destruct (negb (SSHClient.connected sc)); reflexivity.
  - intros [H|[msg H]]; unfold LocalClient.get_completions; rewrite H; reflexivity.
Qed.

(** ** The list of saved servers *)

Lemma find_replace_same (n : string) (cfg : ServerList.Server) (servers : list ServerList.Server) :
  ServerList.name cfg = n ->
  ServerList.find_server n servers <> None ->
  ServerList.find_server n (ServerList.replace_first n cfg servers) = Some cfg.
Proof.
  intros Hn. induction servers as [|s servers IH]; simpl; [congruence|].
  destruct (String.eqb (ServerList.name s) n) eqn:E; simpl.
  - intros _. rewrite Hn, String.eqb_refl. reflexivity.
  - intros H. rewrite E. exact (IH H).
Qed.

Lemma find_replace_other (n other : string) (cfg : ServerList.Server)
    (servers : list ServerList.Server) :
  ServerList.name cfg = n -> other <> n ->
  ServerList.find_server other (ServerList.replace_first n cfg servers)
  = ServerList.find_server other servers.
Proof.
  intros Hn Hne. induction servers as [|s servers IH]; [reflexivity|]. simpl.
  destruct (String.eqb (ServerList.name s) n) eqn:E; simpl.
  - apply String.eqb_eq in E. rewrite Hn, E.
    replace (String.eqb n other) with false; [reflexivity|].
    symmetry. apply String.eqb_neq. congruence.
  - rewrite IH. reflexivity.
Qed.

Lemma find_append (other : string) (cfg : ServerList.Server)
    (servers : list ServerList.Server) :
  ServerList.find_server other (servers ++ [cfg])
  = match ServerList.find_server other servers with
    | Some s => Some s
    | None => if String.eqb (ServerList.name cfg) other then Some cfg else None
    end.
Proof.
  induction servers as [|s servers IH]; [reflexivity|]. simpl.
  destruct (String.eqb (ServerList.name s) other); [reflexivity | exact IH].
Qed.

Lemma names_replace (n : string) (cfg : ServerList.Server) (servers : list ServerList.Server) :
  ServerList.name cfg = n ->
  map ServerList.name (ServerList.replace_first n cfg servers) = map ServerList.name servers.
Proof.
  intros Hn. induction servers as [|s servers IH]; [reflexivity|]. simpl.
  destruct (String.eqb (ServerList.name s) n) eqn:E; simpl.
  - apply String.eqb_eq in E. rewrite Hn, E. reflexivity.
  - rewrite IH. reflexivity.
Qed.

Lemma find_none_not_in (n : string) (servers : list ServerList.Server) :
  ServerList.find_server n servers = None -> ~ In n (map ServerList.name servers).
Proof.
  induction servers as [|s servers IH]; simpl; [tauto|].
  destruct (String.eqb (ServerList.name s) n) eqn:E; [discriminate|].
  intros H [Hs|Hin]; [|exact (IH H Hin)].
  apply String.eqb_neq in E. contradiction.
Qed.

(** What a save that goes through does to the list. *)
Lemma save_server_saved (servers servers' : list ServerList.Server)
    (name_text host_text port_text username_text password_text n : string) :
  ServerList.on_save_server servers name_text host_text port_text
    username_text password_text = (servers', ServerList.Saved n) ->
  exists p,
    let cfg := {| ServerList.name := n; ServerList.host := strip host_text;
                  ServerList.port := p; ServerList.username := username_text;
                  ServerList.password := password_text |} in
    n = strip name_text
    /\ truthy n = true /\ truthy (strip host_text) = true
    /\ (if truthy port_text then PyStr.int_of_str port_text else Some 22%Z) = Some p
    /\ servers' = match ServerList.find_server n servers with
                  | Some _ => ServerList.replace_first n cfg servers
                  | None => (servers ++ [cfg])%list
                  end.
Proof.
  unfold ServerList.on_save_server. cbv zeta.
  destruct (truthy (strip name_text)) eqn:Tn; [|discriminate].
  destruct (truthy (strip host_text)) eqn:Th; [|discriminate].
  cbn [negb orb].
  destruct (if truthy port_text then PyStr.int_of_str port_text else Some 22%Z)
    as [p|]; [|discriminate].
  destruct (ServerList.find_server (strip name_text) servers) eqn:F;
    intros H; injection H as <- <-; exists p; cbv zeta; rewrite F; repeat split;
    assumption.
Qed.

(** X16: a server that [on_save_server] has saved is the one a lookup by
    its name finds afterwards, with the stripped name and host, the parsed
    port (22 for an empty port field) and the user name and password as
    typed; lookups of every other name find what they found before. *)
Theorem saved_server_is_found :
  forall (servers servers' : list ServerList.Server)
         (name_text host_text port_text username_text password_text n : string),
    ServerList.on_save_server servers name_text host_text port_text
      username_text password_text = (servers', ServerList.Saved n) ->
    (exists p,
        (if truthy port_text then PyStr.int_of_str port_text else Some 22%Z) = Some p
        /\ ServerList.find_server n servers'
           = Some {| ServerList.name := strip name_text;
                     ServerList.host := strip host_text;
                     ServerList.port := p;
                     ServerList.username := username_text;
                     ServerList.password := password_text |})
    /\ (forall other, other <> n ->
        ServerList.find_server other servers' = ServerList.find_server other servers).
Proof.
  intros servers servers' name_text host_text port_text username_text password_text n H.
  destruct (save_server_saved _ _ _ _ _ _ _ _ H) as [p [En [_ [_ [Ep Es]]]]].
  cbv zeta in Es. subst servers'. split.
  - exists p. split; [exact Ep|]. rewrite <- En.
    destruct (ServerList.find_server n servers) eqn:F.
    + apply find_replace_same; [reflexivity | congruence].
    + rewrite find_append, F. simpl. rewrite String.eqb_refl. reflexivity.
  - intros other Hne. destruct (ServerList.find_server n servers) eqn:F.
    + apply find_replace_other; [reflexivity | exact Hne].
    + rewrite find_append. simpl.
      replace (String.eqb n other) with false
        by (symmetry; apply String.eqb_neq; congruence).
      destruct (ServerList.find_server other servers); reflexivity.
Qed.

Lemma saved_server_is_found_witness :
  exists p,
    (if truthy "2222" then PyStr.int_of_str "2222" else Some 22%Z) = Some p
    /\ ServerList.find_server "web"
         (fst (ServerList.on_save_server
                 [{| ServerList.name := "web"; ServerList.host := "old.example";
                     ServerList.port := 22; ServerList.username := "u";
                     ServerList.password := "p" |}]
                 " web " "new.example " "2222" "root" "secret"))
       = Some {| ServerList.name := strip " web ";
                 ServerList.host := strip "new.example ";
                 ServerList.port := p;
                 ServerList.username := "root";
                 ServerList.password := "secret" |}.
Proof.
  apply (proj1 (saved_server_is_found
                  [{| ServerList.name := "web"; ServerList.host := "old.example";
                      ServerList.port := 22; ServerList.username := "u";
                      ServerList.password := "p" |}]
                  _ " web " "new.example " "2222" "root" "secret" "web" eq_refl)).
Defined.

(** X17: [on_save_server] keeps server names unique: when no two saved
    servers share a name, none do after a save.  A save under an existing
    name keeps the length of the list, a save under a new name adds one
    entry, and a save that is refused (blank name or host, or a port that
    is no number) leaves the list exactly as it was. *)
Theorem save_keeps_names_unique :
  forall (servers : list ServerList.Server)
         (name_text host_text port_text username_text password_text : string),
    let r := ServerList.on_save_server servers name_text host_text port_text
               username_text password_text in
    (NoDup (map ServerList.name servers) -> NoDup (map ServerList.name (fst r)))
    /\ (snd r = ServerList.Rejected \/ snd r = ServerList.PortRaised -> fst r = servers)
    /\ (forall n, snd r = ServerList.Saved n ->
        List.length (fst r)
        = match ServerList.find_server n servers with
          | Some _ => List.length servers
          | None => S (List.length servers)
          end).
Proof.
  intros servers name_text host_text port_text username_text password_text r.
  destruct r as [servers' outcome] eqn:R. unfold r in R. cbn [fst snd].
  destruct outcome as [n| |].
  - destruct (save_server_saved _ _ _ _ _ _ _ _ R) as [p [En [_ [_ [_ Es]]]]].
    cbv zeta in Es. split; [|split].
    + intros ND. subst servers'. destruct (ServerList.find_server n servers) eqn:F.
      * rewrite names_replace by reflexivity. exact ND.
      * rewrite map_app. simpl.
        apply NoDup_app; [exact ND | repeat constructor; intros [] |].
        intros x Hx [<-|[]]. exact (find_none_not_in _ _ F Hx).
    + intros [H|H]; discriminate H.
    + intros n' H. injection H as <-. subst servers'.
      destruct (ServerList.find_server n servers) eqn:F.
      * rewrite <- !(length_map ServerList.name), names_replace by reflexivity.
        reflexivity.
      * rewrite length_app. simpl. lia.
  - assert (servers' = servers).
    { revert R. unfold ServerList.on_save_server. cbv zeta.
      repeat match goal with
             | |- context [if ?b then _ else _] => destruct b
             | |- context [match ?x with _ => _ end] => destruct x
             end; intros H; injection H; congruence. }
    subst. repeat split; try discriminate. tauto.
  - assert (servers' = servers).
    { revert R. unfold ServerList.on_save_server. cbv zeta.
      repeat match goal with
             | |- context [if ?b then _ else _] => destruct b
             | |- context [match ?x with _ => _ end] => destruct x
             end; intros H; injection H; congruence. }
    subst. repeat split; try discriminate. tauto.
Qed.

(** X18: after [on_delete_server] has deleted the selected name, no lookup
    finds that name any more, even when several entries carried it, and
    every other name is found as before; with nothing selected, or with the
    placeholder for a new server selected, nothing is deleted. *)
Theorem deleted_server_is_gone :
  forall (servers : list ServerList.Server) (n : string),
    (truthy n = true -> n <> "<New Server>" ->
     snd (ServerList.on_delete_server servers (Some n)) = true
     /\ ServerList.find_server n (fst (ServerList.on_delete_server servers (Some n)))
        = None
     /\ (forall other, other <> n ->
         ServerList.find_server other
           (fst (ServerList.on_delete_server servers (Some n)))
         = ServerList.find_server other servers))
    /\ ServerList.on_delete_server servers None = (servers, false)
    /\ ServerList.on_delete_server servers (Some EmptyString) = (servers, false)
    /\ ServerList.on_delete_server servers (Some "<New Server>") = (servers, false).
Proof.
  intros servers n. split; [|repeat split].
  intros T Hne. unfold ServerList.on_delete_server. rewrite T.
  replace (String.eqb n "<New Server>") with false
    by (symmetry; apply String.eqb_neq; exact Hne).
  cbn [negb orb fst snd]. split; [reflexivity|]. split.
  - induction servers as [|s servers IH]; [reflexivity|]. simpl.
    destruct (String.eqb (ServerList.name s) n) eqn:E; simpl; [exact IH|].
    rewrite E. exact IH.
  - intros other Ho. induction servers as [|s servers IH]; [reflexivity|]. simpl.
    destruct (String.eqb (ServerList.name s) n) eqn:E; simpl.
    + apply String.eqb_eq in E.
      replace (String.eqb (ServerList.name s) other) with false
        by (symmetry; apply String.eqb_neq; congruence).
      exact IH.
    + rewrite IH. reflexivity.
Qed.

Lemma deleted_server_is_gone_witness :
  ServerList.find_server "web"
    (fst (ServerList.on_delete_server
            [{| ServerList.name := "web"; ServerList.host := "a";
                ServerList.port := 22; ServerList.username := "u";
                ServerList.password := "p" |};
             {| ServerList.name := "db"; ServerList.host := "b";
                ServerList.port := 22; ServerList.username := "u";
                ServerList.password := "p" |}] (Some "web"))) = None.
Proof.
  apply (proj1 (deleted_server_is_gone _ "web")); [reflexivity|].
  intros H. discriminate H.
Defined.

(** ** The stored output limit, clearing, and [cd] followed by a command *)

(** X19: whatever is typed into the maximum-output field, the limit that
    [save_settings] stores is a number that is not negative, and it is the
    very limit [process_ai_command] truncates with afterwards; a number
    typed that is zero or more is stored as it is, and a negative number or
    a text that is no number stores the default of 150000. *)
Theorem stored_limit_is_used :
  forall (entry_text : string) (s : AITerminalWindow.Settings),
    (0 <= AITerminalWindow.max_output_val entry_text)%Z
    /\ AITerminalWindow.max_output (AITerminalWindow.save_max_output entry_text s)
       = AITerminalWindow.max_output_val entry_text
    /\ (forall z, PyStr.int_of_str entry_text = Some z -> (0 <= z)%Z ->
        AITerminalWindow.max_output_val entry_text = z)
    /\ (forall z, PyStr.int_of_str entry_text = Some z -> (z < 0)%Z ->
        AITerminalWindow.max_output_val entry_text = 150000%Z)
    /\ (PyStr.int_of_str entry_text = None ->
        AITerminalWindow.max_output_val entry_text = 150000%Z).
Proof.
  intros entry_text s.
  assert (P : (0 <= AITerminalWindow.max_output_val entry_text)%Z).
  { unfold AITerminalWindow.max_output_val, AITerminalWindow.MAX_OUTPUT_CHARS.
    destruct (PyStr.int_of_str entry_text) as [z|]; [|lia].
    destruct (Z.ltb_spec z 0); lia. }
  split; [exact P|]. split; [|split; [|split]].
  - unfold AITerminalWindow.max_output, AITerminalWindow.save_max_output.
    cbn [AITerminalWindow.max_output_chars].
    replace (AITerminalWindow.max_output_val entry_text <? 0)%Z with false;
      [reflexivity|]. symmetry. apply Z.ltb_ge. exact P.
  - intros z E Hz. unfold AITerminalWindow.max_output_val. rewrite E.
    replace (z <? 0)%Z with false; [reflexivity|]. symmetry. apply Z.ltb_ge. exact Hz.
  - intros z E Hz. unfold AITerminalWindow.max_output_val. rewrite E.
    replace (z <? 0)%Z with true; [reflexivity|]. symmetry. apply Z.ltb_lt. exact Hz.
  - intros E. unfold AITerminalWindow.max_output_val. rewrite E. reflexivity.
Qed.


Lemma execute_keeps_connection (c : SSHClient.t) (command : string) (streaming : bool) :
  let c' := fst (fst (SSHClient.execute_command c command streaming)) in
  SSHClient.client c' = SSHClient.client c
  /\ SSHClient.connected c' = SSHClient.connected c.
Proof.
  unfold SSHClient.execute_command.
  destruct (SSHClient.client c) as [host|] eqn:Hc; [|split; [exact Hc | reflexivity]].
  destruct (SSHClient.connected c) eqn:Hn; [|split; [exact Hc | exact Hn]].
  simpl negb. cbv beta iota zeta.
  destruct (SSHClient.track host _ _ true) as [[d o] probes]. cbv beta iota.
  set (c1 := if SSHClient.known d then SSHClient.set_current_directory d c else c).
  assert (F : SSHClient.client c1 = Some host /\ SSHClient.connected c1 = true).
  { unfold c1. destruct (SSHClient.known d); split; assumption. }
  match goal with |- context [if ?b then (c1, probes, _) else _] => destruct b end;
    [exact F|].
  destruct streaming.
  - unfold SSHClient._execute_streaming.
    destruct (SSHClient.open_session host _); exact F.
  - destruct (SSHClient.exec_command host _); exact F.
Qed.

(** X21: the directory a [cd] leaves is where the next command runs.  On
    the local backend, after a [cd] that succeeded with the system
    reporting [cwd], the next command that is no [cd] is run by the shell
    as given, with [cwd] as its working directory.  On the remote backend,
    after any command that left the tracked directory [dir], the next
    command without [cd] is submitted as a [cd] into the quoted [dir]
    followed by the command as given. *)
Theorem cd_then_command :
  (forall (os : LocalClient.OS) (c : LocalClient.t) (cd_command command cwd : string)
          (timeout : option nat),
      LocalClient.is_cd cd_command = true ->
      LocalClient.chdir os (LocalClient.cd_path os c (drop 3 (strip cd_command)))
      = LocalClient.ChdirOk cwd ->
      LocalClient.is_cd command = false ->
      let c1 := fst (fst (LocalClient.execute_command os c cd_command false None)) in
      fst (LocalClient.execute_command os c1 command false timeout)
      = (c1, [LocalClient.EvRun command cwd]))
  /\ (forall (c : SSHClient.t) (host : SSHClient.Host) (first command dir : string)
             (streaming : bool),
        SSHClient.client c = Some host ->
        SSHClient.connected c = true ->
        let c1 := fst (fst (SSHClient.execute_command c first streaming)) in
        SSHClient.current_directory c1 = Some dir ->
        truthy dir = true ->
        Forall (fun p => startswith "cd " p = false) (SSHClient.split_commands command) ->
        fst (SSHClient.execute_command c1 command false)
        = (c1, [SSHClient.EvExec ("cd " ++ Shlex.quote dir ++ " && " ++ command)])).
Proof.
  split.
  - intros os c cd_command command cwd timeout Hcd Hok Hno c1.
    assert (E : c1 = LocalClient.set_current_directory cwd c).
    { unfold c1, LocalClient.execute_command. rewrite Hcd, Hok. reflexivity. }
    rewrite E. unfold LocalClient.execute_command. rewrite Hno.
    cbn [LocalClient.current_directory LocalClient.set_current_directory].
    destruct (LocalClient.run os command cwd _); reflexivity.
  - intros c host first command dir streaming Hclient Hconn c1 Hdir Tdir Hno.
    destruct (execute_keeps_connection c first streaming) as [K1 K2].
    fold c1 in K1, K2. rewrite Hclient in K1. rewrite Hconn in K2.
    rewrite (execute_without_cd c1 host command K1 K2 Hno), Hdir, Tdir.
    destruct (SSHClient.exec_command host _); reflexivity.
Qed.

Lemma cd_then_command_witness :
  fst (LocalClient.execute_command Scenario.os
         (fst (fst (LocalClient.execute_command Scenario.os Scenario.local
                      "cd /tmp" false None)))
         "ls" false None)
  = (fst (fst (LocalClient.execute_command Scenario.os Scenario.local
                 "cd /tmp" false None)),
     [LocalClient.EvRun "ls" "/tmp"])
  /\ fst (SSHClient.execute_command
            (fst (fst (SSHClient.execute_command Scenario.remote "cd /tmp" false)))
            "ls" false)
     = (fst (fst (SSHClient.execute_command Scenario.remote "cd /tmp" false)),
        [SSHClient.EvExec "cd /tmp && ls"]).
Proof.
  destruct cd_then_command as [L R]. split.
  - apply (L Scenario.os Scenario.local "cd /tmp" "ls" "/tmp" None); reflexivity.
  - apply (R Scenario.remote Scenario.host "cd /tmp" "ls" "/tmp" false);
      try reflexivity.
    repeat constructor.
Defined.

(** ** Which [cd]s are tracked *)



Lemma segment_probe_count (host : SSHClient.Host) (part : string) (d : option string)
    (o : bool) :
  match SSHClient.segment host part d o with
  | SSHClient.Next _ _ evs | SSHClient.Stop _ _ evs =>
      List.length evs <= if startswith "cd " part then 1 else 0
  end.
Proof.
  unfold SSHClient.segment.
  destruct (SSHClient.is_sep part); [simpl; lia|].
  destruct (startswith "cd " part); [|simpl; lia].
  destruct (Shlex.split part) as [[|name [|target more]]|]; try (simpl; lia).
  destruct (SSHClient.exec_command host _) as [out err|msg]; [|simpl; lia].
  destruct (truthy out && negb (truthy err)); [|simpl; lia].
  destruct (last _ None); simpl; lia.
Qed.

Lemma track_probe_count (host : SSHClient.Host) (parts : list string) :
  forall d o,
    List.length (snd (SSHClient.track host parts d o))
    <= List.length (filter (startswith "cd ") parts).
Proof.
  induction parts as [|part parts IH]; intros d o; [simpl; lia|].
  cbn [SSHClient.track filter].
  pose proof (segment_probe_count host part d o) as S.
  destruct (SSHClient.segment host part d o) as [d1 o1 evs|d1 o1 evs].
  - specialize (IH d1 o1).
    destruct (SSHClient.track host parts d1 o1) as [[d2 o2] evs2].
    cbn [snd] in IH |- *. rewrite length_app.
    destruct (startswith "cd " part); simpl in *; lia.
  - cbn [snd]. destruct (startswith "cd " part); simpl in *; lia.
Qed.

(** X23: a remote command, blocking or streamed, costs at most one
    directory probe for each of its segments that starts with [cd ],
    whatever the host answers; a client that is not connected, or that has
    no client object, sends nothing at all. *)
Theorem probes_bounded_by_cd_segments :
  forall (c : SSHClient.t) (command : string) (streaming : bool),
    List.length (filter SSHClient.is_probe
                   (snd (fst (SSHClient.execute_command c command streaming))))
    <= List.length (filter (startswith "cd ") (SSHClient.split_commands command))
    /\ (SSHClient.connected c = false \/ SSHClient.client c = None ->
        snd (fst (SSHClient.execute_command c command streaming)) = []).
Proof.
  intros c command streaming. split.
  - unfold SSHClient.execute_command.
    destruct (SSHClient.client c) as [host|]; [|simpl; lia].
    destruct (negb (SSHClient.connected c)); [simpl; lia|].
    cbv beta iota zeta.
    pose proof (track_probe_count host (SSHClient.split_commands command)
                  (SSHClient.current_directory c) true) as B.
    pose proof (track_probes host (SSHClient.split_commands command)
                  (SSHClient.current_directory c) true) as P.
    destruct (SSHClient.track host _ _ true) as [[d o] probes].
    cbn [snd] in B, P. cbv beta iota.
    assert (F : filter SSHClient.is_probe probes = probes).
    { clear B. induction probes as [|e probes IH]; [reflexivity|].
      simpl in P |- *. apply andb_true_iff in P. destruct P as [Pe Pr].
      rewrite Pe, (IH Pr). reflexivity. }
    assert (G : forall chunks : list string,
                  filter SSHClient.is_probe (map SSHClient.EvCallback chunks) = []).
    { induction chunks as [|x chunks IH]; [reflexivity | exact IH]. }
    match goal with |- context [if ?b then (_, probes, _) else _] => destruct b end.
    + cbn [fst snd]. rewrite F. exact B.
    + destruct streaming.
      * unfold SSHClient._execute_streaming.
        destruct (SSHClient.open_session host _); cbn [fst snd];
          rewrite filter_app, F; cbn [filter SSHClient.is_probe];
          rewrite ?G, app_nil_r; exact B.
      * destruct (SSHClient.exec_command host _); cbn [fst snd];
          rewrite filter_app, F; simpl; rewrite app_nil_r; exact B.
  - intros [H|H]; unfold SSHClient.execute_command; rewrite H.
    + destruct (SSHClient.client c); reflexivity.
    + reflexivity.
Qed.

Lemma connect_seeds_directory_witness :
  SSHClient.current_directory
    (fst (SSHClient.connect
            (SSHClient.Dialled
               {| SSHClient.exec_command := fun cmd =>
                    if String.eqb cmd "pwd" then SSHClient.ExecRaised "EOF"
                    else SSHClient.ExecOut EmptyString EmptyString;
                  SSHClient.open_session := fun _ => SSHClient.StreamChunks [] |})
            SSHClient.init)) = None
  /\ snd (fst (SSHClient.execute_command
                 (fst (SSHClient.connect
                         (SSHClient.Dialled
                            {| SSHClient.exec_command := fun cmd =>
                                 if String.eqb cmd "pwd" then SSHClient.ExecRaised "EOF"
                                 else SSHClient.ExecOut EmptyString EmptyString;
                               SSHClient.open_session := fun _ =>
                                 SSHClient.StreamChunks [] |})
                         SSHClient.init))
                 "ls -l" false))
     = [SSHClient.EvExec "ls -l"]
  /\ SSHClient.connected
       (fst (SSHClient.connect (SSHClient.DialRaised Scenario.host "timed out")
               Scenario.remote)) = true.
Proof.
  destruct (connect_seeds_directory
              {| SSHClient.exec_command := fun cmd =>
                   if String.eqb cmd "pwd" then SSHClient.ExecRaised "EOF"
                   else SSHClient.ExecOut EmptyString EmptyString;
                 SSHClient.open_session := fun _ => SSHClient.StreamChunks [] |}
              SSHClient.init "ls -l" EmptyString) as [_ [_ [_ [H _]]]].
  destruct (H "EOF" eq_refl) as [D E]. split; [exact D|]. split.
  - apply E. repeat constructor.
  - destruct (connect_seeds_directory Scenario.host Scenario.remote
                EmptyString "timed out") as [_ [_ [_ [_ [_ [_ [F _]]]]]]].
    exact F.
Defined.

Lemma save_keeps_names_unique_witness :
  NoDup (map ServerList.name
           (fst (ServerList.on_save_server
                   [{| ServerList.name := "web"; ServerList.host := "a";
                       ServerList.port := 22; ServerList.username := "u";
                       ServerList.password := "p" |}]
                   "db" "b.example" EmptyString "root" "secret"))).
Proof.
  apply (proj1 (save_keeps_names_unique
                  [{| ServerList.name := "web"; ServerList.host := "a";
                      ServerList.port := 22; ServerList.username := "u";
                      ServerList.password := "p" |}]
                  "db" "b.example" EmptyString "root" "secret")).
  repeat constructor; simpl; tauto.
Defined.
